(** * Airline management system: seat inventory, search and record stores

    A shallow embedding of [problems/airline-management-system.go].

    The Go program allocates every struct with [&T{...}] and passes it
    around by pointer, so the embedding keeps one typed heap per struct
    type and threads a [Store] through every function.  A nil pointer
    dereference, an out-of-range index and [make] with a length that is
    negative or beyond what the runtime allocates are run-time panics in
    Go; here the function returns [None].

    Go's [int] is modelled by [Z]: the only arithmetic in the program is
    [i + 1] for [i < TotalSeats] and [seatNumber - 1] for
    [1 <= seatNumber], neither of which can wrap around. *)

From Stdlib Require Import ZArith String List Bool Lia.
From stdpp Require Import base option list gmap strings.

Local Open Scope Z_scope.
Local Open Scope nat_scope.

(** ** Pointers and heaps *)

(** An address is the index of the object in the heap of its type.
    Nothing is ever freed, so allocation appends at the end and the new
    address is the old length of the heap. *)
Abbreviation loc := nat (only parsing).

(** A Go pointer: [None] is [nil]. *)
Abbreviation ptr := (option loc) (only parsing).

Abbreviation heap T := (list T) (only parsing).

Definition alloc {T} (h : heap T) (x : T) : loc * heap T :=
  (length h, h ++ [x]).

(** [*p] for reading: panics on nil. *)
Definition deref {T} (h : heap T) (p : ptr) : option T :=
  l ← p; h !! l.

(** ** time.Time

    The program only observes a [time.Time] through [Year()], [Month()]
    and [Day()], which the standard library computes in the value's own
    location.  A time is therefore represented by its calendar date and
    the time elapsed since midnight (in nanoseconds), both in that
    location. *)
Record Time := mkTime {
  Year : Z;
  Month : Z;
  Day : Z;
  Clock : Z
}.

(** ** Structs *)

(* File: aircraft.go *)
Record Aircraft := mkAircraft {
  TailNumber : string;
  Model : string;
  TotalSeats : Z
}.

(* File: seat.go *)
Record Seat := mkSeat {
  SeatNumber : Z;
  IsBooked : bool
}.

(* File: flight.go.  [Seats] is the array of seat pointers: it is filled
   once by NewFlight, never resliced, appended to or copied. *)
Record Flight := mkFlight {
  FlightNumber : string;
  Source : string;
  Destination : string;
  Departure : Time;
  Arrival : Time;
  Flight_Aircraft : ptr;
  Seats : list ptr
}.

(* File: passenger.go *)
Record Passenger := mkPassenger {
  PassengerID : string;
  Name : string;
  Email : string;
  Phone : string
}.

(* File: booking.go *)
Record Booking := mkBooking {
  BookingID : string;
  Booking_Flight : ptr;
  Booking_Passenger : ptr;
  Booking_SeatNumber : Z;
  BookingTime : Time
}.

(** ** Slices

    [ams.flights] is copied into the FlightSearch when the facade is
    built and reassigned by every [append] afterwards, so slices of
    flights and of aircraft are modelled as Go has them: a header (base
    array, length, capacity) over a backing array that lives in the
    store.  A backing array is as long as its capacity. *)
Record slice := mkSlice {
  s_base : loc;
  s_len : nat;
  s_cap : nat
}.

(** [make([]*T, n)]: a fresh backing array of [n] nil pointers. *)
Definition make_slice (arrs : heap (list ptr)) (n : nat) : slice * heap (list ptr) :=
  let '(l, arrs') := alloc arrs (replicate n (None : ptr)) in
  (mkSlice l n n, arrs').

(** The elements a slice shows: the first [len] cells of its array. *)
Definition slice_elems (arrs : heap (list ptr)) (s : slice) : option (list ptr) :=
  arr ← arrs !! s_base s;
  if decide (s_len s ≤ length arr) then Some (take (s_len s) arr) else None.

(* File: flight_search.go *)
Record FlightSearch := mkFlightSearch {
  fs_flights : slice
}.

(* File: booking_manager.go.  [mu] guards the map against concurrent
   callers; in a sequential run Lock/Unlock pairs have no effect. *)
Record BookingManager := mkBookingManager {
  bookings : gmap string ptr
}.

(* File: payment.go.  [Amount] is the bit pattern of the float64; the
   program stores it and never computes with it. *)
Record Payment := mkPayment {
  PaymentID : string;
  Amount : Z;
  Method : string;
  Status : string
}.

(* File: payment_processor.go *)
Record PaymentProcessor := mkPaymentProcessor {
  payments : gmap string ptr
}.

(* File: airline_management_system.go *)
Record AirlineManagementSystem := mkAirlineManagementSystem {
  ams_flights : slice;
  ams_aircrafts : slice;
  flightSearch : ptr;
  bookingManager : ptr;
  paymentProcessor : ptr
}.

(** ** The store: one heap per type, and the package-level variables *)
Record Store := mkStore {
  aircraftH : heap Aircraft;
  seatH : heap Seat;
  flightH : heap Flight;
  passengerH : heap Passenger;
  bookingH : heap Booking;
  paymentH : heap Payment;
  flightArrH : heap (list ptr);
  aircraftArrH : heap (list ptr);
  flightSearchH : heap FlightSearch;
  amsH : heap AirlineManagementSystem;
  bookingManagerH : heap BookingManager;
  paymentProcessorH : heap PaymentProcessor;
  bookingManagerInstance : ptr;
  onceBookingManager : bool;
  paymentProcessorInstance : ptr;
  oncePaymentProcessor : bool
}.

(** The store when the process starts: nothing allocated, both singleton
    variables nil, neither [sync.Once] fired. *)
Definition init_store : Store :=
  mkStore [] [] [] [] [] [] [] [] [] [] [] [] None false None false.

Definition set_aircraftH (h : heap Aircraft) (st : Store) : Store :=
  mkStore h (seatH st) (flightH st) (passengerH st) (bookingH st) (paymentH st)
    (flightArrH st) (aircraftArrH st) (flightSearchH st) (amsH st)
    (bookingManagerH st) (paymentProcessorH st) (bookingManagerInstance st)
    (onceBookingManager st) (paymentProcessorInstance st) (oncePaymentProcessor st).

Definition set_seatH (h : heap Seat) (st : Store) : Store :=
  mkStore (aircraftH st) h (flightH st) (passengerH st) (bookingH st) (paymentH st)
    (flightArrH st) (aircraftArrH st) (flightSearchH st) (amsH st)
    (bookingManagerH st) (paymentProcessorH st) (bookingManagerInstance st)
    (onceBookingManager st) (paymentProcessorInstance st) (oncePaymentProcessor st).

Definition set_flightH (h : heap Flight) (st : Store) : Store :=
  mkStore (aircraftH st) (seatH st) h (passengerH st) (bookingH st) (paymentH st)
    (flightArrH st) (aircraftArrH st) (flightSearchH st) (amsH st)
    (bookingManagerH st) (paymentProcessorH st) (bookingManagerInstance st)
    (onceBookingManager st) (paymentProcessorInstance st) (oncePaymentProcessor st).

Definition set_passengerH (h : heap Passenger) (st : Store) : Store :=
  mkStore (aircraftH st) (seatH st) (flightH st) h (bookingH st) (paymentH st)
    (flightArrH st) (aircraftArrH st) (flightSearchH st) (amsH st)
    (bookingManagerH st) (paymentProcessorH st) (bookingManagerInstance st)
    (onceBookingManager st) (paymentProcessorInstance st) (oncePaymentProcessor st).

Definition set_bookingH (h : heap Booking) (st : Store) : Store :=
  mkStore (aircraftH st) (seatH st) (flightH st) (passengerH st) h (paymentH st)
    (flightArrH st) (aircraftArrH st) (flightSearchH st) (amsH st)
    (bookingManagerH st) (paymentProcessorH st) (bookingManagerInstance st)
    (onceBookingManager st) (paymentProcessorInstance st) (oncePaymentProcessor st).

Definition set_paymentH (h : heap Payment) (st : Store) : Store :=
  mkStore (aircraftH st) (seatH st) (flightH st) (passengerH st) (bookingH st) h
    (flightArrH st) (aircraftArrH st) (flightSearchH st) (amsH st)
    (bookingManagerH st) (paymentProcessorH st) (bookingManagerInstance st)
    (onceBookingManager st) (paymentProcessorInstance st) (oncePaymentProcessor st).

Definition set_flightArrH (h : heap (list ptr)) (st : Store) : Store :=
  mkStore (aircraftH st) (seatH st) (flightH st) (passengerH st) (bookingH st) (paymentH st)
    h (aircraftArrH st) (flightSearchH st) (amsH st)
    (bookingManagerH st) (paymentProcessorH st) (bookingManagerInstance st)
    (onceBookingManager st) (paymentProcessorInstance st) (oncePaymentProcessor st).

Definition set_aircraftArrH (h : heap (list ptr)) (st : Store) : Store :=
  mkStore (aircraftH st) (seatH st) (flightH st) (passengerH st) (bookingH st) (paymentH st)
    (flightArrH st) h (flightSearchH st) (amsH st)
    (bookingManagerH st) (paymentProcessorH st) (bookingManagerInstance st)
    (onceBookingManager st) (paymentProcessorInstance st) (oncePaymentProcessor st).

Definition set_flightSearchH (h : heap FlightSearch) (st : Store) : Store :=
  mkStore (aircraftH st) (seatH st) (flightH st) (passengerH st) (bookingH st) (paymentH st)
    (flightArrH st) (aircraftArrH st) h (amsH st)
    (bookingManagerH st) (paymentProcessorH st) (bookingManagerInstance st)
    (onceBookingManager st) (paymentProcessorInstance st) (oncePaymentProcessor st).

Definition set_amsH (h : heap AirlineManagementSystem) (st : Store) : Store :=
  mkStore (aircraftH st) (seatH st) (flightH st) (passengerH st) (bookingH st) (paymentH st)
    (flightArrH st) (aircraftArrH st) (flightSearchH st) h
    (bookingManagerH st) (paymentProcessorH st) (bookingManagerInstance st)
    (onceBookingManager st) (paymentProcessorInstance st) (oncePaymentProcessor st).

Definition set_bookingManagerH (h : heap BookingManager) (st : Store) : Store :=
  mkStore (aircraftH st) (seatH st) (flightH st) (passengerH st) (bookingH st) (paymentH st)
    (flightArrH st) (aircraftArrH st) (flightSearchH st) (amsH st)
    h (paymentProcessorH st) (bookingManagerInstance st)
    (onceBookingManager st) (paymentProcessorInstance st) (oncePaymentProcessor st).

Definition set_paymentProcessorH (h : heap PaymentProcessor) (st : Store) : Store :=
  mkStore (aircraftH st) (seatH st) (flightH st) (passengerH st) (bookingH st) (paymentH st)
    (flightArrH st) (aircraftArrH st) (flightSearchH st) (amsH st)
    (bookingManagerH st) h (bookingManagerInstance st)
    (onceBookingManager st) (paymentProcessorInstance st) (oncePaymentProcessor st).

(** [bookingManagerInstance = p] inside [onceBookingManager.Do]: the
    variable is assigned and the Once is marked done. *)
Definition set_bookingManagerInstance (p : ptr) (st : Store) : Store :=
  mkStore (aircraftH st) (seatH st) (flightH st) (passengerH st) (bookingH st) (paymentH st)
    (flightArrH st) (aircraftArrH st) (flightSearchH st) (amsH st)
    (bookingManagerH st) (paymentProcessorH st) p
    true (paymentProcessorInstance st) (oncePaymentProcessor st).

Definition set_paymentProcessorInstance (p : ptr) (st : Store) : Store :=
  mkStore (aircraftH st) (seatH st) (flightH st) (passengerH st) (bookingH st) (paymentH st)
    (flightArrH st) (aircraftArrH st) (flightSearchH st) (amsH st)
    (bookingManagerH st) (paymentProcessorH st) (bookingManagerInstance st)
    (onceBookingManager st) p true.

(** ** The functions of the program *)

(* File: aircraft.go *)
Definition NewAircraft (tailNumber model : string) (totalSeats : Z) (st : Store)
  : ptr * Store :=
  let '(l, h) := alloc (aircraftH st) (mkAircraft tailNumber model totalSeats) in
  (Some l, set_aircraftH h st).

(* File: passenger.go *)
Definition NewPassenger (passengerID name email phone : string) (st : Store)
  : ptr * Store :=
  let '(l, h) := alloc (passengerH st) (mkPassenger passengerID name email phone) in
  (Some l, set_passengerH h st).

(* File: payment.go *)
Definition NewPayment (paymentID : string) (amount : Z) (method status : string)
  (st : Store) : ptr * Store :=
  let '(l, h) := alloc (paymentH st) (mkPayment paymentID amount method status) in
  (Some l, set_paymentH h st).

(* File: booking.go.  [now] is what [time.Now()] reads. *)
Definition NewBooking (bookingID : string) (flight passenger : ptr)
  (seatNumber : Z) (now : Time) (st : Store) : ptr * Store :=
  let '(l, h) :=
    alloc (bookingH st) (mkBooking bookingID flight passenger seatNumber now) in
  (Some l, set_bookingH h st).

(* File: flight.go *)

(** The loop of NewFlight, [n] iterations left, at index [i]:
    [seats[i] = &Seat{SeatNumber: i + 1, IsBooked: false}]. *)
Fixpoint NewFlight_loop (n i : nat) (seats : list ptr) (sh : heap Seat)
  : list ptr * heap Seat :=
  match n with
  | O => (seats, sh)
  | S n' =>
      let '(l, sh') := alloc sh (mkSeat (Z.of_nat i + 1) false) in
      NewFlight_loop n' (S i) (<[i := Some l]> seats) sh'
  end.

(** [make([]*Seat, n)] panics ("len out of range") when [n] is negative
    and when [n] pointers take more room than the runtime hands out.
    [maxLen] is the largest length it does allocate: the runtime derives
    it from the address space of the target, and the language fixes no
    value for it. *)
Definition NewFlight (maxLen : Z) (flightNumber source destination : string)
  (departure arrival : Time) (aircraft : ptr) (st : Store) : option (ptr * Store) :=
  a ← deref (aircraftH st) aircraft;
  if ((TotalSeats a <? 0) || (maxLen <? TotalSeats a))%Z
  then None (* make: len out of range *)
  else
    let n := Z.to_nat (TotalSeats a) in
    let '(seats, sh) := NewFlight_loop n 0 (replicate n None) (seatH st) in
    let '(l, fh) :=
      alloc (flightH st)
        (mkFlight flightNumber source destination departure arrival aircraft seats) in
    Some (Some l, set_flightH fh (set_seatH sh st)).

Definition Flight_BookSeat (f : ptr) (seatNumber : Z) (st : Store)
  : option (bool * Store) :=
  if (seatNumber <? 1)%Z then Some (false, st)   (* [||] stops here: f is not read *)
  else
    fl ← deref (flightH st) f;
    if (Z.of_nat (length (Seats fl)) <? seatNumber)%Z then Some (false, st)
    else
      p ← Seats fl !! Z.to_nat (seatNumber - 1);
      l ← p;
      s ← seatH st !! l;
      if IsBooked s then Some (false, st)
      else Some (true, set_seatH (<[l := mkSeat (SeatNumber s) true]> (seatH st)) st).

(* File: flight_search.go *)
Definition NewFlightSearch (flights : slice) (st : Store) : ptr * Store :=
  let '(l, h) := alloc (flightSearchH st) (mkFlightSearch flights) in
  (Some l, set_flightSearchH h st).

(** The condition of the [if] in SearchFlights. *)
Definition search_cond (flight : Flight) (source destination : string) (date : Time)
  : bool :=
  String.eqb (Source flight) source && String.eqb (Destination flight) destination
  && (Year (Departure flight) =? Year date)%Z
  && (Month (Departure flight) =? Month date)%Z
  && (Day (Departure flight) =? Day date)%Z.

(** [for _, flight := range fs.flights], over the elements still to be
    visited; [results] is what the fresh local slice shows so far. *)
Fixpoint SearchFlights_loop (fh : heap Flight) (source destination : string)
  (date : Time) (flights results : list ptr) : option (list ptr) :=
  match flights with
  | [] => Some results
  | p :: rest =>
      flight ← deref fh p;
      if search_cond flight source destination date
      then SearchFlights_loop fh source destination date rest (results ++ [p])
      else SearchFlights_loop fh source destination date rest results
  end.

(** The result is given as the sequence of elements of the returned
    slice, which is local to the call and shares no array. *)
Definition FlightSearch_SearchFlights (fs : ptr) (source destination : string)
  (date : Time) (st : Store) : option (list ptr) :=
  s ← deref (flightSearchH st) fs;
  flights ← slice_elems (flightArrH st) (fs_flights s);
  SearchFlights_loop (flightH st) source destination date flights [].

(* File: booking_manager.go *)
Definition GetBookingManager (st : Store) : ptr * Store :=
  if onceBookingManager st then (bookingManagerInstance st, st)
  else
    let '(l, h) := alloc (bookingManagerH st) (mkBookingManager ∅) in
    let st' := set_bookingManagerInstance (Some l) (set_bookingManagerH h st) in
    (bookingManagerInstance st', st').

Definition BookingManager_AddBooking (bm booking : ptr) (st : Store) : option Store :=
  l ← bm;
  m ← bookingManagerH st !! l;
  b ← deref (bookingH st) booking;
  Some (set_bookingManagerH
          (<[l := mkBookingManager (<[BookingID b := booking]> (bookings m))]>
             (bookingManagerH st)) st).

(** A missing key reads as the zero value of [*Booking], nil. *)
Definition BookingManager_GetBooking (bm : ptr) (bookingID : string) (st : Store)
  : option ptr :=
  m ← deref (bookingManagerH st) bm;
  Some (default None (bookings m !! bookingID)).

(* File: payment_processor.go *)
Definition GetPaymentProcessor (st : Store) : ptr * Store :=
  if oncePaymentProcessor st then (paymentProcessorInstance st, st)
  else
    let '(l, h) := alloc (paymentProcessorH st) (mkPaymentProcessor ∅) in
    let st' := set_paymentProcessorInstance (Some l) (set_paymentProcessorH h st) in
    (paymentProcessorInstance st', st').

Definition PaymentProcessor_ProcessPayment (pp payment : ptr) (st : Store)
  : option Store :=
  l ← pp;
  m ← paymentProcessorH st !! l;
  p ← deref (paymentH st) payment;
  Some (set_paymentProcessorH
          (<[l := mkPaymentProcessor (<[PaymentID p := payment]> (payments m))]>
             (paymentProcessorH st)) st).

Section Program.

(** When [append] has to reallocate, the Go runtime picks the capacity of
    the new array; the language only promises room for the result.
    [growth c] is the number of spare cells the runtime adds when the old
    capacity was [c].  Everything below holds for every such choice. *)
Variable growth : nat → nat.

(** The largest length for which [make] allocates a slice of pointers
    (see NewFlight): it is the runtime's as well, and everything below
    holds for every value of it. *)
Variable maxLen : Z.

(** [append(s, x)] for a single element. *)
Definition go_append (arrs : heap (list ptr)) (s : slice) (x : ptr)
  : option (slice * heap (list ptr)) :=
  arr ← arrs !! s_base s;
  if decide (s_len s < s_cap s)
  then Some (mkSlice (s_base s) (S (s_len s)) (s_cap s),
             <[s_base s := <[s_len s := x]> arr]> arrs)
  else
    let '(l, arrs') :=
      alloc arrs (take (s_len s) arr ++ x :: replicate (growth (s_cap s)) None) in
    Some (mkSlice l (S (s_len s)) (S (s_len s) + growth (s_cap s)), arrs').

(* File: airline_management_system.go *)
Definition NewAirlineManagementSystem (st : Store) : ptr * Store :=
  let '(flights, fa) := make_slice (flightArrH st) 0 in
  let '(aircrafts, aa) := make_slice (aircraftArrH st) 0 in
  let '(bm, st1) := GetBookingManager (set_aircraftArrH aa (set_flightArrH fa st)) in
  let '(pp, st2) := GetPaymentProcessor st1 in
  let system := mkAirlineManagementSystem flights aircrafts None bm pp in
  let '(l, h) := alloc (amsH st2) system in
  let '(fs, st3) := NewFlightSearch (ams_flights system) (set_amsH h st2) in
  (Some l,
   set_amsH (<[l := mkAirlineManagementSystem (ams_flights system)
                      (ams_aircrafts system) fs (bookingManager system)
                      (paymentProcessor system)]> (amsH st3)) st3).

Definition AirlineManagementSystem_AddFlight (ams flight : ptr) (st : Store)
  : option Store :=
  l ← ams;
  a ← amsH st !! l;
  '(s, arrs) ← go_append (flightArrH st) (ams_flights a) flight;
  Some (set_amsH (<[l := mkAirlineManagementSystem s (ams_aircrafts a)
                           (flightSearch a) (bookingManager a)
                           (paymentProcessor a)]> (amsH st))
          (set_flightArrH arrs st)).

Definition AirlineManagementSystem_AddAircraft (ams aircraft : ptr) (st : Store)
  : option Store :=
  l ← ams;
  a ← amsH st !! l;
  '(s, arrs) ← go_append (aircraftArrH st) (ams_aircrafts a) aircraft;
  Some (set_amsH (<[l := mkAirlineManagementSystem (ams_flights a) s
                           (flightSearch a) (bookingManager a)
                           (paymentProcessor a)]> (amsH st))
          (set_aircraftArrH arrs st)).

Definition AirlineManagementSystem_SearchFlights (ams : ptr)
  (source destination : string) (date : Time) (st : Store) : option (list ptr) :=
  a ← deref (amsH st) ams;
  FlightSearch_SearchFlights (flightSearch a) source destination date st.

(** ** Sequences of calls

    A client of the package is a sequence of calls of its functions; a
    call returns a value and a new store, or panics. *)
Inductive op :=
  | CallNewAircraft (tailNumber model : string) (totalSeats : Z)
  | CallNewPassenger (passengerID name email phone : string)
  | CallNewPayment (paymentID : string) (amount : Z) (method status : string)
  | CallNewBooking (bookingID : string) (flight passenger : ptr) (seatNumber : Z)
      (now : Time)
  | CallNewFlight (flightNumber source destination : string)
      (departure arrival : Time) (aircraft : ptr)
  | CallBookSeat (f : ptr) (seatNumber : Z)
  | CallNewFlightSearch (flights : slice)
  | CallFlightSearch_SearchFlights (fs : ptr) (source destination : string)
      (date : Time)
  | CallGetBookingManager
  | CallAddBooking (bm booking : ptr)
  | CallGetBooking (bm : ptr) (bookingID : string)
  | CallGetPaymentProcessor
  | CallProcessPayment (pp payment : ptr)
  | CallNewAirlineManagementSystem
  | CallAddFlight (ams flight : ptr)
  | CallAddAircraft (ams aircraft : ptr)
  | CallSearchFlights (ams : ptr) (source destination : string) (date : Time).

Inductive val :=
  | VUnit
  | VBool (b : bool)
  | VPtr (p : ptr)
  | VFlights (fs : list ptr).

Definition call (o : op) (st : Store) : option (val * Store) :=
  match o with
  | CallNewAircraft t m n =>
      let '(p, st') := NewAircraft t m n st in Some (VPtr p, st')
  | CallNewPassenger i n e ph =>
      let '(p, st') := NewPassenger i n e ph st in Some (VPtr p, st')
  | CallNewPayment i a m s =>
      let '(p, st') := NewPayment i a m s st in Some (VPtr p, st')
  | CallNewBooking i f p n now =>
      let '(b, st') := NewBooking i f p n now st in Some (VPtr b, st')
  | CallNewFlight n s d dep arr a =>
      '(p, st') ← NewFlight maxLen n s d dep arr a st; Some (VPtr p, st')
  | CallBookSeat f n =>
      '(b, st') ← Flight_BookSeat f n st; Some (VBool b, st')
  | CallNewFlightSearch fl =>
      let '(p, st') := NewFlightSearch fl st in Some (VPtr p, st')
  | CallFlightSearch_SearchFlights fs s d date =>
      r ← FlightSearch_SearchFlights fs s d date st; Some (VFlights r, st)
  | CallGetBookingManager =>
      let '(p, st') := GetBookingManager st in Some (VPtr p, st')
  | CallAddBooking bm b =>
      st' ← BookingManager_AddBooking bm b st; Some (VUnit, st')
  | CallGetBooking bm i =>
      p ← BookingManager_GetBooking bm i st; Some (VPtr p, st)
  | CallGetPaymentProcessor =>
      let '(p, st') := GetPaymentProcessor st in Some (VPtr p, st')
  | CallProcessPayment pp p =>
      st' ← PaymentProcessor_ProcessPayment pp p st; Some (VUnit, st')
  | CallNewAirlineManagementSystem =>
      let '(p, st') := NewAirlineManagementSystem st in Some (VPtr p, st')
  | CallAddFlight ams f =>
      st' ← AirlineManagementSystem_AddFlight ams f st; Some (VUnit, st')
  | CallAddAircraft ams a =>
      st' ← AirlineManagementSystem_AddAircraft ams a st; Some (VUnit, st')
  | CallSearchFlights ams s d date =>
      r ← AirlineManagementSystem_SearchFlights ams s d date st;
      Some (VFlights r, st)
  end.

(** Run the calls in order, collecting what each returns. *)
Fixpoint run (os : list op) (st : Store) : option (list val * Store) :=
  match os with
  | [] => Some ([], st)
  | o :: os' =>
      '(v, st1) ← call o st;
      '(vs, st2) ← run os' st1;
      Some (v :: vs, st2)
  end.

End Program.

(** ** Goroutines calling BookSeat on a shared store

    [Flight] has no mutex and [BookSeat] takes no lock, so when several
    goroutines call it the scheduler may switch between them after any
    statement.  A goroutine is at one of the three statements of the body
    or has returned. *)
Inductive goroutine :=
  | AtBounds (f : ptr) (seatNumber : Z)   (* if seatNumber < 1 || ... *)
  | AtCheck (f : ptr) (seatNumber : Z)    (* if f.Seats[seatNumber-1].IsBooked *)
  | AtSet (f : ptr) (seatNumber : Z)      (* f.Seats[seatNumber-1].IsBooked = true *)
  | Returned (b : bool).

(** [f.Seats[seatNumber-1]], as an address. *)
Definition seat_loc (st : Store) (f : ptr) (seatNumber : Z) : option loc :=
  fl ← deref (flightH st) f;
  p ← Seats fl !! Z.to_nat (seatNumber - 1);
  p.

(** One statement of one goroutine. *)
Definition BookSeat_step (g : goroutine) (st : Store) : option (goroutine * Store) :=
  match g with
  | AtBounds f n =>
      if (n <? 1)%Z then Some (Returned false, st)
      else
        fl ← deref (flightH st) f;
        if (Z.of_nat (length (Seats fl)) <? n)%Z
        then Some (Returned false, st)
        else Some (AtCheck f n, st)
  | AtCheck f n =>
      l ← seat_loc st f n;
      s ← seatH st !! l;
      if IsBooked s then Some (Returned false, st) else Some (AtSet f n, st)
  | AtSet f n =>
      l ← seat_loc st f n;
      s ← seatH st !! l;
      Some (Returned true, set_seatH (<[l := mkSeat (SeatNumber s) true]> (seatH st)) st)
  | Returned b => Some (Returned b, st)
  end.

(** A schedule names, step after step, the goroutine that runs next. *)
Fixpoint run_schedule (sched : list nat) (gs : list goroutine) (st : Store)
  : option (list goroutine * Store) :=
  match sched with
  | [] => Some (gs, st)
  | i :: sched' =>
      g ← gs !! i;
      '(g', st') ← BookSeat_step g st;
      run_schedule sched' (<[i := g']> gs) st'
  end.

(** The calls run one after the other, each to its end: what a lock held
    across the body of BookSeat would enforce. *)
Fixpoint run_serial (f : ptr) (seatNumbers : list Z) (st : Store)
  : option (list bool * Store) :=
  match seatNumbers with
  | [] => Some ([], st)
  | n :: rest =>
      '(b, st1) ← Flight_BookSeat f n st;
      '(bs, st2) ← run_serial f rest st1;
      Some (b :: bs, st2)
  end.

(** ** Reading a flight's seat table *)

(** The aircraft's seat count, through the flight's aircraft pointer. *)
Definition totalSeats (st : Store) (f : ptr) : option Z :=
  fl ← deref (flightH st) f;
  a ← deref (aircraftH st) (Flight_Aircraft fl);
  Some (TotalSeats a).

(** The seat record behind seat number [n] (1-based). *)
Definition seat_of (st : Store) (f : ptr) (n : Z) : option Seat :=
  if (n <? 1)%Z then None
  else l ← seat_loc st f n; seatH st !! l.

Definition seat_booked (st : Store) (f : ptr) (n : Z) : option bool :=
  IsBooked <$> seat_of st f n.

(** All seat records of a flight, in table order. *)
Definition flight_seats (st : Store) (f : ptr) : option (list Seat) :=
  fl ← deref (flightH st) f;
  mapM (deref (seatH st)) (Seats fl).

(** The seat numbers of [1, N] that are not booked. *)
Definition free_seats (st : Store) (f : ptr) (N : Z) : list Z :=
  filter (λ n, seat_booked st f n = Some false) (seqZ 1 N).

(** How many calls returned true. *)
Definition successes (bs : list bool) : nat :=
  length (filter (λ b, b = true) bs).

(** The seat table NewFlight builds for [n] seats. *)
Definition fresh_seats (n : nat) : list Seat :=
  (λ i, mkSeat (Z.of_nat i + 1) false) <$> seq 0 n.

Fixpoint seats_numbered (sh : heap Seat) (i : nat) (ps : list ptr) : bool :=
  match ps with
  | [] => true
  | p :: ps' =>
      match deref sh p with
      | Some s => (SeatNumber s =? Z.of_nat i + 1)%Z && seats_numbered sh (S i) ps'
      | None => false
      end
  end.

(** A flight as NewFlight builds it and as every function of the package
    leaves it: the flight and its aircraft are allocated, there are as
    many seats as the aircraft has, every cell of the table points to a
    seat of its own, and cell [i] holds seat number [i + 1]. *)
Definition wf_flight (st : Store) (f : ptr) : bool :=
  match deref (flightH st) f with
  | Some fl =>
      match deref (aircraftH st) (Flight_Aircraft fl) with
      | Some a =>
          (Z.of_nat (length (Seats fl)) =? TotalSeats a)%Z
          && bool_decide (NoDup (Seats fl))
          && seats_numbered (seatH st) 0 (Seats fl)
      | None => false
      end
  | None => false
  end.

(** A slice whose backing array is allocated and as long as its
    capacity: what [make] and [append] produce. *)
Definition wf_slice (arrs : heap (list ptr)) (s : slice) : bool :=
  match arrs !! s_base s with
  | Some arr => bool_decide (length arr = s_cap s) && bool_decide (s_len s ≤ s_cap s)
  | None => false
  end.

(** ** Flight search as the specification words it *)

(** The flight behind [p] leaves from [source] for [destination] and its
    departure has the year, month and day of [date]. *)
Definition on_route_and_date (fh : heap Flight) (source destination : string)
  (date : Time) (p : ptr) : Prop :=
  ∃ fl, deref fh p = Some fl ∧ Source fl = source ∧ Destination fl = destination
        ∧ Year (Departure fl) = Year date
        ∧ Month (Departure fl) = Month date
        ∧ Day (Departure fl) = Day date.

#[global] Instance on_route_and_date_dec fh source destination date p :
  Decision (on_route_and_date fh source destination date p).
Proof.
  unfold on_route_and_date. destruct (deref fh p) as [fl|].
  - destruct (decide (Source fl = source ∧ Destination fl = destination
                      ∧ Year (Departure fl) = Year date
                      ∧ Month (Departure fl) = Month date
                      ∧ Day (Departure fl) = Day date)) as [H|H].
    + left. by exists fl.
    + right. intros (fl' & [= <-] & H'). by apply H.
  - right. by intros (fl' & [=] & _).
Defined.

(** ** Last write under a key *)

(** What one call stores under [bookingID] in manager [bm]: the pointer
    passed to an [AddBooking] on that manager whose booking carries that
    id, nothing for any other call. *)
Definition added_by (bh : heap Booking) (bm : ptr) (bookingID : string) (o : op)
  : option ptr :=
  match o with
  | CallAddBooking bm' booking =>
      match deref bh booking with
      | Some b =>
          if decide (bm' = bm ∧ BookingID b = bookingID) then Some booking else None
      | None => None
      end
  | _ => None
  end.

(** The booking most recently added under [bookingID] by a sequence of
    calls: the one added by the rest of the sequence if there is one,
    otherwise the one added by its first call. *)
Fixpoint last_added (bh : heap Booking) (bm : ptr) (bookingID : string)
  (os : list op) : option ptr :=
  match os with
  | [] => None
  | o :: os' =>
      match last_added bh bm bookingID os' with
      | Some p => Some p
      | None => added_by bh bm bookingID o
      end
  end.

(** Each singleton is absent until its [sync.Once] has fired, and is the
    one object of its heap afterwards. *)
Definition singletons_ok (st : Store) : Prop :=
  (if onceBookingManager st
   then bookingManagerInstance st = Some 0 ∧ length (bookingManagerH st) = 1
   else length (bookingManagerH st) = 0) ∧
  (if oncePaymentProcessor st
   then paymentProcessorInstance st = Some 0 ∧ length (paymentProcessorH st) = 1
   else length (paymentProcessorH st) = 0).

(** ** How the store evolves

    Aircraft, flights, passengers, bookings, payments and flight
    searches are never written after allocation, so their heaps only grow
    at the end.  A seat keeps its number and its booked flag never goes
    back to false.  A backing array keeps its length.  A facade keeps its
    search and its two stores. *)
Definition seats_advance (h h' : heap Seat) : Prop :=
  ∀ l s, h !! l = Some s →
    ∃ s', h' !! l = Some s' ∧ SeatNumber s' = SeatNumber s
          ∧ (IsBooked s = true → IsBooked s' = true).

Definition arrays_kept (h h' : heap (list ptr)) : Prop :=
  ∀ l a, h !! l = Some a → ∃ a', h' !! l = Some a' ∧ length a' = length a.

Definition facades_kept (h h' : heap AirlineManagementSystem) : Prop :=
  ∀ l a, h !! l = Some a →
    ∃ a', h' !! l = Some a' ∧ flightSearch a' = flightSearch a
          ∧ bookingManager a' = bookingManager a
          ∧ paymentProcessor a' = paymentProcessor a.

Record evolves (st st' : Store) : Prop := mkEvolves {
  ev_aircraft : aircraftH st `prefix_of` aircraftH st';
  ev_flight : flightH st `prefix_of` flightH st';
  ev_passenger : passengerH st `prefix_of` passengerH st';
  ev_booking : bookingH st `prefix_of` bookingH st';
  ev_payment : paymentH st `prefix_of` paymentH st';
  ev_flightSearch : flightSearchH st `prefix_of` flightSearchH st';
  ev_seat : seats_advance (seatH st) (seatH st');
  ev_flightArr : arrays_kept (flightArrH st) (flightArrH st');
  ev_aircraftArr : arrays_kept (aircraftArrH st) (aircraftArrH st');
  ev_ams : facades_kept (amsH st) (amsH st');
  ev_bookingManager : length (bookingManagerH st) ≤ length (bookingManagerH st');
  ev_paymentProcessor : length (paymentProcessorH st) ≤ length (paymentProcessorH st')
}.

(** ** What holds in every store the program reaches *)

(** The call that allocates a flight, and the calls that write a facade
    or one of its collections. *)
Definition is_CallNewFlight (o : op) : bool :=
  match o with CallNewFlight _ _ _ _ _ _ => true | _ => false end.

(** The calls that run GetBookingManager, and those that run
    GetPaymentProcessor: the accessor itself and the facade's constructor. *)
Definition calls_GetBookingManager (o : op) : bool :=
  match o with
  | CallGetBookingManager | CallNewAirlineManagementSystem => true
  | _ => false
  end.

Definition calls_GetPaymentProcessor (o : op) : bool :=
  match o with
  | CallGetPaymentProcessor | CallNewAirlineManagementSystem => true
  | _ => false
  end.

Definition touches_facades (o : op) : bool :=
  match o with
  | CallNewAirlineManagementSystem | CallAddFlight _ _ | CallAddAircraft _ _ => true
  | _ => false
  end.

(** Every flight of the store is well formed, and no two flights share
    a seat. *)
Definition flights_ok (st : Store) : Prop :=
  (∀ l, l < length (flightH st) → wf_flight st (Some l) = true)
  ∧ (∀ l1 l2 fl1 fl2 p, l1 ≠ l2 →
       flightH st !! l1 = Some fl1 → flightH st !! l2 = Some fl2 →
       p ∈ Seats fl1 → p ∉ Seats fl2).

(** A facade whose two slices are well formed and whose two stores are
    the singletons, both created. *)
Definition facade_ok (st : Store) (a : AirlineManagementSystem) : Prop :=
  wf_slice (flightArrH st) (ams_flights a) = true
  ∧ wf_slice (aircraftArrH st) (ams_aircrafts a) = true
  ∧ onceBookingManager st = true ∧ oncePaymentProcessor st = true
  ∧ bookingManager a = bookingManagerInstance st
  ∧ paymentProcessor a = paymentProcessorInstance st.

(** Every facade of the store is so, and no two facades share a backing
    array. *)
Definition facades_ok (st : Store) : Prop :=
  (∀ l a, amsH st !! l = Some a → facade_ok st a)
  ∧ (∀ l1 l2 a1 a2, l1 ≠ l2 → amsH st !! l1 = Some a1 → amsH st !! l2 = Some a2 →
       s_base (ams_flights a1) ≠ s_base (ams_flights a2)
       ∧ s_base (ams_aircrafts a1) ≠ s_base (ams_aircrafts a2)).

(** ** What a sequence of calls adds *)

(** The flight a call adds to the collection of facade [ams]. *)
Definition flight_added_by (ams : ptr) (o : op) : list ptr :=
  match o with
  | CallAddFlight ams' flight => if decide (ams' = ams) then [flight] else []
  | _ => []
  end.

Definition aircraft_added_by (ams : ptr) (o : op) : list ptr :=
  match o with
  | CallAddAircraft ams' aircraft => if decide (ams' = ams) then [aircraft] else []
  | _ => []
  end.

(** The flights, and the aircraft, that a sequence of calls adds to the
    collections of facade [ams], in call order. *)
Definition flights_added (ams : ptr) (os : list op) : list ptr :=
  os ≫= flight_added_by ams.

Definition aircraft_added (ams : ptr) (os : list op) : list ptr :=
  os ≫= aircraft_added_by ams.

(** What one call stores under [paymentID] in processor [pp]: the
    pointer passed to a [ProcessPayment] on that processor whose payment
    carries that id. *)
Definition processed_by (ph : heap Payment) (pp : ptr) (paymentID : string) (o : op)
  : option ptr :=
  match o with
  | CallProcessPayment pp' payment =>
      match deref ph payment with
      | Some p =>
          if decide (pp' = pp ∧ PaymentID p = paymentID) then Some payment else None
      | None => None
      end
  | _ => None
  end.

(** The payment most recently processed under [paymentID]. *)
Fixpoint last_processed (ph : heap Payment) (pp : ptr) (paymentID : string)
  (os : list op) : option ptr :=
  match os with
  | [] => None
  | o :: os' =>
      match last_processed ph pp paymentID os' with
      | Some p => Some p
      | None => processed_by ph pp paymentID o
      end
  end.

(** ** Concrete runs

    The end-to-end scenario of the specification: aircraft N1 with two
    seats, flight AA1 from SFO to JFK leaving on 2024-01-01 at 08:00, a
    facade holding both. *)

(** A growth policy for concrete runs: as many spare cells as the old
    capacity. *)
Definition spare (c : nat) : nat := c.

(** The limit of [make] for concrete runs: the bound the runtime checks
    on 64-bit targets, 2^48 bytes at 8 bytes a pointer.  The runs below
    allocate a handful of seats. *)
Definition maxLen64 : Z := 2 ^ 45.

Definition jan1_0800 : Time := mkTime 2024 1 1 28800000000000.

Definition jan1_1400 : Time := mkTime 2024 1 1 50400000000000.

Definition jan2_0800 : Time := mkTime 2024 1 2 28800000000000.

(** The query date 2024-01-01. *)
Definition jan1 : Time := mkTime 2024 1 1 0.

(** What a sequence of calls returns and leaves when run from [st]. *)
Definition vals_from (st : Store) (os : list op) : list val :=
  match run spare maxLen64 os st with
  | Some (vs, _) => vs
  | None => []
  end.

Definition store_from (st : Store) (os : list op) : Store :=
  match run spare maxLen64 os st with
  | Some (_, st') => st'
  | None => st
  end.

(** The store a sequence of calls leaves when run from process start. *)
Definition store_after (os : list op) : Store := store_from init_store os.

Definition scenario : list op :=
  [ CallNewAircraft "N1" "A320" 2;
    CallNewFlight "AA1" "SFO" "JFK" jan1_0800 jan1_1400 (Some 0);
    CallNewAirlineManagementSystem;
    CallAddAircraft (Some 0) (Some 0);
    CallAddFlight (Some 0) (Some 0) ].

(** The facade of the scenario, as the store holds it after these calls. *)
Definition scenario_facade : AirlineManagementSystem :=
  mkAirlineManagementSystem (mkSlice 1 1 1) (mkSlice 1 1 1) (Some 0) (Some 0) (Some 0).

(** An aircraft with a single seat and a flight on it. *)
Definition one_seat_flight : list op :=
  [ CallNewAircraft "N2" "C172" 1;
    CallNewFlight "ZZ9" "SFO" "JFK" jan1_0800 jan1_1400 (Some 0) ].

(** The scenario step by step: the aircraft, then the flight, then some
    calls, then some more. *)
Definition after_aircraft : Store := store_after [CallNewAircraft "N1" "A320" 2].



Definition flight_built : Store :=
  store_from after_aircraft
    [CallNewFlight "AA1" "SFO" "JFK" jan1_0800 jan1_1400 (Some 0)].

Definition first_calls : list op :=
  [ CallBookSeat (Some 0) 1; CallNewAirlineManagementSystem ].

Definition later_calls : list op :=
  [ CallBookSeat (Some 0) 1; CallBookSeat (Some 0) 2; CallBookSeat (Some 0) 3;
    CallNewFlight "AA2" "JFK" "SFO" jan1_1400 jan1_1400 (Some 0);
    CallBookSeat (Some 1) 1 ].

Definition after_first_calls : Store := store_from flight_built first_calls.

Definition after_later_calls : Store := store_from after_first_calls later_calls.

Definition seat1_booked : Store := store_from flight_built [CallBookSeat (Some 0) 1].

(** Four flights, added to a facade in the order F4, F1, F2, F3: F1 and
    F4 leave SFO for JFK on 2024-01-01 (F4 later in the day), F2 leaves
    the day after, F3 goes elsewhere.  The last call builds a flight
    search over the slice the facade then holds. *)
Definition four_flights : list op :=
  [ CallNewAircraft "N1" "A320" 2;
    CallNewFlight "F1" "SFO" "JFK" jan1_0800 jan1_1400 (Some 0);
    CallNewFlight "F2" "SFO" "JFK" jan2_0800 jan2_0800 (Some 0);
    CallNewFlight "F3" "SFO" "LAX" jan1_0800 jan1_1400 (Some 0);
    CallNewFlight "F4" "SFO" "JFK" jan1_1400 jan1_1400 (Some 0);
    CallNewAirlineManagementSystem;
    CallAddFlight (Some 0) (Some 3);
    CallAddFlight (Some 0) (Some 0);
    CallAddFlight (Some 0) (Some 1);
    CallAddFlight (Some 0) (Some 2);
    CallNewFlightSearch (mkSlice 3 4 7) ].

(** Two bookings made under the id B1, then one under B2. *)
Definition three_bookings : list op :=
  [ CallNewBooking "B1" (Some 0) (Some 0) 1 jan1_0800;
    CallAddBooking (Some 0) (Some 0);
    CallNewBooking "B1" (Some 0) (Some 0) 2 jan1_0800;
    CallAddBooking (Some 0) (Some 1);
    CallNewBooking "B2" (Some 0) (Some 0) 2 jan1_0800;
    CallAddBooking (Some 0) (Some 2) ].

Definition manager_created : Store := (GetBookingManager init_store).2.

Definition accessor_calls : list op :=
  [ CallGetPaymentProcessor; CallGetBookingManager;
    CallNewAirlineManagementSystem; CallGetBookingManager;
    CallNewAirlineManagementSystem; CallGetPaymentProcessor;
    CallGetBookingManager ].

(** A facade built at process start, and calls made after that. *)
Definition facade_built : Store := (NewAirlineManagementSystem init_store).2.

Definition facade_calls : list op :=
  [ CallNewAircraft "N1" "A320" 2;
    CallNewFlight "AA1" "SFO" "JFK" jan1_0800 jan1_1400 (Some 0);
    CallAddAircraft (Some 0) (Some 0);
    CallAddFlight (Some 0) (Some 0);
    CallAddFlight (Some 0) (Some 0) ].

(** Seat numbers asked for by callers served one after the other. *)
Definition seat_calls : list Z := [1; 2; 2; 1]%Z.

Definition mixed_calls : list Z := [2; 1; 2; 5]%Z.

(** Flight AA1 as the store of the scenario holds it. *)
Definition scenario_flight : Flight :=
  mkFlight "AA1" "SFO" "JFK" jan1_0800 jan1_1400 (Some 0) [Some 0; Some 1].

(** Two flights on one aircraft, then a first facade. *)
Definition two_flights : list op :=
  [ CallNewAircraft "N1" "A320" 2;
    CallNewFlight "AA1" "SFO" "JFK" jan1_0800 jan1_1400 (Some 0);
    CallNewFlight "AA2" "JFK" "SFO" jan1_1400 jan1_1400 (Some 0) ].

Definition two_flights_one_facade : list op :=
  two_flights ++ [CallNewAirlineManagementSystem].

(** A second facade, and calls that add to both facades. *)
Definition second_facade_built : Store :=
  (NewAirlineManagementSystem (store_after two_flights_one_facade)).2.

Definition second_facade_calls : list op :=
  [ CallAddFlight (Some 1) (Some 1);
    CallAddFlight (Some 0) (Some 0);
    CallAddAircraft (Some 1) (Some 0);
    CallAddFlight (Some 1) (Some 0);
    CallBookSeat (Some 0) 1 ].

(** The four flights of [four_flights] without the facade, then a
    facade, then the four additions. *)
Definition four_flights_only : list op :=
  [ CallNewAircraft "N1" "A320" 2;
    CallNewFlight "F1" "SFO" "JFK" jan1_0800 jan1_1400 (Some 0);
    CallNewFlight "F2" "SFO" "JFK" jan2_0800 jan2_0800 (Some 0);
    CallNewFlight "F3" "SFO" "LAX" jan1_0800 jan1_1400 (Some 0);
    CallNewFlight "F4" "SFO" "JFK" jan1_1400 jan1_1400 (Some 0) ].

Definition facade_for_four : Store :=
  (NewAirlineManagementSystem (store_after four_flights_only)).2.

Definition four_additions : list op :=
  [ CallAddFlight (Some 0) (Some 3);
    CallAddFlight (Some 0) (Some 0);
    CallAddFlight (Some 0) (Some 1);
    CallAddFlight (Some 0) (Some 2) ].

Definition four_added : Store := store_from facade_for_four four_additions.

Definition facade_of_four : AirlineManagementSystem :=
  mkAirlineManagementSystem (mkSlice 3 4 7) (mkSlice 0 0 0) (Some 0) (Some 0) (Some 0).

(** A facade to which nil was added, and a search over its slice. *)
Definition nil_flight_added : list op :=
  [ CallNewAirlineManagementSystem;
    CallAddFlight (Some 0) None;
    CallNewFlightSearch (mkSlice 1 1 1) ].

(** Two payments recorded under the id P1; the amounts are the float64
    values 100.0 and 250.0. *)
Definition processor_created : Store := (GetPaymentProcessor init_store).2.

Definition two_payments : list op :=
  [ CallNewPayment "P1" 4636737291354636288 "card" "PENDING";
    CallProcessPayment (Some 0) (Some 0);
    CallNewPayment "P1" 4643000109586448384 "card" "PAID";
    CallProcessPayment (Some 0) (Some 1) ].

(** The store the two racing goroutines of the one-seat flight leave. *)
Definition raced : Store :=
  match run_schedule [0; 1; 0; 1; 0; 1]
          [AtBounds (Some 0) 1; AtBounds (Some 0) 1] (store_after one_seat_flight) with
  | Some (_, st) => st
  | None => init_store
  end.

(** * Proofs *)

(** ** Heaps *)

Lemma heap_snoc_old {T} (h : heap T) (x y : T) (l : loc) :
  h !! l = Some y → (h ++ [x]) !! l = Some y.
Proof. intros H. by apply lookup_app_l_Some. Qed.

Lemma heap_snoc_new {T} (h : heap T) (x : T) : (h ++ [x]) !! length h = Some x.
Proof. by rewrite lookup_app_r, Nat.sub_diag. Qed.

Lemma heap_prefix_snoc {T} (h : heap T) (x : T) : h `prefix_of` h ++ [x].
Proof. by apply prefix_app_r. Qed.

Lemma deref_prefix {T} (h h' : heap T) (p : ptr) (x : T) :
  h `prefix_of` h' → deref h p = Some x → deref h' p = Some x.
Proof.
  intros Hp. destruct p as [l|]; simpl; [|done].
  intros H. by eapply prefix_lookup_Some.
Qed.

Lemma seats_advance_refl h : seats_advance h h.
Proof. intros l s H. by exists s. Qed.

Lemma seats_advance_trans h1 h2 h3 :
  seats_advance h1 h2 → seats_advance h2 h3 → seats_advance h1 h3.
Proof.
  intros H12 H23 l s H.
  destruct (H12 l s H) as (s2 & H2 & Hn2 & Hb2).
  destruct (H23 l s2 H2) as (s3 & H3 & Hn3 & Hb3).
  exists s3. split; [done|]. split; [congruence|auto].
Qed.

Lemma seats_advance_app h xs : seats_advance h (h ++ xs).
Proof. intros l s H. exists s. split; [by apply lookup_app_l_Some|done]. Qed.

Lemma seats_advance_book h l s :
  h !! l = Some s → seats_advance h (<[l := mkSeat (SeatNumber s) true]> h).
Proof.
  intros Hl l' s' H'. destruct (decide (l = l')) as [->|Hne].
  - exists (mkSeat (SeatNumber s) true). split.
    + apply list_lookup_insert_eq. by eapply lookup_lt_Some.
    + simpl. split; [congruence|done].
  - exists s'. by rewrite list_lookup_insert_ne.
Qed.

Lemma arrays_kept_refl h : arrays_kept h h.
Proof. intros l a H. by exists a. Qed.

Lemma arrays_kept_trans h1 h2 h3 :
  arrays_kept h1 h2 → arrays_kept h2 h3 → arrays_kept h1 h3.
Proof.
  intros H12 H23 l a H.
  destruct (H12 l a H) as (a2 & H2 & Hl2).
  destruct (H23 l a2 H2) as (a3 & H3 & Hl3).
  exists a3. split; [done|congruence].
Qed.

Lemma arrays_kept_snoc h x : arrays_kept h (h ++ [x]).
Proof. intros l a H. exists a. split; [by apply heap_snoc_old|done]. Qed.

Lemma arrays_kept_store h b arr i x :
  h !! b = Some arr → arrays_kept h (<[b := <[i := x]> arr]> h).
Proof.
  intros Hb l a H. destruct (decide (b = l)) as [->|Hne].
  - exists (<[i := x]> arr). split.
    + apply list_lookup_insert_eq. by eapply lookup_lt_Some.
    + rewrite length_insert. congruence.
  - exists a. by rewrite list_lookup_insert_ne.
Qed.

Lemma facades_kept_refl h : facades_kept h h.
Proof. intros l a H. by exists a. Qed.

Lemma facades_kept_trans h1 h2 h3 :
  facades_kept h1 h2 → facades_kept h2 h3 → facades_kept h1 h3.
Proof.
  intros H12 H23 l a H.
  destruct (H12 l a H) as (a2 & Ha2 & ? & ? & ?).
  destruct (H23 l a2 Ha2) as (a3 & Ha3 & ? & ? & ?).
  exists a3. repeat split; congruence.
Qed.

Lemma facades_kept_snoc h x : facades_kept h (h ++ [x]).
Proof. intros l a H. exists a. split; [by apply heap_snoc_old|done]. Qed.

Lemma facades_kept_store h l a a' :
  h !! l = Some a → flightSearch a' = flightSearch a →
  bookingManager a' = bookingManager a → paymentProcessor a' = paymentProcessor a →
  facades_kept h (<[l := a']> h).
Proof.
  intros Hl ? ? ? l' b H. destruct (decide (l = l')) as [->|Hne].
  - exists a'. split.
    + apply list_lookup_insert_eq. by eapply lookup_lt_Some.
    + repeat split; congruence.
  - exists b. by rewrite list_lookup_insert_ne.
Qed.

Lemma facades_kept_snoc_store h x x' : facades_kept h (<[length h := x']> (h ++ [x])).
Proof.
  intros l a H. exists a. split; [|done].
  rewrite list_lookup_insert_ne by (apply lookup_lt_Some in H; lia).
  by apply heap_snoc_old.
Qed.

Lemma evolves_refl st : evolves st st.
Proof.
  constructor; try reflexivity;
    auto using seats_advance_refl, arrays_kept_refl, facades_kept_refl.
Qed.

Lemma evolves_trans st1 st2 st3 : evolves st1 st2 → evolves st2 st3 → evolves st1 st3.
Proof.
  intros [] []. constructor; try (etrans; eassumption);
    eauto using seats_advance_trans, arrays_kept_trans, facades_kept_trans.
Qed.
(** ** NewFlight *)

Lemma NewFlight_loop_spec n : ∀ i seats sh,
  length seats = i + n →
  NewFlight_loop n i seats sh =
    (take i seats ++ ((λ k, Some (length sh + k)) <$> seq 0 n),
     sh ++ ((λ k, mkSeat (Z.of_nat (i + k) + 1) false) <$> seq 0 n)).
Proof.
  induction n as [|n IH]; intros i seats sh Hlen; simpl.
  - rewrite !app_nil_r, take_ge by lia. done.
  - rewrite IH by (rewrite length_insert; lia).
    rewrite length_app; simpl.
    rewrite <- !fmap_S_seq, <- !list_fmap_compose.
    f_equal.
    + rewrite (take_S_r _ _ (Some (length sh))).
      * rewrite take_insert_ge by lia. rewrite <- app_assoc. simpl.
        rewrite Nat.add_0_r. do 2 f_equal.
        apply list_fmap_ext. intros ? k _. simpl. apply (f_equal Some). lia.
      * apply list_lookup_insert_eq. lia.
    + rewrite <- app_assoc. simpl. rewrite Nat.add_0_r. do 2 f_equal.
      apply list_fmap_ext. intros ? k _. simpl. apply (f_equal (λ z, mkSeat z false)). lia.
Qed.

Lemma NewFlight_inv maxLen flightNumber source destination departure arrival aircraft
  st p st' :
  NewFlight maxLen flightNumber source destination departure arrival aircraft st
  = Some (p, st') →
  ∃ a, deref (aircraftH st) aircraft = Some a ∧ (0 ≤ TotalSeats a)%Z ∧
    p = Some (length (flightH st)) ∧
    st' = set_flightH
            (flightH st ++
               [mkFlight flightNumber source destination departure arrival aircraft
                  ((λ k, Some (length (seatH st) + k)) <$> seq 0 (Z.to_nat (TotalSeats a)))])
            (set_seatH (seatH st ++ fresh_seats (Z.to_nat (TotalSeats a))) st).
Proof.
  unfold NewFlight. intros H.
  destruct (deref (aircraftH st) aircraft) as [a|] eqn:Ha; simpl in H; [|done].
  destruct (Z.ltb_spec (TotalSeats a) 0); [done|].
  destruct (maxLen <? TotalSeats a)%Z; [done|]. simpl in H.
  rewrite NewFlight_loop_spec in H by (rewrite length_replicate; lia).
  simpl in H. injection H as <- <-. exists a. repeat split; [done..|].
  unfold fresh_seats. done.
Qed.

(** ** Every call lets the store evolve *)

Lemma GetBookingManager_evolves st : evolves st (GetBookingManager st).2.
Proof.
  unfold GetBookingManager. destruct (onceBookingManager st); simpl.
  - apply evolves_refl.
  - constructor; simpl; try reflexivity;
      auto using seats_advance_refl, arrays_kept_refl, facades_kept_refl.
    rewrite length_app. lia.
Qed.

Lemma GetPaymentProcessor_evolves st : evolves st (GetPaymentProcessor st).2.
Proof.
  unfold GetPaymentProcessor. destruct (oncePaymentProcessor st); simpl.
  - apply evolves_refl.
  - constructor; simpl; try reflexivity;
      auto using seats_advance_refl, arrays_kept_refl, facades_kept_refl.
    rewrite length_app. lia.
Qed.

Ltac ev_close :=
  constructor; simpl; try reflexivity;
  eauto using seats_advance_refl, arrays_kept_refl, facades_kept_refl,
    heap_prefix_snoc, arrays_kept_snoc, facades_kept_snoc, seats_advance_app,
    seats_advance_book, arrays_kept_store, facades_kept_store;
  try (rewrite ?length_app, ?length_insert; simpl; lia).

Lemma Flight_BookSeat_evolves f n st b st' :
  Flight_BookSeat f n st = Some (b, st') → evolves st st'.
Proof.
  unfold Flight_BookSeat. intros H.
  destruct (n <? 1)%Z; [injection H as <- <-; apply evolves_refl|].
  destruct (deref (flightH st) f) as [fl|]; simpl in H; [|done].
  destruct (_ <? _)%Z; [injection H as <- <-; apply evolves_refl|].
  destruct (Seats fl !! _) as [[l|]|]; simpl in H; try done.
  destruct (seatH st !! l) as [s|] eqn:Hs; simpl in H; [|done].
  destruct (IsBooked s); injection H as <- <-; [apply evolves_refl|].
  ev_close.
Qed.

Lemma NewFlight_evolves maxLen n s d dep arr a st p st' :
  NewFlight maxLen n s d dep arr a st = Some (p, st') → evolves st st'.
Proof.
  intros H. apply NewFlight_inv in H as (ac & _ & _ & _ & ->). ev_close.
Qed.

Lemma BookingManager_AddBooking_evolves bm b st st' :
  BookingManager_AddBooking bm b st = Some st' → evolves st st'.
Proof.
  unfold BookingManager_AddBooking. intros H.
  destruct bm as [l|]; simpl in H; [|done].
  destruct (bookingManagerH st !! l); simpl in H; [|done].
  destruct (deref (bookingH st) b); simpl in H; [|done].
  injection H as <-. ev_close.
Qed.

Lemma PaymentProcessor_ProcessPayment_evolves pp p st st' :
  PaymentProcessor_ProcessPayment pp p st = Some st' → evolves st st'.
Proof.
  unfold PaymentProcessor_ProcessPayment. intros H.
  destruct pp as [l|]; simpl in H; [|done].
  destruct (paymentProcessorH st !! l); simpl in H; [|done].
  destruct (deref (paymentH st) p); simpl in H; [|done].
  injection H as <-. ev_close.
Qed.

Section ProgramProofs.

Variable growth : nat → nat.
Variable maxLen : Z.

Lemma go_append_kept arrs s x s' arrs' :
  go_append growth arrs s x = Some (s', arrs') → arrays_kept arrs arrs'.
Proof.
  unfold go_append. intros H.
  destruct (arrs !! s_base s) as [arr|] eqn:Ha; simpl in H; [|done].
  destruct (decide _); injection H as <- <-.
  - by apply arrays_kept_store.
  - apply arrays_kept_snoc.
Qed.

Lemma AddFlight_evolves ams f st st' :
  AirlineManagementSystem_AddFlight growth ams f st = Some st' → evolves st st'.
Proof.
  unfold AirlineManagementSystem_AddFlight. intros H.
  destruct ams as [l|]; simpl in H; [|done].
  destruct (amsH st !! l) as [a|] eqn:Ha; simpl in H; [|done].
  destruct (go_append _ _ _ _) as [[s arrs]|] eqn:Happ; simpl in H; [|done].
  injection H as <-. apply go_append_kept in Happ. ev_close.
Qed.

Lemma AddAircraft_evolves ams a st st' :
  AirlineManagementSystem_AddAircraft growth ams a st = Some st' → evolves st st'.
Proof.
  unfold AirlineManagementSystem_AddAircraft. intros H.
  destruct ams as [l|]; simpl in H; [|done].
  destruct (amsH st !! l) as [x|] eqn:Ha; simpl in H; [|done].
  destruct (go_append _ _ _ _) as [[s arrs]|] eqn:Happ; simpl in H; [|done].
  injection H as <-. apply go_append_kept in Happ. ev_close.
Qed.

Lemma NewAirlineManagementSystem_evolves st :
  evolves st (NewAirlineManagementSystem st).2.
Proof.
  unfold NewAirlineManagementSystem, make_slice, NewFlightSearch, alloc,
    GetBookingManager, GetPaymentProcessor.
  destruct (onceBookingManager st) eqn:Hb, (oncePaymentProcessor st) eqn:Hp;
    simpl; rewrite ?Hb, ?Hp; simpl; rewrite ?Hb, ?Hp; simpl.
  all: constructor; simpl; try reflexivity;
    eauto using seats_advance_refl, arrays_kept_refl, arrays_kept_snoc,
      heap_prefix_snoc;
    try (rewrite ?length_app; simpl; lia).
  all: apply facades_kept_snoc_store.
Qed.

Lemma call_evolves o st v st' : call growth maxLen o st = Some (v, st') → evolves st st'.
Proof.
  destruct o; simpl; intros H.
  - injection H as <- <-. ev_close.
  - injection H as <- <-. ev_close.
  - injection H as <- <-. ev_close.
  - injection H as <- <-. ev_close.
  - destruct (NewFlight _ _ _ _ _ _ _ _) as [[p s]|] eqn:E; simpl in H; [|done].
    injection H as <- <-. by eapply NewFlight_evolves.
  - destruct (Flight_BookSeat _ _ _) as [[b s]|] eqn:E; simpl in H; [|done].
    injection H as <- <-. by eapply Flight_BookSeat_evolves.
  - injection H as <- <-. ev_close.
  - destruct (FlightSearch_SearchFlights _ _ _ _ _); simpl in H; [|done].
    injection H as <- <-. apply evolves_refl.
  - destruct (GetBookingManager st) as [p s] eqn:E. injection H as <- <-.
    change s with (p, s).2. rewrite <- E. apply GetBookingManager_evolves.
  - destruct (BookingManager_AddBooking _ _ _) as [s|] eqn:E; simpl in H; [|done].
    injection H as <- <-. by eapply BookingManager_AddBooking_evolves.
  - destruct (BookingManager_GetBooking _ _ _); simpl in H; [|done].
    injection H as <- <-. apply evolves_refl.
  - destruct (GetPaymentProcessor st) as [p s] eqn:E. injection H as <- <-.
    change s with (p, s).2. rewrite <- E. apply GetPaymentProcessor_evolves.
  - destruct (PaymentProcessor_ProcessPayment _ _ _) as [s|] eqn:E; simpl in H; [|done].
    injection H as <- <-. by eapply PaymentProcessor_ProcessPayment_evolves.
  - destruct (NewAirlineManagementSystem st) as [p s] eqn:E. injection H as <- <-.
    change s with (p, s).2. rewrite <- E. apply NewAirlineManagementSystem_evolves.
  - destruct (AirlineManagementSystem_AddFlight _ _ _ _) as [s|] eqn:E; simpl in H; [|done].
    injection H as <- <-. by eapply AddFlight_evolves.
  - destruct (AirlineManagementSystem_AddAircraft _ _ _ _) as [s|] eqn:E; simpl in H; [|done].
    injection H as <- <-. by eapply AddAircraft_evolves.
  - destruct (AirlineManagementSystem_SearchFlights _ _ _ _ _); simpl in H; [|done].
    injection H as <- <-. apply evolves_refl.
Qed.

Lemma run_cons o os st vs st' :
  run growth maxLen (o :: os) st = Some (vs, st') ↔
  ∃ v st1 vs', call growth maxLen o st = Some (v, st1)
               ∧ run growth maxLen os st1 = Some (vs', st') ∧ vs = v :: vs'.
Proof.
  simpl. split.
  - intros H. destruct (call growth maxLen o st) as [[v st1]|]; simpl in H; [|done].
    destruct (run growth maxLen os st1) as [[vs' st2]|] eqn:Hr; simpl in H; [|done].
    injection H as Hv Hs. subst. by exists v, st1, vs'.
  - intros (v & st1 & vs' & -> & Hr & ->). simpl. by rewrite Hr.
Qed.

Lemma run_evolves os : ∀ st vs st', run growth maxLen os st = Some (vs, st') → evolves st st'.
Proof.
  induction os as [|o os IH]; intros st vs st' H.
  - injection H as <- <-. apply evolves_refl.
  - apply run_cons in H as (v & st1 & vs' & Hc & Hr & ->).
    eapply evolves_trans; [by eapply call_evolves|by eapply IH].
Qed.

End ProgramProofs.

(** ** Well-formed flights *)

Lemma seats_numbered_spec sh ps : ∀ i,
  seats_numbered sh i ps = true ↔
  ∀ k p, ps !! k = Some p →
    ∃ l s, p = Some l ∧ sh !! l = Some s ∧ SeatNumber s = (Z.of_nat (i + k) + 1)%Z.
Proof.
  induction ps as [|p ps IH]; intros i; simpl.
  - split; [intros _ k p H; by rewrite lookup_nil in H|done].
  - split.
    + intros H k q Hk.
      destruct p as [l|]; simpl in H; [|done].
      destruct (sh !! l) as [s|] eqn:Hs; [|done].
      apply andb_true_iff in H as [Hn Hrest]. apply Z.eqb_eq in Hn.
      destruct k as [|k]; simpl in Hk.
      * injection Hk as <-. exists l, s. rewrite Nat.add_0_r. done.
      * apply IH with (k := k) (p := q) in Hrest; [|done].
        destruct Hrest as (l' & s' & -> & Hs' & Hn').
        exists l', s'. repeat split; [done|]. rewrite Hn'. lia.
    + intros H.
      destruct (H 0 p eq_refl) as (l & s & -> & Hs & Hn). simpl. rewrite Hs.
      apply andb_true_iff. split.
      * apply Z.eqb_eq. rewrite Hn. lia.
      * apply IH. intros k q Hk.
        destruct (H (S k) q Hk) as (l' & s' & -> & Hs' & Hn').
        exists l', s'. repeat split; [done|]. rewrite Hn'. lia.
Qed.

Lemma wf_flight_spec st f :
  wf_flight st f = true ↔
  ∃ fl a, deref (flightH st) f = Some fl
    ∧ deref (aircraftH st) (Flight_Aircraft fl) = Some a
    ∧ Z.of_nat (length (Seats fl)) = TotalSeats a
    ∧ NoDup (Seats fl)
    ∧ ∀ k p, Seats fl !! k = Some p →
        ∃ l s, p = Some l ∧ seatH st !! l = Some s
               ∧ SeatNumber s = (Z.of_nat k + 1)%Z.
Proof.
  unfold wf_flight. split.
  - intros H. destruct (deref (flightH st) f) as [fl|]; [|done].
    destruct (deref (aircraftH st) (Flight_Aircraft fl)) as [a|] eqn:Ha; [|done].
    apply andb_true_iff in H as [H Hnum]. apply andb_true_iff in H as [Hlen Hnd].
    apply Z.eqb_eq in Hlen. apply bool_decide_eq_true in Hnd.
    exists fl, a. repeat split; try done.
    intros k p Hk. by eapply (seats_numbered_spec _ _ 0) in Hnum.
  - intros (fl & a & -> & -> & Hlen & Hnd & Hnum).
    apply andb_true_iff. split; [apply andb_true_iff; split|].
    + by apply Z.eqb_eq.
    + by apply bool_decide_eq_true.
    + apply (seats_numbered_spec _ _ 0). done.
Qed.

(** A seat number in range of a well-formed flight reads a seat. *)
Lemma wf_flight_seat st f fl n :
  wf_flight st f = true → deref (flightH st) f = Some fl →
  (1 ≤ n ≤ Z.of_nat (length (Seats fl)))%Z →
  ∃ l s, Seats fl !! Z.to_nat (n - 1) = Some (Some l) ∧ seatH st !! l = Some s
         ∧ SeatNumber s = n.
Proof.
  intros Hwf Hf Hn. apply wf_flight_spec in Hwf as (fl' & a & Hf' & _ & _ & _ & Hnum).
  rewrite Hf in Hf'. injection Hf' as <-.
  destruct (lookup_lt_is_Some_2 (Seats fl) (Z.to_nat (n - 1))) as [p Hp]; [lia|].
  destruct (Hnum _ _ Hp) as (l & s & -> & Hs & Hsn).
  exists l, s. repeat split; [done..|]. rewrite Hsn. lia.
Qed.

Lemma seat_of_in_range st f fl n l :
  deref (flightH st) f = Some fl → (1 ≤ n)%Z →
  Seats fl !! Z.to_nat (n - 1) = Some (Some l) →
  seat_of st f n = seatH st !! l.
Proof.
  intros Hf Hn Hl. unfold seat_of, seat_loc.
  destruct (Z.ltb_spec n 1); [lia|]. rewrite Hf. simpl. rewrite Hl. done.
Qed.

(** ** BookSeat on one flight *)

Lemma BookSeat_out_of_range st f fl n :
  deref (flightH st) f = Some fl →
  ¬ (1 ≤ n ≤ Z.of_nat (length (Seats fl)))%Z →
  Flight_BookSeat f n st = Some (false, st).
Proof.
  intros Hf Hn. unfold Flight_BookSeat. rewrite Hf. simpl.
  destruct (Z.ltb_spec n 1); [done|].
  destruct (Z.ltb_spec (Z.of_nat (length (Seats fl))) n); [done|]. lia.
Qed.

Lemma BookSeat_in_range st f fl n l s :
  deref (flightH st) f = Some fl →
  (1 ≤ n ≤ Z.of_nat (length (Seats fl)))%Z →
  Seats fl !! Z.to_nat (n - 1) = Some (Some l) → seatH st !! l = Some s →
  Flight_BookSeat f n st =
    Some (if IsBooked s then (false, st)
          else (true, set_seatH (<[l := mkSeat (SeatNumber s) true]> (seatH st)) st)).
Proof.
  intros Hf Hn Hl Hs. unfold Flight_BookSeat. rewrite Hf. simpl.
  destruct (Z.ltb_spec n 1); [lia|].
  destruct (Z.ltb_spec (Z.of_nat (length (Seats fl))) n); [lia|].
  simpl. rewrite Hl. simpl. rewrite Hs. simpl. by destruct (IsBooked s).
Qed.

(** On a well-formed flight a call returns, and the three ways it can go. *)
Lemma BookSeat_cases st f n :
  wf_flight st f = true →
  ∃ fl a, deref (flightH st) f = Some fl
    ∧ totalSeats st f = Some (TotalSeats a)
    ∧ Z.of_nat (length (Seats fl)) = TotalSeats a
    ∧ NoDup (Seats fl)
    ∧ ((¬ (1 ≤ n ≤ TotalSeats a)%Z ∧ Flight_BookSeat f n st = Some (false, st))
       ∨ ((1 ≤ n ≤ TotalSeats a)%Z
          ∧ ∃ l s, Seats fl !! Z.to_nat (n - 1) = Some (Some l)
              ∧ seatH st !! l = Some s ∧ SeatNumber s = n
              ∧ seat_of st f n = Some s
              ∧ Flight_BookSeat f n st
                = Some (if IsBooked s then (false, st)
                        else (true, set_seatH
                                      (<[l := mkSeat (SeatNumber s) true]> (seatH st))
                                      st)))).
Proof.
  intros Hwf.
  destruct (proj1 (wf_flight_spec st f) Hwf) as (fl & a & Hf & Ha & Hlen & Hnd & _).
  exists fl, a. split; [done|].
  split; [unfold totalSeats; rewrite Hf; simpl; by rewrite Ha|].
  split; [done|]. split; [done|]. rewrite <- Hlen.
  destruct (decide (1 ≤ n ≤ Z.of_nat (length (Seats fl)))%Z) as [Hn|Hn].
  - right. split; [done|].
    destruct (wf_flight_seat st f fl n Hwf Hf Hn) as (l & s & Hl & Hs & Hsn).
    exists l, s. repeat split; try done.
    + by rewrite (seat_of_in_range st f fl n l) by (done || lia).
    + by apply (BookSeat_in_range st f fl).
  - left. split; [done|]. by apply (BookSeat_out_of_range st f fl).
Qed.

(** The seats of the flight that a successful call does not name read
    as before. *)
Lemma BookSeat_other_seats st f fl l s m n :
  deref (flightH st) f = Some fl → NoDup (Seats fl) → (1 ≤ n)%Z →
  Seats fl !! Z.to_nat (n - 1) = Some (Some l) → m ≠ n →
  seat_of (set_seatH (<[l := mkSeat (SeatNumber s) true]> (seatH st)) st) f m
  = seat_of st f m.
Proof.
  intros Hf Hnd Hn Hl Hm. unfold seat_of, seat_loc. simpl.
  destruct (Z.ltb_spec m 1); [done|]. rewrite Hf. simpl.
  destruct (Seats fl !! Z.to_nat (m - 1)) as [[l'|]|] eqn:Hl'; simpl; try done.
  rewrite list_lookup_insert_ne; [done|]. intros <-.
  pose proof (NoDup_lookup _ _ _ _ Hnd Hl Hl'). lia.
Qed.

(** C2: on a well-formed flight BookSeat returns; it returns true exactly
    when the seat number lies in [1, totalSeats] and that seat is not
    booked at the time of the call; after a true the seat is booked;
    after a false the store is the one before the call. *)
Theorem BookSeat_true_iff_in_range_and_free st f n :
  wf_flight st f = true →
  ∃ N b st',
    totalSeats st f = Some N
    ∧ Flight_BookSeat f n st = Some (b, st')
    ∧ (b = true ↔ (1 ≤ n ≤ N)%Z ∧ seat_booked st f n = Some false)
    ∧ (b = true → seat_booked st' f n = Some true)
    ∧ (b = false → st' = st).
Proof.
  intros Hwf.
  destruct (proj1 (wf_flight_spec st f) Hwf) as (fl & a & Hf & Ha & Hlen & _ & _).
  exists (TotalSeats a). unfold totalSeats. rewrite Hf. simpl. rewrite Ha. simpl.
  destruct (decide (1 ≤ n ≤ Z.of_nat (length (Seats fl)))%Z) as [Hn|Hn].
  - destruct (wf_flight_seat st f fl n Hwf Hf Hn) as (l & s & Hl & Hs & Hsn).
    rewrite (BookSeat_in_range st f fl n l s) by done.
    unfold seat_booked. rewrite (seat_of_in_range st f fl n l) by (done || lia).
    rewrite Hs. simpl. destruct (IsBooked s) eqn:Hb.
    + exists false, st. repeat split; try done. by intros [_ ?].
    + eexists true, _. repeat split; try done; try lia.
      intros _. erewrite seat_of_in_range; [|exact Hf|lia|exact Hl]. simpl.
      rewrite list_lookup_insert_eq by (by eapply lookup_lt_Some). done.
  - rewrite (BookSeat_out_of_range st f fl n) by done.
    exists false, st. repeat split; try done. intros [? _]. lia.
Qed.

Lemma fresh_seats_lookup n k :
  k < n → fresh_seats n !! k = Some (mkSeat (Z.of_nat k + 1) false).
Proof.
  intros Hk. unfold fresh_seats. rewrite list_lookup_fmap, lookup_seq_lt by done.
  done.
Qed.

Lemma fresh_seats_seqZ n :
  fresh_seats n = (λ z, mkSeat z false) <$> seqZ 1 (Z.of_nat n).
Proof.
  unfold fresh_seats, seqZ. rewrite Nat2Z.id, <- !list_fmap_compose.
  apply list_fmap_ext. intros _ k _. done.
Qed.

Lemma NewFlight_wf maxLen n s d dep arr a st p st' :
  NewFlight maxLen n s d dep arr a st = Some (p, st') → wf_flight st' p = true.
Proof.
  intros H. apply NewFlight_inv in H as (ac & Ha & Hpos & -> & ->).
  apply wf_flight_spec. eexists _, ac. simpl.
  rewrite heap_snoc_new. split; [done|]. simpl. split; [done|].
  rewrite length_fmap, length_seq. split; [lia|]. split.
  - apply NoDup_fmap_2; [|apply NoDup_seq]. intros x y [=]. lia.
  - intros k q Hk. rewrite list_lookup_fmap in Hk.
    destruct (seq 0 (Z.to_nat (TotalSeats ac)) !! k) as [j|] eqn:Hj; [|done].
    apply lookup_seq in Hj as [-> Hlt]. injection Hk as <-.
    eexists _, _. split; [done|]. simpl.
    rewrite lookup_app_r by lia.
    replace (length (seatH st) + k - length (seatH st)) with k by lia.
    by rewrite fresh_seats_lookup.
Qed.

Lemma evolves_wf_flight st st' f :
  evolves st st' → wf_flight st f = true → wf_flight st' f = true.
Proof.
  intros Hev Hwf. apply wf_flight_spec in Hwf as (fl & a & Hf & Ha & Hlen & Hnd & Hnum).
  apply wf_flight_spec. exists fl, a.
  split; [by eapply deref_prefix; [apply Hev|]|].
  split; [by eapply deref_prefix; [apply Hev|]|].
  repeat split; try done. intros k p Hk.
  destruct (Hnum k p Hk) as (l & s & -> & Hs & Hsn).
  destruct (ev_seat _ _ Hev l s Hs) as (s' & Hs' & Hn' & _).
  exists l, s'. repeat split; [done|congruence].
Qed.

Lemma numbered_seats_read (sh : list Seat) (ps : list (option nat)) : ∀ i,
  (∀ k p, ps !! k = Some p →
     ∃ l s, p = Some l ∧ sh !! l = Some s
            ∧ SeatNumber s = (Z.of_nat (i + k) + 1)%Z) →
  ∃ ss, mapM (deref sh) ps = Some ss
        ∧ SeatNumber <$> ss = seqZ (Z.of_nat i + 1) (Z.of_nat (length ps)).
Proof.
  induction ps as [|p ps IH]; intros i Hk.
  - exists []. done.
  - destruct (Hk 0 p eq_refl) as (l & s & -> & Hs & Hsn).
    destruct (IH (S i)) as (ss & Hss & Hnums).
    { intros k q Hq. destruct (Hk (S k) q Hq) as (l' & s' & -> & Hs' & Hn').
      exists l', s'. repeat split; [done|]. rewrite Hn'. lia. }
    exists (s :: ss). simpl. rewrite Hs. simpl. rewrite Hss. simpl.
    split; [done|]. change (list_fmap Seat Z SeatNumber ss) with (SeatNumber <$> ss).
    rewrite Hnums, Hsn.
    rewrite (seqZ_cons (Z.of_nat i + 1)) by lia. f_equal; [lia|].
    f_equal; lia.
Qed.

(** The seat records of a well-formed flight: one per seat of the
    aircraft, numbered 1, 2, ... in table order. *)
Lemma wf_flight_seats st f :
  wf_flight st f = true →
  ∃ N ss, totalSeats st f = Some N ∧ flight_seats st f = Some ss
          ∧ SeatNumber <$> ss = seqZ 1 N.
Proof.
  intros Hwf. apply wf_flight_spec in Hwf as (fl & a & Hf & Ha & Hlen & _ & Hnum).
  unfold totalSeats, flight_seats. rewrite Hf. simpl. rewrite Ha. simpl.
  exists (TotalSeats a). rewrite <- Hlen.
  destruct (numbered_seats_read (seatH st) (Seats fl) 0) as (ss & Hss & Hn); [done|].
  by exists ss.
Qed.

Lemma NewFlight_seats maxLen n s d dep arr a st p st' :
  NewFlight maxLen n s d dep arr a st = Some (p, st') →
  ∃ N, totalSeats st' p = Some N ∧ (0 ≤ N)%Z
       ∧ flight_seats st' p = Some ((λ z, mkSeat z false) <$> seqZ 1 N).
Proof.
  intros H. apply NewFlight_inv in H as (ac & Ha & Hpos & -> & ->).
  exists (TotalSeats ac). unfold totalSeats, flight_seats. simpl.
  rewrite heap_snoc_new. simpl. rewrite Ha. simpl. repeat split; [done|].
  replace (seqZ 1 (TotalSeats ac))
    with (seqZ 1 (Z.of_nat (Z.to_nat (TotalSeats ac)))) by (by rewrite Z2Nat.id).
  rewrite <- fresh_seats_seqZ. apply mapM_Some, Forall2_same_length_lookup.
  split; [by rewrite length_fmap, length_seq; unfold fresh_seats;
            rewrite length_fmap, length_seq|].
  intros k q sx Hq Hsx. rewrite list_lookup_fmap in Hq.
  destruct (seq 0 (Z.to_nat (TotalSeats ac)) !! k) as [j|] eqn:Hj; [|done].
  apply lookup_seq in Hj as [-> Hlt]. injection Hq as <-. simpl.
  rewrite lookup_app_r by lia.
  replace (length (seatH st) + k - length (seatH st)) with k by lia. done.
Qed.

(** Seat by seat, a booked flag that was true stays true. *)
Lemma evolves_flight_seats st st' f ss ss' :
  evolves st st' → flight_seats st f = Some ss → flight_seats st' f = Some ss' →
  ∀ i s s', ss !! i = Some s → ss' !! i = Some s' →
    SeatNumber s' = SeatNumber s ∧ (IsBooked s = true → IsBooked s' = true).
Proof.
  intros Hev Hss Hss' i s s' Hi Hi'. unfold flight_seats in *.
  destruct (deref (flightH st) f) as [fl|] eqn:Hf; simpl in Hss; [|done].
  rewrite (deref_prefix _ _ _ _ (ev_flight _ _ Hev) Hf) in Hss'. simpl in Hss'.
  apply mapM_Some in Hss, Hss'.
  destruct (Forall2_lookup_r _ _ _ _ _ Hss Hi) as (p & Hp & Hd).
  destruct (Forall2_lookup_l _ _ _ _ _ Hss' Hp) as (s2 & Hs2 & Hd2).
  assert (s2 = s') as -> by congruence.
  destruct p as [l|]; simpl in Hd, Hd2; [|done].
  destruct (ev_seat _ _ Hev l s Hd) as (s3 & Hs3 & Hn3 & Hb3).
  assert (s3 = s') as -> by congruence. done.
Qed.

Lemma evolves_totalSeats st st' f N :
  evolves st st' → totalSeats st f = Some N → totalSeats st' f = Some N.
Proof.
  intros Hev. unfold totalSeats. intros H.
  destruct (deref (flightH st) f) as [fl|] eqn:Hf; simpl in H; [|done].
  destruct (deref (aircraftH st) (Flight_Aircraft fl)) as [a|] eqn:Ha; simpl in H; [|done].
  rewrite (deref_prefix _ _ _ _ (ev_flight _ _ Hev) Hf). simpl.
  rewrite (deref_prefix _ _ _ _ (ev_aircraft _ _ Hev) Ha). done.
Qed.

Lemma evolves_seat_booked st st' f n :
  evolves st st' → seat_booked st f n = Some true → seat_booked st' f n = Some true.
Proof.
  intros Hev. unfold seat_booked, seat_of, seat_loc.
  destruct (n <? 1)%Z; [done|].
  destruct (deref (flightH st) f) as [fl|] eqn:Hf; simpl; [|done].
  rewrite (deref_prefix _ _ _ _ (ev_flight _ _ Hev) Hf). simpl.
  destruct (Seats fl !! _) as [[l|]|]; simpl; try done.
  destruct (seatH st !! l) as [s|] eqn:Hs; simpl; [|done].
  destruct (ev_seat _ _ Hev l s Hs) as (s' & -> & _ & Hb). simpl.
  intros [= Hbs]. by rewrite Hb.
Qed.

(** What a known booked flag says about the call. *)
Lemma seat_booked_BookSeat st f n b :
  seat_booked st f n = Some b →
  ∃ fl l s, deref (flightH st) f = Some fl
    ∧ (1 ≤ n ≤ Z.of_nat (length (Seats fl)))%Z
    ∧ Seats fl !! Z.to_nat (n - 1) = Some (Some l)
    ∧ seatH st !! l = Some s ∧ IsBooked s = b.
Proof.
  unfold seat_booked, seat_of, seat_loc.
  destruct (Z.ltb_spec n 1); [done|].
  destruct (deref (flightH st) f) as [fl|] eqn:Hf; simpl; [|done].
  destruct (Seats fl !! _) as [[l|]|] eqn:Hl; simpl; try done.
  destruct (seatH st !! l) as [s|] eqn:Hs; simpl; [|done].
  intros [= Hb]. exists fl, l, s. repeat split; try done.
  apply lookup_lt_Some in Hl. lia.
Qed.

Lemma BookSeat_booked st f n :
  seat_booked st f n = Some true → Flight_BookSeat f n st = Some (false, st).
Proof.
  intros H. apply seat_booked_BookSeat in H as (fl & l & s & Hf & Hn & Hl & Hs & Hb).
  rewrite (BookSeat_in_range st f fl n l s) by done. by rewrite Hb.
Qed.

Lemma BookSeat_free st f n :
  seat_booked st f n = Some false →
  ∃ st', Flight_BookSeat f n st = Some (true, st') ∧ seat_booked st' f n = Some true.
Proof.
  intros H. apply seat_booked_BookSeat in H as (fl & l & s & Hf & Hn & Hl & Hs & Hb).
  rewrite (BookSeat_in_range st f fl n l s) by done. rewrite Hb.
  eexists. split; [done|].
  unfold seat_booked. erewrite seat_of_in_range; [|exact Hf|lia|exact Hl]. simpl.
  rewrite list_lookup_insert_eq by (by eapply lookup_lt_Some). done.
Qed.

Section SeatClaims.

Variable growth : nat → nat.
Variable maxLen : Z.

(** C4: NewFlight builds seats numbered 1..totalSeats of the aircraft,
    none booked.  Whatever calls follow, the flight keeps the same seat
    table (the same pointers, so no seat is added or removed), the seats
    keep their numbers, and between any earlier store and any later one a
    booked flag that was true is still true. *)
Theorem seats_dense_fixed_and_never_unbooked
  num src dst dep arr a st f st1 os vs st2 os' vs' st3 :
  NewFlight maxLen num src dst dep arr a st = Some (f, st1) →
  run growth maxLen os st1 = Some (vs, st2) →
  run growth maxLen os' st2 = Some (vs', st3) →
  ∃ N fl ss2 ss3,
    totalSeats st1 f = Some N ∧ (0 ≤ N)%Z
    ∧ flight_seats st1 f = Some ((λ z, mkSeat z false) <$> seqZ 1 N)
    ∧ deref (flightH st1) f = Some fl
    ∧ deref (flightH st2) f = Some fl
    ∧ deref (flightH st3) f = Some fl
    ∧ totalSeats st2 f = Some N ∧ totalSeats st3 f = Some N
    ∧ flight_seats st2 f = Some ss2 ∧ SeatNumber <$> ss2 = seqZ 1 N
    ∧ flight_seats st3 f = Some ss3 ∧ SeatNumber <$> ss3 = seqZ 1 N
    ∧ ∀ i s2 s3, ss2 !! i = Some s2 → ss3 !! i = Some s3 →
        IsBooked s2 = true → IsBooked s3 = true.
Proof.
  intros Hnew Hrun2 Hrun3.
  pose proof (NewFlight_wf _ _ _ _ _ _ _ _ _ _ Hnew) as Hwf1.
  pose proof (run_evolves growth maxLen _ _ _ _ Hrun2) as Hev2.
  pose proof (run_evolves growth maxLen _ _ _ _ Hrun3) as Hev3.
  pose proof (evolves_wf_flight _ _ _ Hev2 Hwf1) as Hwf2.
  pose proof (evolves_wf_flight _ _ _ Hev3 Hwf2) as Hwf3.
  destruct (NewFlight_seats _ _ _ _ _ _ _ _ _ _ Hnew) as (N & HN & Hpos & Hss1).
  pose proof (evolves_totalSeats _ _ _ _ Hev2 HN) as HN2.
  pose proof (evolves_totalSeats _ _ _ _ Hev3 HN2) as HN3.
  destruct (wf_flight_seats _ _ Hwf2) as (N2 & ss2 & HN2' & Hss2 & Hnum2).
  destruct (wf_flight_seats _ _ Hwf3) as (N3 & ss3 & HN3' & Hss3 & Hnum3).
  assert (N2 = N) as -> by congruence. assert (N3 = N) as -> by congruence.
  destruct (proj1 (wf_flight_spec _ _) Hwf1) as (fl & _ & Hf & _).
  exists N, fl, ss2, ss3.
  pose proof (deref_prefix _ _ _ _ (ev_flight _ _ Hev2) Hf) as Hf2.
  pose proof (deref_prefix _ _ _ _ (ev_flight _ _ Hev3) Hf2) as Hf3.
  repeat split; try done.
  intros i s2 s3 H2 H3.
  by destruct (evolves_flight_seats _ _ _ _ _ Hev3 Hss2 Hss3 i s2 s3 H2 H3).
Qed.

(** C5: on a seat that is in range and not booked, the first BookSeat
    returns true and the one right after it returns false; and once
    BookSeat has returned false on a booked seat, it returns false again
    after any further calls. *)
Theorem BookSeat_true_then_false_forever f n :
  (∀ st, seat_booked st f n = Some false →
     ∃ st1, Flight_BookSeat f n st = Some (true, st1)
            ∧ Flight_BookSeat f n st1 = Some (false, st1))
  ∧ (∀ st st1 os vs st2,
       seat_booked st f n = Some true →
       Flight_BookSeat f n st = Some (false, st1) →
       run growth maxLen os st1 = Some (vs, st2) →
       Flight_BookSeat f n st2 = Some (false, st2)).
Proof.
  split.
  - intros st H. destruct (BookSeat_free st f n H) as (st1 & H1 & Hb1).
    exists st1. split; [done|]. by apply BookSeat_booked.
  - intros st st1 os vs st2 Hb H1 Hrun.
    rewrite (BookSeat_booked st f n Hb) in H1. injection H1 as <-.
    apply BookSeat_booked. eapply evolves_seat_booked; [|done].
    by eapply run_evolves.
Qed.

End SeatClaims.

(** C9: a BookSeat that returns true on a well-formed flight writes one
    seat object, the one behind the requested number, and only its booked
    flag.  Every other seat object of the program, every other seat
    number of the flight, the flight record (number, source, destination,
    departure, arrival, aircraft pointer, seat table), the aircraft and
    the rest of the store are as before. *)
Theorem BookSeat_changes_one_flag st f n st' :
  wf_flight st f = true →
  Flight_BookSeat f n st = Some (true, st') →
  ∃ l s,
    seat_loc st f n = Some l ∧ seat_of st f n = Some s
    ∧ seat_of st' f n = Some (mkSeat (SeatNumber s) true)
    ∧ (∀ l', l' ≠ l → seatH st' !! l' = seatH st !! l')
    ∧ (∀ m, m ≠ n → seat_of st' f m = seat_of st f m)
    ∧ deref (flightH st') f = deref (flightH st) f
    ∧ flightH st' = flightH st
    ∧ aircraftH st' = aircraftH st
    ∧ st' = set_seatH (seatH st') st.
Proof.
  intros Hwf Hbook.
  destruct (proj1 (wf_flight_spec st f) Hwf) as (fl & a & Hf & Ha & Hlen & Hnd & Hnum).
  destruct (decide (1 ≤ n ≤ Z.of_nat (length (Seats fl)))%Z) as [Hn|Hn];
    [|by rewrite (BookSeat_out_of_range st f fl n) in Hbook].
  destruct (wf_flight_seat st f fl n Hwf Hf Hn) as (l & s & Hl & Hs & Hsn).
  rewrite (BookSeat_in_range st f fl n l s) in Hbook by done.
  destruct (IsBooked s) eqn:Hb; [done|]. injection Hbook as <-.
  exists l, s. simpl.
  assert (seat_loc st f n = Some l) as Hloc.
  { unfold seat_loc. rewrite Hf. simpl. by rewrite Hl. }
  split; [done|].
  split; [by rewrite (seat_of_in_range st f fl n l) by (done || lia)|].
  split.
  { erewrite seat_of_in_range; [|exact Hf|lia|exact Hl]. simpl.
    rewrite list_lookup_insert_eq by (by eapply lookup_lt_Some). done. }
  split; [by intros l' Hne; simpl; rewrite list_lookup_insert_ne|].
  split; [|done].
  intros m Hm. apply (BookSeat_other_seats st f fl l s m n); try done. lia.
Qed.

(** ** Callers that run one after the other *)

Lemma filter_agree (P Q : Z → Prop)
    `{!∀ x, Decision (P x), !∀ x, Decision (Q x)} (l : list Z) :
  (∀ m, m ∈ l → (P m ↔ Q m)) → filter P l = filter Q l.
Proof.
  induction l as [|x l IH]; intros Hall; [done|].
  rewrite !filter_cons.
  assert (P x ↔ Q x) as Hx by (apply Hall; left).
  rewrite IH by (intros m Hm; apply Hall; by right).
  destruct (decide (P x)), (decide (Q x)); tauto || done.
Qed.

Lemma filter_length_drop_one (P Q : Z → Prop)
    `{!∀ x, Decision (P x), !∀ x, Decision (Q x)} (l : list Z) (n : Z) :
  NoDup l → n ∈ l → P n → (∀ m, Q m ↔ P m ∧ m ≠ n) →
  length (filter P l) = S (length (filter Q l)).
Proof.
  intros Hnd Hin Hn HQ. induction l as [|x l IH]; [by apply elem_of_nil in Hin|].
  apply NoDup_cons in Hnd as [Hx Hnd]. apply elem_of_cons in Hin as [<-|Hin].
  - rewrite filter_cons_True by done.
    rewrite filter_cons_False by (rewrite HQ; tauto). simpl. f_equal. f_equal.
    apply filter_agree. intros m Hm. rewrite HQ.
    split; [|tauto]. intros ?. split; [done|]. by intros ->.
  - assert (x ≠ n) by (by intros ->).
    rewrite !filter_cons.
    assert (P x ↔ Q x) as Hpx by (rewrite HQ; tauto).
    destruct (decide (P x)), (decide (Q x)); try tauto; simpl; by rewrite IH.
Qed.

Lemma filter_length_all (P : Z → Prop) `{!∀ x, Decision (P x)} (l : list Z) :
  (∀ m, m ∈ l → P m) → length (filter P l) = length l.
Proof.
  induction l as [|x l IH]; intros Hall; [done|].
  rewrite filter_cons_True by (apply Hall; left). simpl.
  rewrite IH; [done|]. intros m Hm. apply Hall. by right.
Qed.

Lemma filter_length_none (P : Z → Prop) `{!∀ x, Decision (P x)} (l : list Z) :
  (∀ m, m ∈ l → ¬ P m) → length (filter P l) = 0.
Proof.
  induction l as [|x l IH]; intros Hall; [done|].
  rewrite filter_cons_False by (apply Hall; left).
  apply IH. intros m Hm. apply Hall. by right.
Qed.

Lemma successes_cons b bs : successes (b :: bs) = (if b then 1 else 0) + successes bs.
Proof. unfold successes. rewrite filter_cons. by destruct b. Qed.

Lemma BookSeat_serial_step st f N n b st1 :
  wf_flight st f = true → totalSeats st f = Some N →
  Flight_BookSeat f n st = Some (b, st1) →
  length (free_seats st f N) = (if b then 1 else 0) + length (free_seats st1 f N)
  ∧ ((1 ≤ n ≤ N)%Z → seat_booked st1 f n = Some true)
  ∧ (b = true → seat_booked st1 f n = Some true).
Proof.
  intros Hwf HN Hbook.
  destruct (BookSeat_cases st f n Hwf)
    as (fl & a & Hf & HN' & Hlen & Hnd & [[Hout Hres]|[Hin Hres]]).
  - rewrite Hres in Hbook. injection Hbook as <- <-.
    rewrite HN in HN'. injection HN' as ->. by repeat split.
  - destruct Hres as (l & s & Hl & Hs & Hsn & Hseat & Hres).
    rewrite HN in HN'. injection HN' as ->.
    rewrite Hres in Hbook. destruct (IsBooked s) eqn:Hb; injection Hbook as <- <-.
    + assert (seat_booked st f n = Some true) as Hbk
        by (unfold seat_booked; by rewrite Hseat; simpl; rewrite Hb).
      by repeat split.
    + assert (seat_booked
                (set_seatH (<[l := mkSeat (SeatNumber s) true]> (seatH st)) st) f n
              = Some true) as Hbk.
      { unfold seat_booked. erewrite seat_of_in_range; [|exact Hf|lia|exact Hl].
        simpl. rewrite list_lookup_insert_eq by (by eapply lookup_lt_Some). done. }
      split; [|by split]. simpl. unfold free_seats.
      apply (filter_length_drop_one _ _ _ n).
      * apply NoDup_seqZ.
      * apply elem_of_seqZ. lia.
      * unfold seat_booked. rewrite Hseat. simpl. by rewrite Hb.
      * intros m. destruct (decide (m = n)) as [->|Hne].
        -- rewrite Hbk. split; [done|tauto].
        -- unfold seat_booked.
           rewrite (BookSeat_other_seats st f fl l s m n) by (done || lia). tauto.
Qed.

Lemma BookSeat_returns st f n :
  wf_flight st f = true → ∃ b st1, Flight_BookSeat f n st = Some (b, st1).
Proof.
  intros Hwf.
  destruct (BookSeat_cases st f n Hwf)
    as (fl & a & _ & _ & _ & _ & [[_ Hres]|[_ (l & s & _ & _ & _ & _ & Hres)]]);
    rewrite Hres; [|destruct (IsBooked s)]; by eexists _, _.
Qed.

Lemma run_serial_counts f N calls : ∀ st,
  wf_flight st f = true → totalSeats st f = Some N →
  ∃ bs st',
    run_serial f calls st = Some (bs, st')
    ∧ evolves st st'
    ∧ length bs = length calls
    ∧ length (free_seats st f N) = successes bs + length (free_seats st' f N)
    ∧ (∀ n, n ∈ calls → (1 ≤ n ≤ N)%Z → seat_booked st' f n = Some true)
    ∧ (∀ n j, seat_booked st f n = Some true → calls !! j = Some n →
              bs !! j = Some false)
    ∧ (∀ i j n, calls !! i = Some n → calls !! j = Some n →
                bs !! i = Some true → bs !! j = Some true → i = j).
Proof.
  induction calls as [|n0 calls IH]; intros st Hwf HN.
  - exists [], st. split; [done|]. split; [apply evolves_refl|].
    split; [done|]. split; [done|].
    split; [by intros n Hn; apply elem_of_nil in Hn|]. split; by intros.
  - destruct (BookSeat_returns st f n0 Hwf) as (b & st1 & Hbook).
    pose proof (Flight_BookSeat_evolves _ _ _ _ _ Hbook) as Hev1.
    pose proof (evolves_wf_flight _ _ _ Hev1 Hwf) as Hwf1.
    pose proof (evolves_totalSeats _ _ _ _ Hev1 HN) as HN1.
    destruct (BookSeat_serial_step _ _ _ _ _ _ Hwf HN Hbook) as (Hcount & Hin & Htrue).
    destruct (IH st1 Hwf1 HN1)
      as (bs & st' & Hrun & Hev & Hlen & Hcount' & Hafter & Hbooked & Huniq).
    exists (b :: bs), st'. simpl. rewrite Hbook. simpl. rewrite Hrun. simpl.
    split; [done|]. split; [by eapply evolves_trans|].
    split; [by rewrite Hlen|].
    split; [rewrite successes_cons; lia|].
    split; [|split].
    + intros n Hn Hrange. apply elem_of_cons in Hn as [->|Hn]; [|by apply Hafter].
      eapply evolves_seat_booked; [exact Hev|]. by apply Hin.
    + intros n [|j] Hbk Hj; simpl in *.
      * injection Hj as ->. rewrite (BookSeat_booked st f n Hbk) in Hbook.
        by injection Hbook as <- <-.
      * eapply Hbooked; [|exact Hj]. by eapply evolves_seat_booked.
    + intros [|i] [|j] n Hi Hj Hbi Hbj; simpl in *; try done.
      * injection Hi as ->. injection Hbi as ->.
        rewrite (Hbooked n j (Htrue eq_refl) Hj) in Hbj. done.
      * injection Hj as ->. injection Hbj as ->.
        rewrite (Hbooked n i (Htrue eq_refl) Hi) in Hbi. done.
      * f_equal. by eapply Huniq.
Qed.

(** With the calls serialised, the property the specification asks for
    holds: on a flight with N seats, none booked, any sequence of calls
    that names every seat at least once yields exactly N successes, and
    no seat number succeeds twice. *)
Lemma serial_BookSeat_books_each_seat_once st f N calls :
  wf_flight st f = true → totalSeats st f = Some N →
  (∀ n, (1 ≤ n ≤ N)%Z → seat_booked st f n = Some false) →
  (∀ n, (1 ≤ n ≤ N)%Z → n ∈ calls) →
  ∃ bs st',
    run_serial f calls st = Some (bs, st')
    ∧ length bs = length calls
    ∧ successes bs = Z.to_nat N
    ∧ ∀ i j n, calls !! i = Some n → calls !! j = Some n →
               bs !! i = Some true → bs !! j = Some true → i = j.
Proof.
  intros Hwf HN Hfree Hall.
  destruct (run_serial_counts f N calls st Hwf HN)
    as (bs & st' & Hrun & _ & Hlen & Hcount & Hafter & _ & Huniq).
  exists bs, st'. repeat split; try done.
  unfold free_seats in Hcount.
  rewrite filter_length_all in Hcount
    by (intros m Hm; apply elem_of_seqZ in Hm; apply Hfree; lia).
  rewrite (filter_length_none (λ n, seat_booked st' f n = Some false)) in Hcount.
  - rewrite length_seqZ in Hcount. lia.
  - intros m Hm. apply elem_of_seqZ in Hm.
    rewrite (Hafter m) by (apply Hall || idtac; lia). done.
Qed.

Lemma NewFlight_all_free maxLen num s d dep arr a st f st' N n :
  NewFlight maxLen num s d dep arr a st = Some (f, st') →
  totalSeats st' f = Some N → (1 ≤ n ≤ N)%Z →
  seat_booked st' f n = Some false.
Proof.
  intros H HN Hn. apply NewFlight_inv in H as (ac & Ha & Hpos & -> & ->).
  unfold totalSeats in HN. simpl in HN. rewrite heap_snoc_new in HN. simpl in HN.
  rewrite Ha in HN. injection HN as <-.
  unfold seat_booked, seat_of, seat_loc. simpl.
  destruct (Z.ltb_spec n 1); [lia|]. rewrite heap_snoc_new. simpl.
  rewrite list_lookup_fmap, lookup_seq_lt by lia. simpl.
  rewrite lookup_app_r by lia.
  replace (length (seatH st) + (0 + Z.to_nat (n - 1)) - length (seatH st))
    with (Z.to_nat (n - 1)) by lia.
  rewrite fresh_seats_lookup by lia. done.
Qed.

(** X2: on a flight with N seats as NewFlight returns it, calls served
    one after the other that name every seat at least once yield exactly
    N successes, and no seat number succeeds twice. *)
Lemma serial_BookSeat_on_new_flight maxLen num s d dep arr a st f st1 N calls :
  NewFlight maxLen num s d dep arr a st = Some (f, st1) →
  totalSeats st1 f = Some N →
  (∀ n, (1 ≤ n ≤ N)%Z → n ∈ calls) →
  ∃ bs st',
    run_serial f calls st1 = Some (bs, st')
    ∧ length bs = length calls
    ∧ successes bs = Z.to_nat N
    ∧ ∀ i j n, calls !! i = Some n → calls !! j = Some n →
               bs !! i = Some true → bs !! j = Some true → i = j.
Proof.
  intros Hnew HN Hall.
  apply (serial_BookSeat_books_each_seat_once st1 f N calls); try done.
  - by eapply NewFlight_wf.
  - intros n Hn. by eapply NewFlight_all_free.
Qed.

(** ** Flight search *)

Lemma search_cond_spec fh source destination date p fl :
  deref fh p = Some fl →
  search_cond fl source destination date = true
  ↔ on_route_and_date fh source destination date p.
Proof.
  intros Hp. unfold search_cond, on_route_and_date.
  rewrite !andb_true_iff, !String.eqb_eq, !Z.eqb_eq. split.
  - intros ((((? & ?) & ?) & ?) & ?). by exists fl.
  - intros (fl' & Hfl' & ? & ? & ? & ? & ?).
    rewrite Hp in Hfl'. injection Hfl' as <-. done.
Qed.

Lemma SearchFlights_loop_filter fh source destination date flights : ∀ results,
  Forall (λ p, is_Some (deref fh p)) flights →
  SearchFlights_loop fh source destination date flights results
  = Some (results ++ filter (on_route_and_date fh source destination date) flights).
Proof.
  induction flights as [|p flights IH]; intros results Hall; simpl.
  - by rewrite app_nil_r.
  - apply Forall_cons in Hall as [[fl Hfl] Hall]. rewrite Hfl. simpl.
    rewrite filter_cons.
    destruct (search_cond fl source destination date) eqn:Hc.
    + rewrite decide_True by (by eapply search_cond_spec).
      rewrite IH by done. by rewrite <- app_assoc.
    + rewrite decide_False; [by apply IH|].
      intros H. eapply search_cond_spec in H; [|done]. congruence.
Qed.

(** C6: a search returns the flights of the collection that are on the
    route and depart on the calendar day of the query, no others, each
    as often as the collection holds it, in the order of the collection. *)
Theorem SearchFlights_filters_in_insertion_order
  fs source destination date st s flights :
  deref (flightSearchH st) fs = Some s →
  slice_elems (flightArrH st) (fs_flights s) = Some flights →
  Forall (λ p, is_Some (deref (flightH st) p)) flights →
  ∃ result,
    FlightSearch_SearchFlights fs source destination date st = Some result
    ∧ result = filter (on_route_and_date (flightH st) source destination date) flights
    ∧ result `sublist_of` flights
    ∧ ∀ p, p ∈ result
           ↔ p ∈ flights ∧ on_route_and_date (flightH st) source destination date p.
Proof.
  intros Hs Hfl Hall. unfold FlightSearch_SearchFlights.
  rewrite Hs. simpl. rewrite Hfl. simpl.
  rewrite SearchFlights_loop_filter by done. simpl.
  eexists. split; [done|]. split; [done|]. split.
  - apply sublist_filter.
  - intros p. rewrite list_elem_of_filter. tauto.
Qed.

(** ** The booking store *)

Lemma added_by_not_nil bh bm bookingID o p :
  added_by bh bm bookingID o = Some p → p ≠ None.
Proof.
  destruct o; simpl; try done.
  destruct booking as [l|]; simpl; [|done].
  destruct (bh !! l); [|done]. destruct (decide _); [|done]. by intros [= <-].
Qed.

Lemma last_added_not_nil bh bm bookingID os p :
  last_added bh bm bookingID os = Some p → p ≠ None.
Proof.
  induction os as [|o os IH]; simpl; [done|].
  destruct (last_added bh bm bookingID os); [by intros [= <-]; apply IH|].
  apply added_by_not_nil.
Qed.

(** Unfold the function called in [Hc] and split on each of its tests. *)
Ltac crack Hc :=
  unfold NewAircraft, NewPassenger, NewPayment, NewBooking, NewFlightSearch,
    GetBookingManager, GetPaymentProcessor, BookingManager_AddBooking,
    BookingManager_GetBooking, PaymentProcessor_ProcessPayment,
    NewAirlineManagementSystem, AirlineManagementSystem_AddFlight,
    AirlineManagementSystem_AddAircraft, AirlineManagementSystem_SearchFlights,
    Flight_BookSeat, make_slice, alloc in Hc;
  simpl in Hc;
  repeat (progress simplify_option_eq || case_match).

Ltac fin := repeat (split || intro); simpl in *; try done; try congruence.

Section StoreClaims.

Variable growth : nat → nat.
Variable maxLen : Z.

Lemma added_by_stable o st v st1 bh bm bookingID :
  call growth maxLen o st = Some (v, st1) → bookingH st `prefix_of` bh →
  added_by (bookingH st) bm bookingID o = added_by bh bm bookingID o.
Proof.
  intros Hc Hp.
  destruct o as [| | | | | | | | |bm' booking| | | | | | |]; simpl; try done.
  simpl in Hc. unfold BookingManager_AddBooking in Hc.
  destruct bm' as [l|]; simpl in Hc; [|done].
  destruct (bookingManagerH st !! l) as [m|]; simpl in Hc; [|done].
  destruct (deref (bookingH st) booking) as [b|] eqn:Hb; simpl in Hc; [|done].
  by rewrite (deref_prefix _ _ _ _ Hp Hb).
Qed.

(** One call: the manager at [l] is still there, and under any id it
    holds what the call added, or else what it held. *)
Lemma call_bookings o st v st1 l m bookingID :
  call growth maxLen o st = Some (v, st1) → bookingManagerH st !! l = Some m →
  ∃ m1, bookingManagerH st1 !! l = Some m1
    ∧ bookings m1 !! bookingID
      = match added_by (bookingH st) (Some l) bookingID o with
        | Some p => Some p
        | None => bookings m !! bookingID
        end.
Proof.
  intros Hc Hm.
  destruct o as [| | | | |f n| | | |bm booking| | |pp payment| |ams ?|ams ?|];
    simpl in Hc |- *;
    try (injection Hc as <- <-; exists m; by split).
  - destruct (NewFlight _ _ _ _ _ _ _ _) as [[p s]|] eqn:E; simpl in Hc; [|done].
    injection Hc as <- <-. apply NewFlight_inv in E as (? & _ & _ & _ & ->).
    exists m. by split.
  - unfold Flight_BookSeat in Hc.
    destruct (n <? 1)%Z; simpl in Hc; [injection Hc as <- <-; exists m; by split|].
    destruct (deref (flightH st) f) as [fl|]; simpl in Hc; [|done].
    destruct (_ <? _)%Z; [injection Hc as <- <-; exists m; by split|].
    destruct (Seats fl !! _) as [[l'|]|]; simpl in Hc; try done.
    destruct (seatH st !! l') as [s|]; simpl in Hc; [|done].
    destruct (IsBooked s); injection Hc as <- <-; exists m; by split.
  - destruct (FlightSearch_SearchFlights _ _ _ _ _); simpl in Hc; [|done].
    injection Hc as <- <-. exists m. by split.
  - unfold GetBookingManager in Hc. destruct (onceBookingManager st).
    + injection Hc as <- <-. exists m. by split.
    + simpl in Hc. injection Hc as <- <-. exists m. simpl.
      split; [by apply heap_snoc_old|done].
  - unfold BookingManager_AddBooking in Hc.
    destruct bm as [l'|]; simpl in Hc; [|done].
    destruct (bookingManagerH st !! l') as [m'|] eqn:Hm'; simpl in Hc; [|done].
    destruct (deref (bookingH st) booking) as [b|] eqn:Hb; simpl in Hc; [|done].
    injection Hc as <- <-. simpl.
    destruct (decide (l' = l)) as [->|Hne].
    + rewrite Hm in Hm'. injection Hm' as <-. eexists. split.
      * apply list_lookup_insert_eq. by eapply lookup_lt_Some.
      * simpl. destruct (decide (BookingID b = bookingID)) as [->|Hid].
        -- rewrite decide_True by done. by rewrite lookup_insert_eq.
        -- rewrite decide_False by (by intros [_ ?]). by rewrite lookup_insert_ne.
    + exists m. rewrite list_lookup_insert_ne by done. split; [done|].
      rewrite decide_False; [done|]. intros [[= ?] _]. done.
  - destruct (BookingManager_GetBooking _ _ _); simpl in Hc; [|done].
    injection Hc as <- <-. exists m. by split.
  - unfold GetPaymentProcessor in Hc. destruct (oncePaymentProcessor st).
    + injection Hc as <- <-. exists m. by split.
    + simpl in Hc. injection Hc as <- <-. exists m. by split.
  - unfold PaymentProcessor_ProcessPayment in Hc.
    destruct pp as [l'|]; simpl in Hc; [|done].
    destruct (paymentProcessorH st !! l'); simpl in Hc; [|done].
    destruct (deref (paymentH st) payment); simpl in Hc; [|done].
    injection Hc as <- <-. exists m. by split.
  - unfold NewAirlineManagementSystem, make_slice, NewFlightSearch, alloc,
      GetBookingManager, GetPaymentProcessor in Hc.
    destruct (onceBookingManager st) eqn:Hob, (oncePaymentProcessor st) eqn:Hop;
      simpl in Hc; rewrite ?Hob, ?Hop in Hc; simpl in Hc;
      rewrite ?Hob, ?Hop in Hc; simpl in Hc;
      injection Hc as <- <-; exists m; simpl;
      (split; [done || by apply heap_snoc_old|done]).
  - unfold AirlineManagementSystem_AddFlight in Hc.
    destruct ams as [l'|]; simpl in Hc; [|done].
    destruct (amsH st !! l'); simpl in Hc; [|done].
    destruct (go_append _ _ _ _) as [[s arrs]|]; simpl in Hc; [|done].
    injection Hc as <- <-. exists m. by split.
  - unfold AirlineManagementSystem_AddAircraft in Hc.
    destruct ams as [l'|]; simpl in Hc; [|done].
    destruct (amsH st !! l'); simpl in Hc; [|done].
    destruct (go_append _ _ _ _) as [[s arrs]|]; simpl in Hc; [|done].
    injection Hc as <- <-. exists m. by split.
  - destruct (AirlineManagementSystem_SearchFlights _ _ _ _ _); simpl in Hc; [|done].
    injection Hc as <- <-. exists m. by split.
Qed.

Lemma run_bookings l bookingID os : ∀ st vs st' m,
  run growth maxLen os st = Some (vs, st') → bookingManagerH st !! l = Some m →
  ∃ m', bookingManagerH st' !! l = Some m'
    ∧ bookings m' !! bookingID
      = match last_added (bookingH st') (Some l) bookingID os with
        | Some p => Some p
        | None => bookings m !! bookingID
        end.
Proof.
  induction os as [|o os IH]; intros st vs st' m Hrun Hm.
  - injection Hrun as <- <-. exists m. by split.
  - apply run_cons in Hrun as (v & st1 & vs' & Hc & Hr & ->).
    destruct (call_bookings _ _ _ _ _ _ bookingID Hc Hm) as (m1 & Hm1 & Hb1).
    destruct (IH _ _ _ _ Hr Hm1) as (m' & Hm' & Hb').
    exists m'. split; [done|]. simpl. rewrite Hb'.
    destruct (last_added _ _ _ os); [done|]. rewrite Hb1.
    erewrite added_by_stable; [done|exact Hc|].
    etrans; [apply (ev_booking _ _ (call_evolves growth maxLen _ _ _ _ Hc))|].
    apply (ev_booking _ _ (run_evolves growth maxLen _ _ _ _ Hr)).
Qed.

(** The manager that GetBookingManager creates holds no booking. *)
Lemma GetBookingManager_fresh st bm st' :
  onceBookingManager st = false → GetBookingManager st = (bm, st') →
  deref (bookingManagerH st') bm = Some (mkBookingManager ∅).
Proof.
  intros Honce. unfold GetBookingManager. rewrite Honce. simpl.
  intros [= <- <-]. simpl. apply heap_snoc_new.
Qed.

(** C7: take a booking manager that holds nothing under an id, as when
    it has just been created, and let any calls follow.  GetBooking then
    returns normally: it returns the pointer passed to the last
    AddBooking made under that id, which is never nil, and it returns nil
    when there was no AddBooking under that id. *)
Theorem GetBooking_last_write_wins bm m st os vs st' bookingID :
  deref (bookingManagerH st) bm = Some m →
  bookings m !! bookingID = None →
  run growth maxLen os st = Some (vs, st') →
  ∃ r, BookingManager_GetBooking bm bookingID st' = Some r
    ∧ match last_added (bookingH st') bm bookingID os with
      | Some booking => r = booking ∧ booking ≠ None
      | None => r = None
      end.
Proof.
  intros Hm Hnone Hrun. destruct bm as [l|]; simpl in Hm; [|done].
  destruct (run_bookings l bookingID _ _ _ _ m Hrun Hm) as (m' & Hm' & Hb').
  unfold BookingManager_GetBooking. simpl. rewrite Hm'. simpl.
  eexists. split; [done|]. rewrite Hb'.
  destruct (last_added _ _ _ os) as [p|] eqn:Hl; simpl.
  - split; [done|]. by eapply last_added_not_nil.
  - by rewrite Hnone.
Qed.

(** ** The singletons *)

Lemma call_singletons o st v st1 :
  singletons_ok st → call growth maxLen o st = Some (v, st1) →
  singletons_ok st1
  ∧ (o = CallGetBookingManager → v = VPtr (Some 0))
  ∧ (o = CallGetPaymentProcessor → v = VPtr (Some 0)).
Proof.
  unfold singletons_ok. intros [Hb Hp] Hc.
  destruct o as [| | | | |f n| | | |bm booking| | |pp payment| |ams ?|ams ?|];
    simpl in Hc;
    try (injection Hc as <- <-; by repeat split).
  - destruct (NewFlight _ _ _ _ _ _ _ _) as [[p s]|] eqn:E; simpl in Hc; [|done].
    injection Hc as <- <-. apply NewFlight_inv in E as (? & _ & _ & _ & ->).
    by repeat split.
  - destruct (Flight_BookSeat f n st) as [[b s]|] eqn:E; simpl in Hc; [|done].
    injection Hc as <- <-. unfold Flight_BookSeat in E.
    destruct (n <? 1)%Z; [injection E as <- <-; by repeat split|].
    destruct (deref (flightH st) f) as [fl|]; simpl in E; [|done].
    destruct (_ <? _)%Z; [injection E as <- <-; by repeat split|].
    destruct (Seats fl !! _) as [[l'|]|]; simpl in E; try done.
    destruct (seatH st !! l') as [x|]; simpl in E; [|done].
    destruct (IsBooked x); injection E as <- <-; by repeat split.
  - destruct (FlightSearch_SearchFlights _ _ _ _ _); simpl in Hc; [|done].
    injection Hc as <- <-. by repeat split.
  - unfold GetBookingManager in Hc.
    destruct (onceBookingManager st) eqn:Hob; simpl in Hc; injection Hc as <- <-.
    + rewrite Hob. destruct Hb as [-> ?]. by repeat split.
    + simpl. rewrite length_app, Hb. by repeat split.
  - unfold BookingManager_AddBooking in Hc.
    destruct bm as [l'|]; simpl in Hc; [|done].
    destruct (bookingManagerH st !! l') as [m'|]; simpl in Hc; [|done].
    destruct (deref (bookingH st) booking) as [b|]; simpl in Hc; [|done].
    injection Hc as <- <-. simpl. rewrite length_insert. by repeat split.
  - destruct (BookingManager_GetBooking _ _ _); simpl in Hc; [|done].
    injection Hc as <- <-. by repeat split.
  - unfold GetPaymentProcessor in Hc.
    destruct (oncePaymentProcessor st) eqn:Hop; simpl in Hc; injection Hc as <- <-.
    + rewrite Hop. destruct Hp as [-> ?]. by repeat split.
    + simpl. rewrite length_app, Hp. by repeat split.
  - unfold PaymentProcessor_ProcessPayment in Hc.
    destruct pp as [l'|]; simpl in Hc; [|done].
    destruct (paymentProcessorH st !! l') as [m'|]; simpl in Hc; [|done].
    destruct (deref (paymentH st) payment) as [b|]; simpl in Hc; [|done].
    injection Hc as <- <-. simpl. rewrite length_insert. by repeat split.
  - unfold NewAirlineManagementSystem, make_slice, NewFlightSearch, alloc,
      GetBookingManager, GetPaymentProcessor in Hc.
    destruct (onceBookingManager st) eqn:Hob, (oncePaymentProcessor st) eqn:Hop;
      simpl in Hc; rewrite ?Hob, ?Hop in Hc; simpl in Hc;
      rewrite ?Hob, ?Hop in Hc; simpl in Hc;
      injection Hc as <- <-; simpl; rewrite ?Hob, ?Hop, ?length_app.
    + destruct Hb, Hp. by repeat split.
    + destruct Hb. rewrite Hp. by repeat split.
    + destruct Hp. rewrite Hb. by repeat split.
    + rewrite Hb, Hp. by repeat split.
  - unfold AirlineManagementSystem_AddFlight in Hc.
    destruct ams as [l'|]; simpl in Hc; [|done].
    destruct (amsH st !! l'); simpl in Hc; [|done].
    destruct (go_append _ _ _ _) as [[s arrs]|]; simpl in Hc; [|done].
    injection Hc as <- <-. by repeat split.
  - unfold AirlineManagementSystem_AddAircraft in Hc.
    destruct ams as [l'|]; simpl in Hc; [|done].
    destruct (amsH st !! l'); simpl in Hc; [|done].
    destruct (go_append _ _ _ _) as [[s arrs]|]; simpl in Hc; [|done].
    injection Hc as <- <-. by repeat split.
  - destruct (AirlineManagementSystem_SearchFlights _ _ _ _ _); simpl in Hc; [|done].
    injection Hc as <- <-. by repeat split.
Qed.

Lemma run_singletons os : ∀ st vs st',
  singletons_ok st → run growth maxLen os st = Some (vs, st') →
  singletons_ok st'
  ∧ (∀ i, os !! i = Some CallGetBookingManager → vs !! i = Some (VPtr (Some 0)))
  ∧ (∀ i, os !! i = Some CallGetPaymentProcessor → vs !! i = Some (VPtr (Some 0))).
Proof.
  induction os as [|o os IH]; intros st vs st' Hok Hrun.
  - injection Hrun as <- <-. split; [done|]. split; by intros i [=].
  - apply run_cons in Hrun as (v & st1 & vs' & Hc & Hr & ->).
    destruct (call_singletons _ _ _ _ Hok Hc) as (Hok1 & Hvb & Hvp).
    destruct (IH _ _ _ Hok1 Hr) as (Hok' & Hb' & Hp').
    split; [done|]. split.
    + intros [|i]; simpl; [intros [= ->]; by rewrite Hvb|apply Hb'].
    + intros [|i]; simpl; [intros [= ->]; by rewrite Hvp|apply Hp'].
Qed.

Lemma call_once o st v st1 :
  call growth maxLen o st = Some (v, st1) →
  onceBookingManager st1 = onceBookingManager st || calls_GetBookingManager o
  ∧ oncePaymentProcessor st1 = oncePaymentProcessor st || calls_GetPaymentProcessor o.
Proof.
  intros Hc. destruct o; simpl in Hc.
  all: try (crack Hc; simpl; rewrite ?orb_false_r, ?orb_true_r; fin; fail).
  - destruct (NewFlight _ _ _ _ _ _ _ _) as [[p s]|] eqn:E; simpl in Hc; [|done].
    injection Hc as <- <-. apply NewFlight_inv in E as (? & _ & _ & _ & ->).
    simpl. by rewrite !orb_false_r.
  - unfold NewAirlineManagementSystem, make_slice, NewFlightSearch, alloc,
      GetBookingManager, GetPaymentProcessor in Hc.
    destruct (onceBookingManager st) eqn:Hob, (oncePaymentProcessor st) eqn:Hop;
      simpl in Hc; rewrite ?Hob, ?Hop in Hc; simpl in Hc;
      rewrite ?Hob, ?Hop in Hc; simpl in Hc;
      injection Hc as <- <-; fin.
Qed.

Lemma run_once os : ∀ st vs st',
  run growth maxLen os st = Some (vs, st') →
  onceBookingManager st'
  = onceBookingManager st || existsb calls_GetBookingManager os
  ∧ oncePaymentProcessor st'
    = oncePaymentProcessor st || existsb calls_GetPaymentProcessor os.
Proof.
  induction os as [|o os IH]; intros st vs st' Hrun.
  - injection Hrun as <- <-. simpl. by rewrite !orb_false_r.
  - apply run_cons in Hrun as (v & st1 & vs' & Hc & Hr & ->).
    destruct (call_once _ _ _ _ Hc) as [Hb Hp].
    destruct (IH _ _ _ Hr) as [Hb' Hp'].
    simpl. rewrite Hb', Hp', Hb, Hp. by rewrite !orb_assoc.
Qed.

(** C8: in any run of the program from process start, every call of
    GetBookingManager returns one and the same pointer.  Once the
    accessor has run, called directly or by NewAirlineManagementSystem,
    the store holds exactly one BookingManager, the pointer is its
    address, the package variable holds that pointer, and a further call
    returns it and leaves the store as it is; until then the store holds
    no BookingManager.  Likewise for GetPaymentProcessor and
    PaymentProcessor. *)
Theorem accessors_return_the_one_instance os vs st :
  run growth maxLen os init_store = Some (vs, st) →
  ∃ bm pp : nat,
    (∀ i, os !! i = Some CallGetBookingManager → vs !! i = Some (VPtr (Some bm)))
    ∧ (∀ i, os !! i = Some CallGetPaymentProcessor → vs !! i = Some (VPtr (Some pp)))
    ∧ (if existsb calls_GetBookingManager os
       then (∃ m, bookingManagerH st = [m] ∧ bookingManagerH st !! bm = Some m)
            ∧ bookingManagerInstance st = Some bm
            ∧ GetBookingManager st = (Some bm, st)
       else bookingManagerH st = [])
    ∧ (if existsb calls_GetPaymentProcessor os
       then (∃ m, paymentProcessorH st = [m] ∧ paymentProcessorH st !! pp = Some m)
            ∧ paymentProcessorInstance st = Some pp
            ∧ GetPaymentProcessor st = (Some pp, st)
       else paymentProcessorH st = []).
Proof.
  intros Hrun.
  destruct (run_singletons os init_store vs st) as ((Hb & Hp) & Hvb & Hvp);
    [by split|done|].
  destruct (run_once _ _ _ _ Hrun) as [Hob Hop]. simpl in Hob, Hop.
  exists 0, 0. split; [done|]. split; [done|].
  rewrite <- Hob, <- Hop. split.
  - unfold GetBookingManager. destruct (onceBookingManager st).
    + destruct Hb as [Hi Hl]. split; [|by rewrite Hi].
      destruct (bookingManagerH st) as [|m [|? ?]]; simpl in Hl; try done.
      by exists m.
    + by apply nil_length_inv.
  - unfold GetPaymentProcessor. destruct (oncePaymentProcessor st).
    + destruct Hp as [Hi Hl]. split; [|by rewrite Hi].
      destruct (paymentProcessorH st) as [|m [|? ?]]; simpl in Hl; try done.
      by exists m.
    + by apply nil_length_inv.
Qed.

End StoreClaims.

(** ** The facade's collections *)

Lemma wf_slice_spec arrs s :
  wf_slice arrs s = true ↔
  ∃ arr, arrs !! s_base s = Some arr ∧ length arr = s_cap s ∧ s_len s ≤ s_cap s.
Proof.
  unfold wf_slice. split.
  - destruct (arrs !! s_base s) as [arr|]; [|done].
    intros H. apply andb_true_iff in H as [H1 H2].
    apply bool_decide_eq_true in H1, H2. by exists arr.
  - intros (arr & -> & H1 & H2). apply andb_true_iff.
    split; by apply bool_decide_eq_true.
Qed.

Lemma wf_slice_elems arrs s :
  wf_slice arrs s = true → ∃ xs, slice_elems arrs s = Some xs ∧ length xs = s_len s.
Proof.
  intros H. apply wf_slice_spec in H as (arr & Ha & Hl & Hc).
  unfold slice_elems. rewrite Ha. simpl. rewrite decide_True by lia.
  eexists. split; [done|]. rewrite length_take. lia.
Qed.

Section FacadeClaims.

Variable growth : nat → nat.
Variable maxLen : Z.

(** [append] on a well-formed slice returns a well-formed slice that
    shows the old elements followed by the new one. *)
Lemma go_append_elems arrs s x xs :
  wf_slice arrs s = true → slice_elems arrs s = Some xs →
  ∃ s' arrs', go_append growth arrs s x = Some (s', arrs')
    ∧ slice_elems arrs' s' = Some (xs ++ [x])
    ∧ wf_slice arrs' s' = true.
Proof.
  intros Hwf Hxs. apply wf_slice_spec in Hwf as (arr & Ha & Hl & Hc).
  unfold slice_elems in Hxs. rewrite Ha in Hxs. simpl in Hxs.
  rewrite decide_True in Hxs by lia. injection Hxs as <-.
  unfold go_append. rewrite Ha. simpl.
  assert (s_base s < length arrs) as Hlt by (by eapply lookup_lt_Some).
  destruct (decide (s_len s < s_cap s)) as [Hroom|Hfull].
  - eexists _, _. split; [done|]. split.
    + unfold slice_elems. simpl. rewrite list_lookup_insert_eq by done. simpl.
      rewrite decide_True by (rewrite length_insert; lia).
      erewrite take_S_r by (apply list_lookup_insert_eq; lia).
      by rewrite take_insert_ge.
    + apply wf_slice_spec. simpl. eexists. rewrite list_lookup_insert_eq by done.
      split; [done|]. rewrite length_insert. lia.
  - simpl. eexists _, _. split; [done|]. split.
    + unfold slice_elems. simpl. rewrite heap_snoc_new. simpl.
      rewrite decide_True
        by (rewrite length_app, length_take; simpl; lia).
      rewrite take_app_ge by (rewrite length_take; lia). rewrite length_take.
      replace (S (s_len s) - (s_len s `min` length arr)) with 1 by lia. done.
    + apply wf_slice_spec. simpl. eexists. rewrite heap_snoc_new.
      split; [done|]. rewrite length_app, length_take. simpl.
      rewrite length_replicate. lia.
Qed.

(** C10: AddFlight makes the facade's flight collection the old one
    followed by the new flight, and leaves the aircraft collection, its
    slice header and every aircraft array as they were; AddAircraft does
    the same with the two collections exchanged. *)
Theorem AddFlight_AddAircraft_append_at_end ams a x st flights aircrafts :
  deref (amsH st) ams = Some a →
  wf_slice (flightArrH st) (ams_flights a) = true →
  wf_slice (aircraftArrH st) (ams_aircrafts a) = true →
  slice_elems (flightArrH st) (ams_flights a) = Some flights →
  slice_elems (aircraftArrH st) (ams_aircrafts a) = Some aircrafts →
  (∃ st' a',
     AirlineManagementSystem_AddFlight growth ams x st = Some st'
     ∧ deref (amsH st') ams = Some a'
     ∧ slice_elems (flightArrH st') (ams_flights a') = Some (flights ++ [x])
     ∧ slice_elems (aircraftArrH st') (ams_aircrafts a') = Some aircrafts
     ∧ ams_aircrafts a' = ams_aircrafts a
     ∧ aircraftArrH st' = aircraftArrH st
     ∧ wf_slice (flightArrH st') (ams_flights a') = true)
  ∧ (∃ st' a',
       AirlineManagementSystem_AddAircraft growth ams x st = Some st'
       ∧ deref (amsH st') ams = Some a'
       ∧ slice_elems (aircraftArrH st') (ams_aircrafts a') = Some (aircrafts ++ [x])
       ∧ slice_elems (flightArrH st') (ams_flights a') = Some flights
       ∧ ams_flights a' = ams_flights a
       ∧ flightArrH st' = flightArrH st
       ∧ wf_slice (aircraftArrH st') (ams_aircrafts a') = true).
Proof.
  intros Ha Hwf Hwa Hfl Hac.
  destruct ams as [l|]; simpl in Ha; [|done].
  assert (l < length (amsH st)) as Hlt by (by eapply lookup_lt_Some).
  split.
  - destruct (go_append_elems _ _ x _ Hwf Hfl) as (s' & arrs' & Happ & Hel & Hwf').
    unfold AirlineManagementSystem_AddFlight. simpl. rewrite Ha. simpl.
    rewrite Happ. simpl. eexists _, _. split; [done|]. simpl.
    rewrite list_lookup_insert_eq by done. by repeat split.
  - destruct (go_append_elems _ _ x _ Hwa Hac) as (s' & arrs' & Happ & Hel & Hwf').
    unfold AirlineManagementSystem_AddAircraft. simpl. rewrite Ha. simpl.
    rewrite Happ. simpl. eexists _, _. split; [done|]. simpl.
    rewrite list_lookup_insert_eq by done. by repeat split.
Qed.

(** What NewAirlineManagementSystem leaves in the store: the facade, its
    two empty collections, and a flight search over a slice header of
    length zero. *)
Lemma NewAirlineManagementSystem_inv st ams st1 :
  NewAirlineManagementSystem st = (ams, st1) →
  ∃ l a fsl b,
    ams = Some l ∧ amsH st1 !! l = Some a
    ∧ flightSearch a = Some fsl
    ∧ flightSearchH st1 !! fsl = Some (mkFlightSearch (mkSlice b 0 0))
    ∧ ams_flights a = mkSlice b 0 0
    ∧ is_Some (flightArrH st1 !! b)
    ∧ wf_slice (flightArrH st1) (ams_flights a) = true
    ∧ wf_slice (aircraftArrH st1) (ams_aircrafts a) = true
    ∧ slice_elems (flightArrH st1) (ams_flights a) = Some []
    ∧ slice_elems (aircraftArrH st1) (ams_aircrafts a) = Some [].
Proof.
  unfold NewAirlineManagementSystem, make_slice, NewFlightSearch, alloc,
    GetBookingManager, GetPaymentProcessor.
  destruct (onceBookingManager st) eqn:Hob, (oncePaymentProcessor st) eqn:Hop;
    simpl; rewrite ?Hob, ?Hop; simpl; rewrite ?Hob, ?Hop; simpl;
    intros [= <- <-]; simpl;
    eexists _, _, _, _; (split; [done|]);
    (split; [apply list_lookup_insert_eq; rewrite length_app; simpl; lia|]);
    simpl; (split; [done|]);
    (split; [apply heap_snoc_new|]);
    (split; [done|]);
    unfold wf_slice, slice_elems; simpl; rewrite !heap_snoc_new; simpl;
    by repeat split.
Qed.

(** X1: the facade's search reads the slice header that NewFlightSearch
    copied when the facade was built.  AddFlight assigns a new header to
    [ams.flights] only, so the search goes on ranging over zero elements:
    whatever calls follow the construction, it finds nothing. *)
Lemma facade_search_finds_nothing st ams st1 os vs st2 source destination date :
  NewAirlineManagementSystem st = (ams, st1) →
  run growth maxLen os st1 = Some (vs, st2) →
  AirlineManagementSystem_SearchFlights ams source destination date st2 = Some [].
Proof.
  intros Hnew Hrun.
  apply NewAirlineManagementSystem_inv in Hnew
    as (l & a & fsl & b & -> & Ha & Hfs & Hfsl & _ & [arr Hb] & _).
  pose proof (run_evolves growth maxLen _ _ _ _ Hrun) as Hev.
  destruct (ev_ams _ _ Hev l a Ha) as (a' & Ha' & Hfs' & _).
  destruct (ev_flightArr _ _ Hev b arr Hb) as (arr' & Hb' & _).
  unfold AirlineManagementSystem_SearchFlights, FlightSearch_SearchFlights.
  simpl. rewrite Ha'. simpl. rewrite Hfs', Hfs. simpl.
  rewrite (prefix_lookup_Some _ _ _ _ Hfsl (ev_flightSearch _ _ Hev)). simpl.
  unfold slice_elems. simpl. rewrite Hb'. done.
Qed.

End FacadeClaims.

(** ** Goroutines *)

(** A goroutine left alone for three steps does what the sequential
    function does. *)
Lemma BookSeat_steps_alone f n st :
  run_schedule [0; 0; 0] [AtBounds f n] st
  = '(b, st') ← Flight_BookSeat f n st; Some ([Returned b], st').
Proof.
  unfold Flight_BookSeat, seat_loc. simpl.
  destruct (n <? 1)%Z; simpl; [done|].
  destruct (deref (flightH st) f) as [fl|] eqn:Hf; simpl; [|done].
  destruct (_ <? _)%Z; simpl; [done|].
  unfold seat_loc. rewrite Hf. simpl.
  destruct (Seats fl !! _) as [[l|]|] eqn:Hl; simpl; try done.
  destruct (seatH st !! l) as [s|] eqn:Hs; simpl; [|done].
  destruct (IsBooked s); simpl; [done|].
  unfold seat_loc. simpl. rewrite Hf. simpl. rewrite Hl. simpl. rewrite Hs. done.
Qed.

(** C1 fails on the code: a flight with one seat, two goroutines that
    both call BookSeat(1); the scheduler lets each pass its check before
    either sets the flag, and both calls return true. *)
Theorem unlocked_BookSeat_books_one_seat_twice :
  totalSeats (store_after one_seat_flight) (Some 0) = Some 1%Z
  ∧ seat_booked (store_after one_seat_flight) (Some 0) 1 = Some false
  ∧ fst <$> run_schedule [0; 1; 0; 1; 0; 1]
              [AtBounds (Some 0) 1; AtBounds (Some 0) 1]
              (store_after one_seat_flight)
    = Some [Returned true; Returned true].
Proof.
  split; [|split]; vm_compute; reflexivity.
Qed.

(** C3 fails on the code: after AddFlight of AA1 (SFO to JFK, leaving
    2024-01-01) the facade's collection holds the flight and the flight
    is on the route and date of the query, yet the facade's search
    returns no flight. *)
Theorem facade_search_misses_added_flight :
  (a ← deref (amsH (store_after scenario)) (Some 0);
   slice_elems (flightArrH (store_after scenario)) (ams_flights a)) = Some [Some 0]
  ∧ on_route_and_date (flightH (store_after scenario)) "SFO" "JFK" jan1 (Some 0)
  ∧ AirlineManagementSystem_SearchFlights (Some 0) "SFO" "JFK" jan1
      (store_after scenario) = Some [].
Proof.
  split; [vm_compute; reflexivity|]. split; [|vm_compute; reflexivity].
  apply (bool_decide_eq_true_1 _). vm_compute. reflexivity.
Qed.

(** ** The theorems at concrete runs *)

Lemma BookSeat_true_iff_in_range_and_free_witness :
  wf_flight (store_after scenario) (Some 0) = true
  ∧ ∃ N b st',
      totalSeats (store_after scenario) (Some 0) = Some N
      ∧ Flight_BookSeat (Some 0) 1 (store_after scenario) = Some (b, st')
      ∧ (b = true ↔ (1 ≤ 1 ≤ N)%Z
                    ∧ seat_booked (store_after scenario) (Some 0) 1 = Some false)
      ∧ (b = true → seat_booked st' (Some 0) 1 = Some true)
      ∧ (b = false → st' = store_after scenario).
Proof.
  split; [vm_compute; reflexivity|].
  apply (BookSeat_true_iff_in_range_and_free (store_after scenario) (Some 0) 1).
  vm_compute; reflexivity.
Defined.

Lemma seats_dense_fixed_and_never_unbooked_witness :
  NewFlight maxLen64 "AA1" "SFO" "JFK" jan1_0800 jan1_1400 (Some 0) after_aircraft
    = Some (Some 0, flight_built)
  ∧ run spare maxLen64 first_calls flight_built
    = Some (vals_from flight_built first_calls, after_first_calls)
  ∧ run spare maxLen64 later_calls after_first_calls
    = Some (vals_from after_first_calls later_calls, after_later_calls)
  ∧ ∃ N fl ss2 ss3,
      totalSeats flight_built (Some 0) = Some N ∧ (0 ≤ N)%Z
      ∧ flight_seats flight_built (Some 0)
        = Some ((λ z, mkSeat z false) <$> seqZ 1 N)
      ∧ deref (flightH flight_built) (Some 0) = Some fl
      ∧ deref (flightH after_first_calls) (Some 0) = Some fl
      ∧ deref (flightH after_later_calls) (Some 0) = Some fl
      ∧ totalSeats after_first_calls (Some 0) = Some N
      ∧ totalSeats after_later_calls (Some 0) = Some N
      ∧ flight_seats after_first_calls (Some 0) = Some ss2
      ∧ SeatNumber <$> ss2 = seqZ 1 N
      ∧ flight_seats after_later_calls (Some 0) = Some ss3
      ∧ SeatNumber <$> ss3 = seqZ 1 N
      ∧ ∀ i s2 s3, ss2 !! i = Some s2 → ss3 !! i = Some s3 →
          IsBooked s2 = true → IsBooked s3 = true.
Proof.
  assert (NewFlight maxLen64 "AA1" "SFO" "JFK" jan1_0800 jan1_1400 (Some 0) after_aircraft
          = Some (Some 0, flight_built)) as H1 by (vm_compute; reflexivity).
  assert (run spare maxLen64 first_calls flight_built
          = Some (vals_from flight_built first_calls, after_first_calls)) as H2
    by (vm_compute; reflexivity).
  assert (run spare maxLen64 later_calls after_first_calls
          = Some (vals_from after_first_calls later_calls, after_later_calls)) as H3
    by (vm_compute; reflexivity).
  split; [exact H1|]. split; [exact H2|]. split; [exact H3|].
  exact (seats_dense_fixed_and_never_unbooked spare maxLen64 _ _ _ _ _ _ _ _ _ _ _ _ _ _ _
           H1 H2 H3).
Defined.

Lemma BookSeat_true_then_false_forever_witness :
  (seat_booked flight_built (Some 0) 1 = Some false
   ∧ ∃ st1, Flight_BookSeat (Some 0) 1 flight_built = Some (true, st1)
            ∧ Flight_BookSeat (Some 0) 1 st1 = Some (false, st1))
  ∧ (seat_booked seat1_booked (Some 0) 1 = Some true
     ∧ Flight_BookSeat (Some 0) 1 seat1_booked = Some (false, seat1_booked)
     ∧ run spare maxLen64 later_calls seat1_booked
       = Some (vals_from seat1_booked later_calls,
               store_from seat1_booked later_calls)
     ∧ Flight_BookSeat (Some 0) 1 (store_from seat1_booked later_calls)
       = Some (false, store_from seat1_booked later_calls)).
Proof.
  destruct (BookSeat_true_then_false_forever spare maxLen64 (Some 0) 1) as [Hfirst Hlater].
  assert (seat_booked flight_built (Some 0) 1 = Some false) as H0
    by (vm_compute; reflexivity).
  assert (seat_booked seat1_booked (Some 0) 1 = Some true) as H1
    by (vm_compute; reflexivity).
  assert (Flight_BookSeat (Some 0) 1 seat1_booked = Some (false, seat1_booked)) as H2
    by (vm_compute; reflexivity).
  assert (run spare maxLen64 later_calls seat1_booked
          = Some (vals_from seat1_booked later_calls,
                  store_from seat1_booked later_calls)) as H3
    by (vm_compute; reflexivity).
  split.
  - split; [exact H0|]. exact (Hfirst flight_built H0).
  - split; [exact H1|]. split; [exact H2|]. split; [exact H3|].
    exact (Hlater _ _ _ _ _ H1 H2 H3).
Defined.

Lemma BookSeat_changes_one_flag_witness :
  wf_flight flight_built (Some 0) = true
  ∧ Flight_BookSeat (Some 0) 1 flight_built = Some (true, seat1_booked)
  ∧ ∃ l s,
      seat_loc flight_built (Some 0) 1 = Some l
      ∧ seat_of flight_built (Some 0) 1 = Some s
      ∧ seat_of seat1_booked (Some 0) 1 = Some (mkSeat (SeatNumber s) true)
      ∧ (∀ l', l' ≠ l → seatH seat1_booked !! l' = seatH flight_built !! l')
      ∧ (∀ m, m ≠ 1%Z → seat_of seat1_booked (Some 0) m = seat_of flight_built (Some 0) m)
      ∧ deref (flightH seat1_booked) (Some 0) = deref (flightH flight_built) (Some 0)
      ∧ flightH seat1_booked = flightH flight_built
      ∧ aircraftH seat1_booked = aircraftH flight_built
      ∧ seat1_booked = set_seatH (seatH seat1_booked) flight_built.
Proof.
  assert (wf_flight flight_built (Some 0) = true) as H1 by (vm_compute; reflexivity).
  assert (Flight_BookSeat (Some 0) 1 flight_built = Some (true, seat1_booked)) as H2
    by (vm_compute; reflexivity).
  split; [exact H1|]. split; [exact H2|].
  exact (BookSeat_changes_one_flag flight_built (Some 0) 1 seat1_booked H1 H2).
Defined.

Lemma SearchFlights_filters_in_insertion_order_witness :
  deref (flightSearchH (store_after four_flights)) (Some 1)
    = Some (mkFlightSearch (mkSlice 3 4 7))
  ∧ slice_elems (flightArrH (store_after four_flights)) (mkSlice 3 4 7)
    = Some [Some 3; Some 0; Some 1; Some 2]
  ∧ Forall (λ p, is_Some (deref (flightH (store_after four_flights)) p))
      [Some 3; Some 0; Some 1; Some 2]
  ∧ ∃ result,
      FlightSearch_SearchFlights (Some 1) "SFO" "JFK" jan1 (store_after four_flights)
        = Some result
      ∧ result = filter (on_route_and_date (flightH (store_after four_flights))
                           "SFO" "JFK" jan1) [Some 3; Some 0; Some 1; Some 2]
      ∧ result `sublist_of` [Some 3; Some 0; Some 1; Some 2]
      ∧ ∀ p, p ∈ result
             ↔ p ∈ [Some 3; Some 0; Some 1; Some 2]
               ∧ on_route_and_date (flightH (store_after four_flights))
                   "SFO" "JFK" jan1 p.
Proof.
  assert (deref (flightSearchH (store_after four_flights)) (Some 1)
          = Some (mkFlightSearch (mkSlice 3 4 7))) as H1 by (vm_compute; reflexivity).
  assert (slice_elems (flightArrH (store_after four_flights)) (mkSlice 3 4 7)
          = Some [Some 3; Some 0; Some 1; Some 2]) as H2 by (vm_compute; reflexivity).
  assert (Forall (λ p, is_Some (deref (flightH (store_after four_flights)) p))
            [Some 3; Some 0; Some 1; Some 2]) as H3.
  { repeat apply Forall_cons_2; try apply Forall_nil_2;
      apply (bool_decide_eq_true_1 _); vm_compute; reflexivity. }
  split; [exact H1|]. split; [exact H2|]. split; [exact H3|].
  exact (SearchFlights_filters_in_insertion_order (Some 1) "SFO" "JFK" jan1
           (store_after four_flights) _ _ H1 H2 H3).
Defined.

(** On that collection the search returns F4 then F1. *)
Example search_returns_F4_then_F1 :
  FlightSearch_SearchFlights (Some 1) "SFO" "JFK" jan1 (store_after four_flights)
  = Some [Some 3; Some 0].
Proof. vm_compute. reflexivity. Qed.

Lemma GetBooking_last_write_wins_witness :
  deref (bookingManagerH manager_created) (Some 0) = Some (mkBookingManager ∅)
  ∧ bookings (mkBookingManager ∅) !! "B1" = None
  ∧ run spare maxLen64 three_bookings manager_created
    = Some (vals_from manager_created three_bookings,
            store_from manager_created three_bookings)
  ∧ ∃ r, BookingManager_GetBooking (Some 0) "B1"
           (store_from manager_created three_bookings) = Some r
      ∧ match last_added (bookingH (store_from manager_created three_bookings))
                (Some 0) "B1" three_bookings with
        | Some booking => r = booking ∧ booking ≠ None
        | None => r = None
        end.
Proof.
  assert (deref (bookingManagerH manager_created) (Some 0)
          = Some (mkBookingManager ∅)) as H1 by (vm_compute; reflexivity).
  assert (bookings (mkBookingManager ∅) !! "B1" = None) as H2
    by (vm_compute; reflexivity).
  assert (run spare maxLen64 three_bookings manager_created
          = Some (vals_from manager_created three_bookings,
                  store_from manager_created three_bookings)) as H3
    by (vm_compute; reflexivity).
  split; [exact H1|]. split; [exact H2|]. split; [exact H3|].
  exact (GetBooking_last_write_wins spare maxLen64 (Some 0) (mkBookingManager ∅)
           manager_created three_bookings _ _ "B1" H1 H2 H3).
Defined.

(** B1 reads the second booking made under it, B3 was never added. *)
Example GetBooking_B1_B3 :
  BookingManager_GetBooking (Some 0) "B1" (store_from manager_created three_bookings)
    = Some (Some 1)
  ∧ BookingManager_GetBooking (Some 0) "B3" (store_from manager_created three_bookings)
    = Some None.
Proof. split; vm_compute; reflexivity. Qed.

Lemma accessors_return_the_one_instance_witness :
  run spare maxLen64 accessor_calls init_store
    = Some (vals_from init_store accessor_calls, store_after accessor_calls)
  ∧ ∃ bm pp : nat,
      (∀ i, accessor_calls !! i = Some CallGetBookingManager →
            vals_from init_store accessor_calls !! i = Some (VPtr (Some bm)))
      ∧ (∀ i, accessor_calls !! i = Some CallGetPaymentProcessor →
              vals_from init_store accessor_calls !! i = Some (VPtr (Some pp)))
      ∧ ((∃ m, bookingManagerH (store_after accessor_calls) = [m]
               ∧ bookingManagerH (store_after accessor_calls) !! bm = Some m)
         ∧ bookingManagerInstance (store_after accessor_calls) = Some bm
         ∧ GetBookingManager (store_after accessor_calls)
           = (Some bm, store_after accessor_calls))
      ∧ ((∃ m, paymentProcessorH (store_after accessor_calls) = [m]
               ∧ paymentProcessorH (store_after accessor_calls) !! pp = Some m)
         ∧ paymentProcessorInstance (store_after accessor_calls) = Some pp
         ∧ GetPaymentProcessor (store_after accessor_calls)
           = (Some pp, store_after accessor_calls)).
Proof.
  assert (run spare maxLen64 accessor_calls init_store
          = Some (vals_from init_store accessor_calls, store_after accessor_calls))
    as H1 by (vm_compute; reflexivity).
  split; [exact H1|].
  exact (accessors_return_the_one_instance spare maxLen64 accessor_calls _ _ H1).
Defined.

Lemma AddFlight_AddAircraft_append_at_end_witness :
  deref (amsH (store_after scenario)) (Some 0) = Some scenario_facade
  ∧ wf_slice (flightArrH (store_after scenario)) (ams_flights scenario_facade) = true
  ∧ wf_slice (aircraftArrH (store_after scenario)) (ams_aircrafts scenario_facade) = true
  ∧ slice_elems (flightArrH (store_after scenario)) (ams_flights scenario_facade)
    = Some [Some 0]
  ∧ slice_elems (aircraftArrH (store_after scenario)) (ams_aircrafts scenario_facade)
    = Some [Some 0]
  ∧ (∃ st' a',
       AirlineManagementSystem_AddFlight spare (Some 0) (Some 0) (store_after scenario)
         = Some st'
       ∧ deref (amsH st') (Some 0) = Some a'
       ∧ slice_elems (flightArrH st') (ams_flights a') = Some ([Some 0] ++ [Some 0])
       ∧ slice_elems (aircraftArrH st') (ams_aircrafts a') = Some [Some 0]
       ∧ ams_aircrafts a' = ams_aircrafts scenario_facade
       ∧ aircraftArrH st' = aircraftArrH (store_after scenario)
       ∧ wf_slice (flightArrH st') (ams_flights a') = true)
  ∧ (∃ st' a',
       AirlineManagementSystem_AddAircraft spare (Some 0) (Some 0) (store_after scenario)
         = Some st'
       ∧ deref (amsH st') (Some 0) = Some a'
       ∧ slice_elems (aircraftArrH st') (ams_aircrafts a') = Some ([Some 0] ++ [Some 0])
       ∧ slice_elems (flightArrH st') (ams_flights a') = Some [Some 0]
       ∧ ams_flights a' = ams_flights scenario_facade
       ∧ flightArrH st' = flightArrH (store_after scenario)
       ∧ wf_slice (aircraftArrH st') (ams_aircrafts a') = true).
Proof.
  assert (deref (amsH (store_after scenario)) (Some 0) = Some scenario_facade) as H1
    by (vm_compute; reflexivity).
  assert (wf_slice (flightArrH (store_after scenario)) (ams_flights scenario_facade)
          = true) as H2 by (vm_compute; reflexivity).
  assert (wf_slice (aircraftArrH (store_after scenario)) (ams_aircrafts scenario_facade)
          = true) as H3 by (vm_compute; reflexivity).
  assert (slice_elems (flightArrH (store_after scenario)) (ams_flights scenario_facade)
          = Some [Some 0]) as H4 by (vm_compute; reflexivity).
  assert (slice_elems (aircraftArrH (store_after scenario))
            (ams_aircrafts scenario_facade) = Some [Some 0]) as H5
    by (vm_compute; reflexivity).
  split; [exact H1|]. split; [exact H2|]. split; [exact H3|].
  split; [exact H4|]. split; [exact H5|].
  exact (AddFlight_AddAircraft_append_at_end spare (Some 0) scenario_facade (Some 0)
           (store_after scenario) _ _ H1 H2 H3 H4 H5).
Defined.

(** * Further properties of the package *)

(** ** Frames of the calls *)

Section Frame.
Variable growth : nat → nat.
Variable maxLen : Z.

Lemma call_frame o st v st1 :
  call growth maxLen o st = Some (v, st1) →
  (is_CallNewFlight o = false → flightH st1 = flightH st)
  ∧ (touches_facades o = false →
       amsH st1 = amsH st ∧ flightArrH st1 = flightArrH st
       ∧ aircraftArrH st1 = aircraftArrH st)
  ∧ (onceBookingManager st = true →
       onceBookingManager st1 = true
       ∧ bookingManagerInstance st1 = bookingManagerInstance st)
  ∧ (oncePaymentProcessor st = true →
       oncePaymentProcessor st1 = true
       ∧ paymentProcessorInstance st1 = paymentProcessorInstance st).
Proof.
  intros Hc. destruct o; simpl in Hc.
  all: try (crack Hc; fin; fail).
  - destruct (NewFlight _ _ _ _ _ _ _ _) as [[p s]|] eqn:E; simpl in Hc; [|done].
    injection Hc as <- <-. apply NewFlight_inv in E as (? & _ & _ & _ & ->). fin.
  - unfold NewAirlineManagementSystem, make_slice, NewFlightSearch, alloc,
      GetBookingManager, GetPaymentProcessor in Hc.
    destruct (onceBookingManager st) eqn:Hob, (oncePaymentProcessor st) eqn:Hop;
      simpl in Hc; rewrite ?Hob, ?Hop in Hc; simpl in Hc;
      rewrite ?Hob, ?Hop in Hc; simpl in Hc;
      injection Hc as <- <-; fin.
Qed.
End Frame.

Lemma wf_flight_seat_allocated st l fl p :
  wf_flight st (Some l) = true → flightH st !! l = Some fl → p ∈ Seats fl →
  ∃ j, p = Some j ∧ j < length (seatH st).
Proof.
  intros Hwf Hf Hp.
  apply wf_flight_spec in Hwf as (fl' & a & Hf' & _ & _ & _ & Hnum).
  simpl in Hf'. rewrite Hf in Hf'. injection Hf' as <-.
  apply list_elem_of_lookup in Hp as [k Hk].
  destruct (Hnum k p Hk) as (j & s & -> & Hs & _).
  exists j. split; [done|]. by eapply lookup_lt_Some.
Qed.

Lemma mapM_agree {A B} (f g : A → option B) (l : list A) :
  (∀ x, x ∈ l → f x = g x) → mapM f l = mapM g l.
Proof.
  induction l as [|x l IH]; intros Hfg; [done|]. simpl.
  rewrite (Hfg x) by left. rewrite IH; [done|].
  intros y Hy. apply Hfg. by right.
Qed.

Section Reach.
Variable growth : nat → nat.
Variable maxLen : Z.

Lemma call_flights_ok o st v st1 :
  flights_ok st → call growth maxLen o st = Some (v, st1) → flights_ok st1.
Proof.
  intros [Hwf Hsep] Hc.
  pose proof (call_evolves growth maxLen _ _ _ _ Hc) as Hev.
  destruct (is_CallNewFlight o) eqn:Hnew.
  - destruct o; try discriminate. simpl in Hc.
    destruct (NewFlight _ _ _ _ _ _ _ _) as [[p s]|] eqn:E; simpl in Hc; [|done].
    injection Hc as <- <-.
    pose proof (NewFlight_wf _ _ _ _ _ _ _ _ _ _ E) as Hwfnew.
    apply NewFlight_inv in E as (ac & Ha & Hpos & -> & ->). split.
    + simpl. intros l Hl. rewrite length_app in Hl. simpl in Hl.
      destruct (decide (l = length (flightH st))) as [->|Hne]; [done|].
      eapply evolves_wf_flight; [exact Hev|]. apply Hwf. lia.
    + simpl. intros l1 l2 fl1 fl2 p Hne H1 H2 Hp1 Hp2.
      assert (∀ l fl q, l < length (flightH st) →
                (flightH st ++ [mkFlight flightNumber source destination departure
                   arrival aircraft
                   ((λ k, Some (length (seatH st) + k))
                      <$> seq 0 (Z.to_nat (TotalSeats ac)))]) !! l = Some fl →
                q ∈ Seats fl → ∃ j, q = Some j ∧ j < length (seatH st)) as Hold.
      { intros l fl q Hl Hfl Hq. rewrite lookup_app_l in Hfl by done.
        eapply wf_flight_seat_allocated; [by apply Hwf|done..]. }
      assert (∀ l fl q, ¬ l < length (flightH st) →
                (flightH st ++ [mkFlight flightNumber source destination departure
                   arrival aircraft
                   ((λ k, Some (length (seatH st) + k))
                      <$> seq 0 (Z.to_nat (TotalSeats ac)))]) !! l = Some fl →
                q ∈ Seats fl → ∃ k, q = Some (length (seatH st) + k)) as Hnewp.
      { intros l fl q Hl Hfl Hq.
        assert (l = length (flightH st)) as ->.
        { apply lookup_lt_Some in Hfl. rewrite length_app in Hfl. simpl in Hfl. lia. }
        rewrite heap_snoc_new in Hfl. injection Hfl as <-. simpl in Hq.
        apply list_elem_of_fmap in Hq as (k & -> & _). by exists k. }
      destruct (decide (l1 < length (flightH st))) as [Hl1|Hl1],
               (decide (l2 < length (flightH st))) as [Hl2|Hl2].
      * rewrite lookup_app_l in H1, H2 by done. by eapply (Hsep l1 l2).
      * destruct (Hold _ _ _ Hl1 H1 Hp1) as (j & -> & Hj).
        destruct (Hnewp _ _ _ Hl2 H2 Hp2) as (k & [= ->]). lia.
      * destruct (Hold _ _ _ Hl2 H2 Hp2) as (j & -> & Hj).
        destruct (Hnewp _ _ _ Hl1 H1 Hp1) as (k & [= ->]). lia.
      * apply lookup_lt_Some in H1, H2. rewrite length_app in H1, H2.
        simpl in H1, H2. lia.
  - destruct (call_frame growth maxLen _ _ _ _ Hc) as (Hfl & _). specialize (Hfl Hnew).
    split.
    + intros l Hl. rewrite Hfl in Hl.
      eapply evolves_wf_flight; [exact Hev|]. by apply Hwf.
    + rewrite Hfl. exact Hsep.
Qed.

Lemma run_flights_ok os : ∀ st vs st',
  flights_ok st → run growth maxLen os st = Some (vs, st') → flights_ok st'.
Proof.
  induction os as [|o os IH]; intros st vs st' Hok Hrun.
  - by injection Hrun as <- <-.
  - apply run_cons in Hrun as (v & st1 & vs' & Hc & Hr & ->).
    eapply IH; [|exact Hr]. by eapply call_flights_ok.
Qed.

Lemma init_flights_ok : flights_ok init_store.
Proof. split; [simpl; lia|]. by intros l1 l2 fl1 fl2 p _ H. Qed.

(** X4: in every store the program reaches from process start, every
    allocated flight is well formed, so BookSeat returns on it for every
    integer instead of panicking. *)
Theorem reachable_flights_well_formed os vs st f fl :
  run growth maxLen os init_store = Some (vs, st) →
  deref (flightH st) f = Some fl →
  wf_flight st f = true
  ∧ ∀ n, ∃ b st', Flight_BookSeat f n st = Some (b, st').
Proof.
  intros Hrun Hf.
  destruct (run_flights_ok _ _ _ _ init_flights_ok Hrun) as [Hwf _].
  destruct f as [l|]; simpl in Hf; [|done].
  assert (wf_flight st (Some l) = true) as H
    by (apply Hwf; by eapply lookup_lt_Some).
  split; [done|]. intros n. by apply BookSeat_returns.
Qed.

(** X5: flights never share a seat: in a reachable store BookSeat on
    one flight leaves the seat records of every other flight as they
    were. *)
Theorem BookSeat_leaves_other_flights os vs st f g n b st' :
  run growth maxLen os init_store = Some (vs, st) →
  f ≠ g →
  Flight_BookSeat f n st = Some (b, st') →
  flight_seats st' g = flight_seats st g
  ∧ ∀ m, seat_of st' g m = seat_of st g m.
Proof.
  intros Hrun Hfg Hbook.
  destruct (run_flights_ok _ _ _ _ init_flights_ok Hrun) as [Hwf Hsep].
  destruct (n <? 1)%Z eqn:Hn1;
    [by unfold Flight_BookSeat in Hbook; rewrite Hn1 in Hbook;
        injection Hbook as <- <-|].
  destruct f as [lf|];
    [|by unfold Flight_BookSeat in Hbook; rewrite Hn1 in Hbook].
  destruct (flightH st !! lf) as [flf|] eqn:Hflf;
    [|by unfold Flight_BookSeat in Hbook; rewrite Hn1 in Hbook; simpl in Hbook;
         rewrite Hflf in Hbook].
  assert (wf_flight st (Some lf) = true) as Hwff
    by (apply Hwf; by eapply lookup_lt_Some).
  destruct (BookSeat_cases st (Some lf) n Hwff)
    as (fl & a & Hf & _ & _ & _ & [[_ Hres]|[Hin (l & s & Hl & Hs & _ & _ & Hres)]]);
    rewrite Hres in Hbook.
  { by injection Hbook as <- <-. }
  destruct (IsBooked s); injection Hbook as <- <-; [done|].
  simpl in Hf. rewrite Hflf in Hf. injection Hf as <-.
  assert (∀ p, (∃ lg flg, g = Some lg ∧ flightH st !! lg = Some flg ∧ p ∈ Seats flg) →
            deref (<[l := mkSeat (SeatNumber s) true]> (seatH st)) p
            = deref (seatH st) p) as Hsame.
  { intros p (lg & flg & -> & Hflg & Hp). destruct p as [j|]; [|done]. simpl.
    apply list_lookup_insert_ne. intros <-.
    apply (Hsep lf lg flf flg (Some l)); [congruence|done..| |done].
    by eapply list_elem_of_lookup_2. }
  split.
  - unfold flight_seats. simpl. destruct g as [lg|]; [|done]. simpl.
    destruct (flightH st !! lg) as [flg|] eqn:Hflg; [|done]. simpl.
    apply mapM_agree. intros p Hp. apply Hsame. by exists lg, flg.
  - intros m. unfold seat_of, seat_loc. simpl. destruct (m <? 1)%Z; [done|].
    destruct g as [lg|]; [|done]. simpl.
    destruct (flightH st !! lg) as [flg|] eqn:Hflg; [|done]. simpl.
    destruct (Seats flg !! Z.to_nat (m - 1)) as [[j|]|] eqn:Hj; simpl; try done.
    apply (Hsame (Some j)). exists lg, flg. repeat split; [done|].
    by eapply list_elem_of_lookup_2.
Qed.

End Reach.

(** ** Facades *)

Lemma wf_slice_kept arrs arrs' s :
  arrays_kept arrs arrs' → wf_slice arrs s = true → wf_slice arrs' s = true.
Proof.
  intros Hk Hwf. apply wf_slice_spec in Hwf as (arr & Ha & Hl & Hc).
  destruct (Hk _ _ Ha) as (arr' & Ha' & Hl').
  apply wf_slice_spec. exists arr'. repeat split; [done|lia|done].
Qed.

Lemma wf_slice_base arrs s : wf_slice arrs s = true → s_base s < length arrs.
Proof.
  intros Hwf. apply wf_slice_spec in Hwf as (arr & Ha & _). by eapply lookup_lt_Some.
Qed.

Lemma heap_snoc_store {T} (h : list T) (x y : T) :
  <[length h := y]> (h ++ [x]) = h ++ [y].
Proof.
  rewrite insert_app_r_alt by lia. by rewrite Nat.sub_diag.
Qed.

Lemma slice_elems_lookup arrs arrs' s :
  arrs' !! s_base s = arrs !! s_base s → slice_elems arrs' s = slice_elems arrs s.
Proof. intros H. unfold slice_elems. by rewrite H. Qed.

Lemma slice_elems_snoc arrs arr s xs :
  slice_elems arrs s = Some xs → slice_elems (arrs ++ [arr]) s = Some xs.
Proof.
  unfold slice_elems. intros H.
  destruct (arrs !! s_base s) as [a|] eqn:Ha; simpl in H; [|done].
  by rewrite (heap_snoc_old _ _ _ _ Ha).
Qed.

Section Facades.
Variable growth : nat → nat.
Variable maxLen : Z.

Lemma go_append_base arrs s x s' arrs' :
  go_append growth arrs s x = Some (s', arrs') →
  (s_base s' = s_base s ∧ length arrs' = length arrs
   ∧ ∀ b, b ≠ s_base s → arrs' !! b = arrs !! b)
  ∨ (s_base s' = length arrs ∧ ∃ arr, arrs' = arrs ++ [arr]).
Proof.
  unfold go_append. intros H.
  destruct (arrs !! s_base s) as [arr|]; simpl in H; [|done].
  destruct (decide _); injection H as <- <-; simpl.
  - left. split; [done|]. split; [by rewrite length_insert|].
    intros b Hb. by rewrite list_lookup_insert_ne.
  - right. split; [done|]. by eexists.
Qed.

(** What NewAirlineManagementSystem returns and leaves. *)
Lemma NewAirlineManagementSystem_shape st ams st1 :
  NewAirlineManagementSystem st = (ams, st1) →
  ∃ a,
    ams = Some (length (amsH st))
    ∧ amsH st1 = amsH st ++ [a]
    ∧ flightArrH st1 = flightArrH st ++ [[]]
    ∧ aircraftArrH st1 = aircraftArrH st ++ [[]]
    ∧ ams_flights a = mkSlice (length (flightArrH st)) 0 0
    ∧ ams_aircrafts a = mkSlice (length (aircraftArrH st)) 0 0
    ∧ onceBookingManager st1 = true ∧ oncePaymentProcessor st1 = true
    ∧ bookingManager a = bookingManagerInstance st1
    ∧ paymentProcessor a = paymentProcessorInstance st1
    ∧ (onceBookingManager st = true →
         bookingManagerInstance st1 = bookingManagerInstance st)
    ∧ (oncePaymentProcessor st = true →
         paymentProcessorInstance st1 = paymentProcessorInstance st).
Proof.
  unfold NewAirlineManagementSystem, make_slice, NewFlightSearch, alloc,
    GetBookingManager, GetPaymentProcessor.
  destruct (onceBookingManager st) eqn:Hob, (oncePaymentProcessor st) eqn:Hop;
    simpl; rewrite ?Hob, ?Hop; simpl; rewrite ?Hob, ?Hop; simpl;
    intros [= <- <-]; simpl; rewrite heap_snoc_store;
    eexists; (split; [done|]); (split; [done|]); by repeat split.
Qed.

Lemma call_facades_ok o st v st1 :
  facades_ok st → call growth maxLen o st = Some (v, st1) → facades_ok st1.
Proof.
  intros [Hok Hsep] Hc.
  pose proof (call_evolves growth maxLen _ _ _ _ Hc) as Hev.
  destruct (call_frame growth maxLen _ _ _ _ Hc) as (_ & Hfr & Hfb & Hfp).
  destruct (touches_facades o) eqn:Ht.
  - destruct o; try discriminate; simpl in Hc.
    + (* NewAirlineManagementSystem *)
      destruct (NewAirlineManagementSystem st) as [p s] eqn:E.
      injection Hc as <- <-.
      apply NewAirlineManagementSystem_shape in E
        as (a & -> & Hams & Hfa & Haa & Hfl & Hac & Hob & Hop & Hbm & Hpp & Hib & Hip).
      assert (∀ l a0, l < length (amsH st) → amsH s !! l = Some a0 →
                amsH st !! l = Some a0) as Hold.
      { intros l a0 Hl. rewrite Hams. by rewrite lookup_app_l by done. }
      assert (∀ l a0, ¬ l < length (amsH st) → amsH s !! l = Some a0 → a0 = a)
        as Hnew.
      { intros l a0 Hl Hl0. rewrite Hams in Hl0.
        assert (l = length (amsH st)) as ->.
        { apply lookup_lt_Some in Hl0. rewrite length_app in Hl0. simpl in Hl0. lia. }
        rewrite heap_snoc_new in Hl0. congruence. }
      split.
      * intros l a0 Hl0. destruct (decide (l < length (amsH st))) as [Hl|Hl].
        -- destruct (Hok l a0 (Hold _ _ Hl Hl0)) as (H1 & H2 & H3 & H4 & H5 & H6).
           repeat split; try done.
           ++ eapply wf_slice_kept; [apply Hev|done].
           ++ eapply wf_slice_kept; [apply Hev|done].
           ++ rewrite Hib by done. done.
           ++ rewrite Hip by done. done.
        -- rewrite (Hnew _ _ Hl Hl0). repeat split; try done.
           ++ rewrite Hfl, Hfa. unfold wf_slice. simpl. by rewrite heap_snoc_new.
           ++ rewrite Hac, Haa. unfold wf_slice. simpl. by rewrite heap_snoc_new.
      * intros l1 l2 a1 a2 Hne H1 H2.
        assert (∀ l a0, l < length (amsH st) → amsH s !! l = Some a0 →
                  s_base (ams_flights a0) < length (flightArrH st)
                  ∧ s_base (ams_aircrafts a0) < length (aircraftArrH st)) as Hlt.
        { intros l a0 Hl Hl0.
          destruct (Hok l a0 (Hold _ _ Hl Hl0)) as (W1 & W2 & _).
          split; by apply wf_slice_base. }
        destruct (decide (l1 < length (amsH st))) as [Hl1|Hl1],
                 (decide (l2 < length (amsH st))) as [Hl2|Hl2].
        -- by apply (Hsep l1 l2); [|apply Hold..].
        -- rewrite (Hnew _ _ Hl2 H2), Hfl, Hac. simpl.
           destruct (Hlt _ _ Hl1 H1). lia.
        -- rewrite (Hnew _ _ Hl1 H1), Hfl, Hac. simpl.
           destruct (Hlt _ _ Hl2 H2). lia.
        -- apply lookup_lt_Some in H1, H2. rewrite Hams, length_app in H1, H2.
           simpl in H1, H2. lia.
    + (* AddFlight *)
      unfold AirlineManagementSystem_AddFlight in Hc.
      destruct ams as [l0|]; simpl in Hc; [|done].
      destruct (amsH st !! l0) as [a0|] eqn:Ha0; simpl in Hc; [|done].
      destruct (go_append _ _ _ _) as [[s' arrs']|] eqn:Happ; simpl in Hc; [|done].
      injection Hc as <- <-.
      destruct (Hok l0 a0 Ha0) as (W1 & W2 & O1 & O2 & B1 & B2).
      destruct (wf_slice_elems _ _ W1) as (xs & Hxs & _).
      destruct (go_append_elems growth _ _ flight _ W1 Hxs)
        as (s2 & arrs2 & Happ2 & _ & Hwf2).
      rewrite Happ in Happ2. injection Happ2 as <- <-.
      pose proof (go_append_kept growth _ _ _ _ _ Happ) as Hkept.
      assert (l0 < length (amsH st)) as Hl0 by (by eapply lookup_lt_Some).
      split.
      * simpl. intros l a Hl. destruct (decide (l = l0)) as [->|Hne].
        -- rewrite list_lookup_insert_eq in Hl by done. injection Hl as <-.
           by repeat split.
        -- rewrite list_lookup_insert_ne in Hl by done.
           destruct (Hok l a Hl) as (V1 & V2 & ? & ? & ? & ?).
           repeat split; try done. by eapply wf_slice_kept.
      * simpl. intros l1 l2 a1 a2 Hne H1 H2.
        assert (∀ l a, l ≠ l0 → amsH st !! l = Some a →
                  s_base s' ≠ s_base (ams_flights a)) as Hfresh.
        { intros l a Hl Ha.
          destruct (go_append_base _ _ _ _ _ Happ) as [(-> & _)|(-> & _)].
          - apply (Hsep l0 l a0 a); [congruence|done..].
          - destruct (Hok l a Ha) as (V1 & _). apply wf_slice_base in V1. lia. }
        destruct (decide (l1 = l0)) as [->|Hn1], (decide (l2 = l0)) as [->|Hn2];
          try done.
        -- rewrite list_lookup_insert_eq in H1 by done. injection H1 as <-.
           rewrite list_lookup_insert_ne in H2 by done. simpl. split.
           ++ by eapply Hfresh.
           ++ apply (Hsep l0 l2 a0 a2); [congruence|done..].
        -- rewrite list_lookup_insert_eq in H2 by done. injection H2 as <-.
           rewrite list_lookup_insert_ne in H1 by done. simpl. split.
           ++ intros Heq. eapply Hfresh; [exact Hn1|exact H1|done].
           ++ apply (Hsep l1 l0 a1 a0); [congruence|done..].
        -- rewrite list_lookup_insert_ne in H1, H2 by done. by apply (Hsep l1 l2).
    + (* AddAircraft *)
      unfold AirlineManagementSystem_AddAircraft in Hc.
      destruct ams as [l0|]; simpl in Hc; [|done].
      destruct (amsH st !! l0) as [a0|] eqn:Ha0; simpl in Hc; [|done].
      destruct (go_append _ _ _ _) as [[s' arrs']|] eqn:Happ; simpl in Hc; [|done].
      injection Hc as <- <-.
      destruct (Hok l0 a0 Ha0) as (W1 & W2 & O1 & O2 & B1 & B2).
      destruct (wf_slice_elems _ _ W2) as (xs & Hxs & _).
      destruct (go_append_elems growth _ _ aircraft _ W2 Hxs)
        as (s2 & arrs2 & Happ2 & _ & Hwf2).
      rewrite Happ in Happ2. injection Happ2 as <- <-.
      pose proof (go_append_kept growth _ _ _ _ _ Happ) as Hkept.
      assert (l0 < length (amsH st)) as Hl0 by (by eapply lookup_lt_Some).
      split.
      * simpl. intros l a Hl. destruct (decide (l = l0)) as [->|Hne].
        -- rewrite list_lookup_insert_eq in Hl by done. injection Hl as <-.
           by repeat split.
        -- rewrite list_lookup_insert_ne in Hl by done.
           destruct (Hok l a Hl) as (V1 & V2 & ? & ? & ? & ?).
           repeat split; try done. by eapply wf_slice_kept.
      * simpl. intros l1 l2 a1 a2 Hne H1 H2.
        assert (∀ l a, l ≠ l0 → amsH st !! l = Some a →
                  s_base s' ≠ s_base (ams_aircrafts a)) as Hfresh.
        { intros l a Hl Ha.
          destruct (go_append_base _ _ _ _ _ Happ) as [(-> & _)|(-> & _)].
          - apply (Hsep l0 l a0 a); [congruence|done..].
          - destruct (Hok l a Ha) as (_ & V2 & _). apply wf_slice_base in V2. lia. }
        destruct (decide (l1 = l0)) as [->|Hn1], (decide (l2 = l0)) as [->|Hn2];
          try done.
        -- rewrite list_lookup_insert_eq in H1 by done. injection H1 as <-.
           rewrite list_lookup_insert_ne in H2 by done. simpl. split.
           ++ apply (Hsep l0 l2 a0 a2); [congruence|done..].
           ++ by eapply Hfresh.
        -- rewrite list_lookup_insert_eq in H2 by done. injection H2 as <-.
           rewrite list_lookup_insert_ne in H1 by done. simpl. split.
           ++ apply (Hsep l1 l0 a1 a0); [congruence|done..].
           ++ intros Heq. eapply Hfresh; [exact Hn1|exact H1|done].
        -- rewrite list_lookup_insert_ne in H1, H2 by done. by apply (Hsep l1 l2).
  - destruct (Hfr eq_refl) as (Hams & Hfa & Haa). split.
    + intros l a Hl. rewrite Hams in Hl.
      destruct (Hok l a Hl) as (V1 & V2 & O1 & O2 & B1 & B2).
      destruct (Hfb O1) as [? ?]. destruct (Hfp O2) as [? ?].
      unfold facade_ok. rewrite Hfa, Haa. repeat split; try done; congruence.
    + rewrite Hams. exact Hsep.
Qed.

Lemma init_facades_ok : facades_ok init_store.
Proof. split; [by intros l a H|by intros l1 l2 a1 a2 _ H]. Qed.

Lemma run_facades_ok os : ∀ st vs st',
  facades_ok st → run growth maxLen os st = Some (vs, st') → facades_ok st'.
Proof.
  induction os as [|o os IH]; intros st vs st' Hok Hrun.
  - by injection Hrun as <- <-.
  - apply run_cons in Hrun as (v & st1 & vs' & Hc & Hr & ->).
    eapply IH; [|exact Hr]. by eapply call_facades_ok.
Qed.

(** X6: in a reachable store every facade holds the same, allocated,
    BookingManager and the same PaymentProcessor, and they are the ones
    the two accessors return (without changing the store). *)
Theorem facades_share_the_singletons os vs st l a :
  run growth maxLen os init_store = Some (vs, st) →
  amsH st !! l = Some a →
  ∃ bm pp : nat,
    bookingManager a = Some bm ∧ paymentProcessor a = Some pp
    ∧ is_Some (bookingManagerH st !! bm) ∧ is_Some (paymentProcessorH st !! pp)
    ∧ GetBookingManager st = (Some bm, st)
    ∧ GetPaymentProcessor st = (Some pp, st)
    ∧ ∀ l' a', amsH st !! l' = Some a' →
        bookingManager a' = Some bm ∧ paymentProcessor a' = Some pp.
Proof.
  intros Hrun Ha.
  destruct (run_facades_ok _ _ _ _ init_facades_ok Hrun) as [Hok _].
  destruct (run_singletons growth maxLen os init_store vs st) as ((Hb & Hp) & _);
    [by split|done|].
  destruct (Hok l a Ha) as (_ & _ & Hob & Hop & Hbm & Hpp).
  rewrite Hob in Hb. rewrite Hop in Hp.
  destruct Hb as [Hbi Hbl], Hp as [Hpi Hpl].
  exists 0, 0. rewrite Hbm, Hpp. split; [done|]. split; [done|].
  split; [apply lookup_lt_is_Some; lia|]. split; [apply lookup_lt_is_Some; lia|].
  unfold GetBookingManager, GetPaymentProcessor. rewrite Hob, Hop, Hbi, Hpi.
  split; [done|]. split; [done|].
  intros l' a' Ha'. destruct (Hok l' a' Ha') as (_ & _ & _ & _ & -> & ->). done.
Qed.

(** X7: in a reachable store AddFlight and AddAircraft return on every
    facade, whatever pointer is added, nil included. *)
Theorem AddFlight_AddAircraft_never_panic os vs st l a x :
  run growth maxLen os init_store = Some (vs, st) →
  amsH st !! l = Some a →
  is_Some (AirlineManagementSystem_AddFlight growth (Some l) x st)
  ∧ is_Some (AirlineManagementSystem_AddAircraft growth (Some l) x st).
Proof.
  intros Hrun Ha.
  destruct (run_facades_ok _ _ _ _ init_facades_ok Hrun) as [Hok _].
  destruct (Hok l a Ha) as (W1 & W2 & _).
  destruct (wf_slice_elems _ _ W1) as (xs & Hxs & _).
  destruct (wf_slice_elems _ _ W2) as (ys & Hys & _).
  destruct (go_append_elems growth _ _ x _ W1 Hxs) as (s1 & arrs1 & Happ1 & _).
  destruct (go_append_elems growth _ _ x _ W2 Hys) as (s2 & arrs2 & Happ2 & _).
  unfold AirlineManagementSystem_AddFlight, AirlineManagementSystem_AddAircraft.
  simpl. rewrite Ha. simpl. rewrite Happ1, Happ2. simpl. by split.
Qed.

Lemma call_facade_collections o st v st1 l a xs ys :
  facades_ok st → call growth maxLen o st = Some (v, st1) →
  amsH st !! l = Some a →
  slice_elems (flightArrH st) (ams_flights a) = Some xs →
  slice_elems (aircraftArrH st) (ams_aircrafts a) = Some ys →
  ∃ a1, amsH st1 !! l = Some a1
    ∧ slice_elems (flightArrH st1) (ams_flights a1)
      = Some (xs ++ flight_added_by (Some l) o)
    ∧ slice_elems (aircraftArrH st1) (ams_aircrafts a1)
      = Some (ys ++ aircraft_added_by (Some l) o).
Proof.
  intros [Hok Hsep] Hc Ha Hxs Hys.
  destruct (call_frame growth maxLen _ _ _ _ Hc) as (_ & Hfr & _).
  assert (l < length (amsH st)) as Hl by (by eapply lookup_lt_Some).
  destruct (touches_facades o) eqn:Ht.
  - destruct o; try discriminate; simpl in Hc.
    + destruct (NewAirlineManagementSystem st) as [p s] eqn:E.
      injection Hc as <- <-.
      apply NewAirlineManagementSystem_shape in E
        as (a' & _ & Hams & Hfa & Haa & _).
      exists a. rewrite Hams, Hfa, Haa. simpl. rewrite !app_nil_r.
      split; [by apply heap_snoc_old|]. split; by apply slice_elems_snoc.
    + unfold AirlineManagementSystem_AddFlight in Hc.
      destruct ams as [l0|]; simpl in Hc; [|done].
      destruct (amsH st !! l0) as [a0|] eqn:Ha0; simpl in Hc; [|done].
      destruct (go_append _ _ _ _) as [[s' arrs']|] eqn:Happ; simpl in Hc; [|done].
      injection Hc as <- <-. simpl. rewrite app_nil_r.
      destruct (decide (l0 = l)) as [->|Hne].
      * rewrite Ha in Ha0. injection Ha0 as <-.
        destruct (Hok l a Ha) as (W1 & _).
        destruct (go_append_elems growth _ _ flight _ W1 Hxs)
          as (s2 & arrs2 & Happ2 & Hel & _).
        rewrite Happ in Happ2. injection Happ2 as <- <-.
        eexists. rewrite list_lookup_insert_eq by done. split; [done|]. simpl.
        rewrite decide_True by done. by split.
      * exists a. rewrite list_lookup_insert_ne by done. split; [done|].
        rewrite decide_False by congruence. rewrite app_nil_r. split; [|done].
        destruct (go_append_base _ _ _ _ _ Happ)
          as [(_ & _ & Hsame)|(_ & arr & ->)].
        -- rewrite (slice_elems_lookup (flightArrH st)); [done|]. apply Hsame.
           by apply (Hsep l l0 a a0).
        -- by apply slice_elems_snoc.
    + unfold AirlineManagementSystem_AddAircraft in Hc.
      destruct ams as [l0|]; simpl in Hc; [|done].
      destruct (amsH st !! l0) as [a0|] eqn:Ha0; simpl in Hc; [|done].
      destruct (go_append _ _ _ _) as [[s' arrs']|] eqn:Happ; simpl in Hc; [|done].
      injection Hc as <- <-. simpl. rewrite app_nil_r.
      destruct (decide (l0 = l)) as [->|Hne].
      * rewrite Ha in Ha0. injection Ha0 as <-.
        destruct (Hok l a Ha) as (_ & W2 & _).
        destruct (go_append_elems growth _ _ aircraft _ W2 Hys)
          as (s2 & arrs2 & Happ2 & Hel & _).
        rewrite Happ in Happ2. injection Happ2 as <- <-.
        eexists. rewrite list_lookup_insert_eq by done. split; [done|]. simpl.
        rewrite decide_True by done. by split.
      * exists a. rewrite list_lookup_insert_ne by done. split; [done|].
        rewrite decide_False by congruence. rewrite app_nil_r. split; [done|].
        destruct (go_append_base _ _ _ _ _ Happ)
          as [(_ & _ & Hsame)|(_ & arr & ->)].
        -- rewrite (slice_elems_lookup (aircraftArrH st)); [done|]. apply Hsame.
           by apply (Hsep l l0 a a0).
        -- by apply slice_elems_snoc.
  - destruct (Hfr eq_refl) as (-> & -> & ->). exists a.
    assert (flight_added_by (Some l) o = [] ∧ aircraft_added_by (Some l) o = [])
      as [-> ->] by (by destruct o).
    by rewrite !app_nil_r.
Qed.

Lemma run_facade_collections os : ∀ st vs st' l a xs ys,
  facades_ok st → run growth maxLen os st = Some (vs, st') →
  amsH st !! l = Some a →
  slice_elems (flightArrH st) (ams_flights a) = Some xs →
  slice_elems (aircraftArrH st) (ams_aircrafts a) = Some ys →
  ∃ a', amsH st' !! l = Some a'
    ∧ slice_elems (flightArrH st') (ams_flights a')
      = Some (xs ++ flights_added (Some l) os)
    ∧ slice_elems (aircraftArrH st') (ams_aircrafts a')
      = Some (ys ++ aircraft_added (Some l) os).
Proof.
  induction os as [|o os IH]; intros st vs st' l a xs ys Hok Hrun Ha Hxs Hys.
  - injection Hrun as <- <-. exists a. unfold flights_added, aircraft_added. simpl.
    by rewrite !app_nil_r.
  - apply run_cons in Hrun as (v & st1 & vs' & Hc & Hr & ->).
    destruct (call_facade_collections _ _ _ _ _ _ _ _ Hok Hc Ha Hxs Hys)
      as (a1 & Ha1 & Hxs1 & Hys1).
    destruct (IH _ _ _ _ _ _ _ (call_facades_ok _ _ _ _ Hok Hc) Hr Ha1 Hxs1 Hys1)
      as (a' & Ha' & Hxs' & Hys').
    exists a'. split; [done|]. unfold flights_added, aircraft_added.
    rewrite !bind_cons, !app_assoc. by split.
Qed.

(** X8: after any calls that follow its construction, a facade's flight
    collection is the sequence of the flights added to it by AddFlight,
    in call order, and its aircraft collection likewise for AddAircraft;
    calls on other facades do not show in it. *)
Theorem facade_collections_accumulate os0 vs0 st0 ams st os vs st' :
  run growth maxLen os0 init_store = Some (vs0, st0) →
  NewAirlineManagementSystem st0 = (ams, st) →
  run growth maxLen os st = Some (vs, st') →
  ∃ a, deref (amsH st') ams = Some a
    ∧ slice_elems (flightArrH st') (ams_flights a) = Some (flights_added ams os)
    ∧ slice_elems (aircraftArrH st') (ams_aircrafts a) = Some (aircraft_added ams os).
Proof.
  intros Hrun0 Hnew Hrun.
  pose proof (run_facades_ok _ _ _ _ init_facades_ok Hrun0) as Hok0.
  assert (facades_ok st) as Hok.
  { apply (call_facades_ok CallNewAirlineManagementSystem st0 (VPtr ams)); [done|].
    simpl. by rewrite Hnew. }
  apply NewAirlineManagementSystem_inv in Hnew
    as (l & a & fsl & b & -> & Ha & _ & _ & _ & _ & _ & _ & Hxs & Hys).
  destruct (run_facade_collections _ _ _ _ _ _ _ _ Hok Hrun Ha Hxs Hys)
    as (a' & Ha' & Hxs' & Hys').
  exists a'. by repeat split.
Qed.

End Facades.

(** ** Search, construction and record stores *)

Lemma SearchFlights_loop_returns fh source destination date flights : ∀ results r,
  SearchFlights_loop fh source destination date flights results = Some r →
  Forall (λ p, is_Some (deref fh p)) flights.
Proof.
  induction flights as [|p flights IH]; intros results r H; [done|].
  simpl in H. destruct (deref fh p) as [fl|] eqn:Hp; simpl in H; [|done].
  apply Forall_cons. split; [by eexists|].
  destruct (search_cond fl source destination date); by eapply IH.
Qed.

(** X10: a search returns exactly when no flight pointer of its
    collection is nil; one nil element makes it panic for every query. *)
Theorem SearchFlights_returns_iff_no_nil fs source destination date st s flights :
  deref (flightSearchH st) fs = Some s →
  slice_elems (flightArrH st) (fs_flights s) = Some flights →
  is_Some (FlightSearch_SearchFlights fs source destination date st)
  ↔ Forall (λ p, is_Some (deref (flightH st) p)) flights.
Proof.
  intros Hs Hfl. unfold FlightSearch_SearchFlights. rewrite Hs. simpl.
  rewrite Hfl. simpl. split.
  - intros [r Hr]. by eapply SearchFlights_loop_returns.
  - intros Hall. rewrite SearchFlights_loop_filter by done. by eexists.
Qed.

Lemma search_cond_same_day fl source destination date1 date2 :
  Year date1 = Year date2 → Month date1 = Month date2 → Day date1 = Day date2 →
  search_cond fl source destination date1 = search_cond fl source destination date2.
Proof. unfold search_cond. by intros -> -> ->. Qed.

Lemma SearchFlights_loop_same_day fh source destination date1 date2 flights :
  Year date1 = Year date2 → Month date1 = Month date2 → Day date1 = Day date2 →
  ∀ results,
    SearchFlights_loop fh source destination date1 flights results
    = SearchFlights_loop fh source destination date2 flights results.
Proof.
  intros Hy Hm Hd. induction flights as [|p flights IH]; intros results; [done|].
  simpl. destruct (deref fh p) as [fl|]; simpl; [|done].
  rewrite (search_cond_same_day fl _ _ date1 date2) by done.
  destruct (search_cond _ _ _ _); apply IH.
Qed.

(** X11: both searches depend on the query date through its year,
    month and day only; the time of day of the query is ignored. *)
Theorem SearchFlights_ignores_time_of_day fs ams source destination date1 date2 st :
  Year date1 = Year date2 → Month date1 = Month date2 → Day date1 = Day date2 →
  FlightSearch_SearchFlights fs source destination date1 st
  = FlightSearch_SearchFlights fs source destination date2 st
  ∧ AirlineManagementSystem_SearchFlights ams source destination date1 st
    = AirlineManagementSystem_SearchFlights ams source destination date2 st.
Proof.
  intros Hy Hm Hd.
  assert (∀ fs', FlightSearch_SearchFlights fs' source destination date1 st
                 = FlightSearch_SearchFlights fs' source destination date2 st) as H.
  { intros fs'. unfold FlightSearch_SearchFlights.
    destruct (deref (flightSearchH st) fs') as [s|]; simpl; [|done].
    destruct (slice_elems _ _) as [flights|]; simpl; [|done].
    by apply SearchFlights_loop_same_day. }
  split; [apply H|]. unfold AirlineManagementSystem_SearchFlights.
  destruct (deref (amsH st) ams) as [a|]; simpl; [apply H|done].
Qed.


(** X13: for any flight pointer, passenger pointer and seat number,
    NewBooking followed by AddBooking on an allocated manager returns;
    GetBooking under the id then returns the new booking, which holds the
    arguments; no seat is touched and other ids read as before. *)
Theorem booking_round_trip bm m st bookingID flight passenger seatNumber now :
  deref (bookingManagerH st) bm = Some m →
  ∃ b st1 st2,
    NewBooking bookingID flight passenger seatNumber now st = (b, st1)
    ∧ BookingManager_AddBooking bm b st1 = Some st2
    ∧ BookingManager_GetBooking bm bookingID st2 = Some b
    ∧ deref (bookingH st2) b
      = Some (mkBooking bookingID flight passenger seatNumber now)
    ∧ b ≠ None
    ∧ seatH st2 = seatH st
    ∧ (∀ id, id ≠ bookingID →
         BookingManager_GetBooking bm id st2 = BookingManager_GetBooking bm id st).
Proof.
  intros Hm. destruct bm as [l|]; simpl in Hm; [|done].
  assert (l < length (bookingManagerH st)) as Hl by (by eapply lookup_lt_Some).
  eexists _, _, _. split; [done|].
  unfold BookingManager_AddBooking. simpl. rewrite Hm. simpl.
  rewrite heap_snoc_new. simpl. split; [done|].
  unfold BookingManager_GetBooking. simpl.
  rewrite list_lookup_insert_eq by done. simpl. rewrite lookup_insert_eq.
  split; [done|]. rewrite heap_snoc_new. split; [done|]. split; [done|].
  split; [done|]. intros id Hid. rewrite Hm. simpl.
  by rewrite lookup_insert_ne.
Qed.

(** ** The payment store *)

Lemma processed_by_not_nil ph pp paymentID o p :
  processed_by ph pp paymentID o = Some p → p ≠ None.
Proof.
  destruct o; simpl; try done.
  destruct payment as [l|]; simpl; [|done].
  destruct (ph !! l); [|done]. destruct (decide _); [|done]. by intros [= <-].
Qed.

Lemma last_processed_not_nil ph pp paymentID os p :
  last_processed ph pp paymentID os = Some p → p ≠ None.
Proof.
  induction os as [|o os IH]; simpl; [done|].
  destruct (last_processed ph pp paymentID os); [by intros [= <-]; apply IH|].
  apply processed_by_not_nil.
Qed.

Section Payments.
Variable growth : nat → nat.
Variable maxLen : Z.

Lemma processed_by_stable o st v st1 ph pp paymentID :
  call growth maxLen o st = Some (v, st1) → paymentH st `prefix_of` ph →
  processed_by (paymentH st) pp paymentID o = processed_by ph pp paymentID o.
Proof.
  intros Hc Hp.
  destruct o as [| | | | | | | | | | | |pp' payment| | | |]; simpl; try done.
  simpl in Hc. unfold PaymentProcessor_ProcessPayment in Hc.
  destruct pp' as [l|]; simpl in Hc; [|done].
  destruct (paymentProcessorH st !! l) as [m|]; simpl in Hc; [|done].
  destruct (deref (paymentH st) payment) as [b|] eqn:Hb; simpl in Hc; [|done].
  by rewrite (deref_prefix _ _ _ _ Hp Hb).
Qed.

Lemma call_payments o st v st1 l m paymentID :
  call growth maxLen o st = Some (v, st1) → paymentProcessorH st !! l = Some m →
  ∃ m1, paymentProcessorH st1 !! l = Some m1
    ∧ payments m1 !! paymentID
      = match processed_by (paymentH st) (Some l) paymentID o with
        | Some p => Some p
        | None => payments m !! paymentID
        end.
Proof.
  intros Hc Hm.
  destruct o as [| | | | |f n| | | |bm booking| | |pp payment| |ams ?|ams ?|];
    simpl in Hc |- *;
    try (injection Hc as <- <-; exists m; by split).
  - destruct (NewFlight _ _ _ _ _ _ _ _) as [[p s]|] eqn:E; simpl in Hc; [|done].
    injection Hc as <- <-. apply NewFlight_inv in E as (? & _ & _ & _ & ->).
    exists m. by split.
  - unfold Flight_BookSeat in Hc.
    destruct (n <? 1)%Z; simpl in Hc; [injection Hc as <- <-; exists m; by split|].
    destruct (deref (flightH st) f) as [fl|]; simpl in Hc; [|done].
    destruct (_ <? _)%Z; [injection Hc as <- <-; exists m; by split|].
    destruct (Seats fl !! _) as [[l'|]|]; simpl in Hc; try done.
    destruct (seatH st !! l') as [s|]; simpl in Hc; [|done].
    destruct (IsBooked s); injection Hc as <- <-; exists m; by split.
  - destruct (FlightSearch_SearchFlights _ _ _ _ _); simpl in Hc; [|done].
    injection Hc as <- <-. exists m. by split.
  - unfold GetBookingManager in Hc. destruct (onceBookingManager st).
    + injection Hc as <- <-. exists m. by split.
    + simpl in Hc. injection Hc as <- <-. exists m. by split.
  - unfold BookingManager_AddBooking in Hc.
    destruct bm as [l'|]; simpl in Hc; [|done].
    destruct (bookingManagerH st !! l'); simpl in Hc; [|done].
    destruct (deref (bookingH st) booking); simpl in Hc; [|done].
    injection Hc as <- <-. exists m. by split.
  - destruct (BookingManager_GetBooking _ _ _); simpl in Hc; [|done].
    injection Hc as <- <-. exists m. by split.
  - unfold GetPaymentProcessor in Hc. destruct (oncePaymentProcessor st).
    + injection Hc as <- <-. exists m. by split.
    + simpl in Hc. injection Hc as <- <-. exists m. simpl.
      split; [by apply heap_snoc_old|done].
  - unfold PaymentProcessor_ProcessPayment in Hc.
    destruct pp as [l'|]; simpl in Hc; [|done].
    destruct (paymentProcessorH st !! l') as [m'|] eqn:Hm'; simpl in Hc; [|done].
    destruct (deref (paymentH st) payment) as [b|] eqn:Hb; simpl in Hc; [|done].
    injection Hc as <- <-. simpl.
    destruct (decide (l' = l)) as [->|Hne].
    + rewrite Hm in Hm'. injection Hm' as <-. eexists. split.
      * apply list_lookup_insert_eq. by eapply lookup_lt_Some.
      * simpl. destruct (decide (PaymentID b = paymentID)) as [->|Hid].
        -- rewrite decide_True by done. by rewrite lookup_insert_eq.
        -- rewrite decide_False by (by intros [_ ?]). by rewrite lookup_insert_ne.
    + exists m. rewrite list_lookup_insert_ne by done. split; [done|].
      rewrite decide_False; [done|]. intros [[= ?] _]. done.
  - unfold NewAirlineManagementSystem, make_slice, NewFlightSearch, alloc,
      GetBookingManager, GetPaymentProcessor in Hc.
    destruct (onceBookingManager st) eqn:Hob, (oncePaymentProcessor st) eqn:Hop;
      simpl in Hc; rewrite ?Hob, ?Hop in Hc; simpl in Hc;
      rewrite ?Hob, ?Hop in Hc; simpl in Hc;
      injection Hc as <- <-; exists m; simpl;
      (split; [done || by apply heap_snoc_old|done]).
  - unfold AirlineManagementSystem_AddFlight in Hc.
    destruct ams as [l'|]; simpl in Hc; [|done].
    destruct (amsH st !! l'); simpl in Hc; [|done].
    destruct (go_append _ _ _ _) as [[s arrs]|]; simpl in Hc; [|done].
    injection Hc as <- <-. exists m. by split.
  - unfold AirlineManagementSystem_AddAircraft in Hc.
    destruct ams as [l'|]; simpl in Hc; [|done].
    destruct (amsH st !! l'); simpl in Hc; [|done].
    destruct (go_append _ _ _ _) as [[s arrs]|]; simpl in Hc; [|done].
    injection Hc as <- <-. exists m. by split.
  - destruct (AirlineManagementSystem_SearchFlights _ _ _ _ _); simpl in Hc; [|done].
    injection Hc as <- <-. exists m. by split.
Qed.

Lemma run_payments l paymentID os : ∀ st vs st' m,
  run growth maxLen os st = Some (vs, st') → paymentProcessorH st !! l = Some m →
  ∃ m', paymentProcessorH st' !! l = Some m'
    ∧ payments m' !! paymentID
      = match last_processed (paymentH st') (Some l) paymentID os with
        | Some p => Some p
        | None => payments m !! paymentID
        end.
Proof.
  induction os as [|o os IH]; intros st vs st' m Hrun Hm.
  - injection Hrun as <- <-. exists m. by split.
  - apply run_cons in Hrun as (v & st1 & vs' & Hc & Hr & ->).
    destruct (call_payments _ _ _ _ _ _ paymentID Hc Hm) as (m1 & Hm1 & Hb1).
    destruct (IH _ _ _ _ Hr Hm1) as (m' & Hm' & Hb').
    exists m'. split; [done|]. simpl. rewrite Hb'.
    destruct (last_processed _ _ _ os); [done|]. rewrite Hb1.
    erewrite processed_by_stable; [done|exact Hc|].
    etrans; [apply (ev_payment _ _ (call_evolves growth maxLen _ _ _ _ Hc))|].
    apply (ev_payment _ _ (run_evolves growth maxLen _ _ _ _ Hr)).
Qed.

(** X14: after any calls, the processor's map holds under an id the
    pointer passed to the last ProcessPayment under that id, which is
    never nil; with no such call the id reads as before. *)
Theorem ProcessPayment_last_write_wins pp m st os vs st' paymentID :
  deref (paymentProcessorH st) pp = Some m →
  run growth maxLen os st = Some (vs, st') →
  ∃ m', deref (paymentProcessorH st') pp = Some m'
    ∧ match last_processed (paymentH st') pp paymentID os with
      | Some payment => payments m' !! paymentID = Some payment ∧ payment ≠ None
      | None => payments m' !! paymentID = payments m !! paymentID
      end.
Proof.
  intros Hm Hrun. destruct pp as [l|]; simpl in Hm; [|done].
  destruct (run_payments l paymentID _ _ _ _ m Hrun Hm) as (m' & Hm' & Hb').
  exists m'. split; [done|]. rewrite Hb'.
  destruct (last_processed _ _ _ os) as [p|] eqn:Hl; [|done].
  split; [done|]. by eapply last_processed_not_nil.
Qed.

End Payments.

(** ** Callers served one after the other: who wins *)

Lemma BookSeat_flag_step st f n b st1 m :
  wf_flight st f = true → Flight_BookSeat f n st = Some (b, st1) →
  seat_booked st1 f m = (λ x, x || bool_decide (m = n)) <$> seat_booked st f m.
Proof.
  intros Hwf Hbook.
  destruct (BookSeat_cases st f n Hwf)
    as (fl & a & Hf & _ & Hlen & Hnd & [[Hout Hres]|[Hin Hres]]).
  - rewrite Hres in Hbook. injection Hbook as <- <-.
    destruct (decide (m = n)) as [->|Hne].
    + assert (seat_booked st f n = None) as ->; [|done].
      unfold seat_booked, seat_of, seat_loc. destruct (Z.ltb_spec n 1); [done|].
      rewrite Hf. simpl. rewrite lookup_ge_None_2 by lia. done.
    + rewrite bool_decide_eq_false_2 by done.
      destruct (seat_booked st f m) as [[]|]; done.
  - destruct Hres as (l & s & Hl & Hs & Hsn & Hseat & Hres).
    rewrite Hres in Hbook.
    destruct (IsBooked s) eqn:Hb; injection Hbook as <- <-.
    + destruct (decide (m = n)) as [->|Hne].
      * unfold seat_booked. rewrite Hseat. simpl. rewrite Hb. done.
      * rewrite bool_decide_eq_false_2 by done.
        destruct (seat_booked st f m) as [[]|]; done.
    + destruct (decide (m = n)) as [->|Hne].
      * unfold seat_booked. rewrite Hseat. simpl. rewrite Hb.
        rewrite bool_decide_eq_true_2 by done.
        erewrite seat_of_in_range; [|exact Hf|lia|exact Hl]. simpl.
        rewrite list_lookup_insert_eq by (by eapply lookup_lt_Some). done.
      * rewrite bool_decide_eq_false_2 by done. unfold seat_booked.
        rewrite (BookSeat_other_seats st f fl l s m n) by (done || lia).
        destruct (seat_of st f m) as [[? []]|]; done.
Qed.

Lemma BookSeat_result st f n b st1 :
  wf_flight st f = true → Flight_BookSeat f n st = Some (b, st1) →
  b = true ↔ seat_booked st f n = Some false.
Proof.
  intros Hwf Hbook.
  destruct (seat_booked st f n) as [[]|] eqn:Hs.
  - rewrite (BookSeat_booked st f n Hs) in Hbook. injection Hbook as <- <-. done.
  - destruct (BookSeat_free st f n Hs) as (st2 & H2 & _).
    rewrite H2 in Hbook. injection Hbook as <- <-. done.
  - destruct (BookSeat_cases st f n Hwf)
      as (fl & a & Hf & _ & Hlen & Hnd & [[Hout Hres]|[Hin Hres]]).
    + rewrite Hres in Hbook. injection Hbook as <- <-. done.
    + destruct Hres as (l & s & Hl & Hs' & Hsn & Hseat & Hres).
      unfold seat_booked in Hs. by rewrite Hseat in Hs.
Qed.

(** X3: callers served one after the other on a well-formed flight all
    return.  Afterwards a seat is booked exactly when it was booked
    before or was asked for, and a call returns true exactly when its
    seat was free at the start and no earlier call asked for it. *)
Theorem serial_first_caller_wins st f calls :
  wf_flight st f = true →
  ∃ bs st',
    run_serial f calls st = Some (bs, st')
    ∧ length bs = length calls
    ∧ (∀ m, seat_booked st' f m
            = (λ x, x || bool_decide (m ∈ calls)) <$> seat_booked st f m)
    ∧ (∀ i, bs !! i = Some true
            ↔ ∃ n, calls !! i = Some n ∧ seat_booked st f n = Some false
                   ∧ n ∉ take i calls).
Proof.
  revert st. induction calls as [|n calls IH]; intros st Hwf.
  - exists [], st. split; [done|]. split; [done|]. split.
    + intros m. rewrite bool_decide_eq_false_2 by apply not_elem_of_nil.
      destruct (seat_booked st f m) as [[]|]; done.
    + intros i. split; [done|]. by intros (n & Hn & _).
  - destruct (BookSeat_returns st f n Hwf) as (b & st1 & Hbook).
    pose proof (Flight_BookSeat_evolves _ _ _ _ _ Hbook) as Hev1.
    destruct (IH st1 (evolves_wf_flight _ _ _ Hev1 Hwf))
      as (bs & st' & Hrun & Hlen & Hflags & Hwin).
    exists (b :: bs), st'. simpl. rewrite Hbook. simpl. rewrite Hrun. simpl.
    split; [done|]. split; [by rewrite Hlen|]. split.
    + intros m. rewrite Hflags, (BookSeat_flag_step st f n b st1 m) by done.
      destruct (seat_booked st f m) as [x|]; simpl; [|done]. f_equal.
      rewrite <- orb_assoc. f_equal.
      destruct (decide (m = n)) as [->|Hne].
      * rewrite bool_decide_eq_true_2 by done.
        rewrite (bool_decide_eq_true_2 (n ∈ n :: calls)) by left. done.
      * rewrite (bool_decide_eq_false_2 (m = n)) by done. simpl.
        apply bool_decide_ext. rewrite elem_of_cons. tauto.
    + intros [|i]; simpl.
      * split.
        -- intros [= ->]. exists n. split; [done|].
           split; [by apply (BookSeat_result st f n true st1)|].
           apply not_elem_of_nil.
        -- intros (n' & [= <-] & Hfree & _). f_equal.
           by apply (BookSeat_result st f n b st1 Hwf Hbook).
      * rewrite Hwin. split.
        -- intros (n' & Hn' & Hfree & Hnot). exists n'. split; [done|].
           rewrite (BookSeat_flag_step st f n b st1 n') in Hfree by done.
           destruct (seat_booked st f n') as [x|] eqn:Hx; simpl in Hfree; [|done].
           injection Hfree as Hfree. apply orb_false_iff in Hfree as [-> Hneq].
           apply bool_decide_eq_false in Hneq. split; [done|].
           rewrite not_elem_of_cons. by split.
        -- intros (n' & Hn' & Hfree & Hnot). exists n'. split; [done|].
           apply not_elem_of_cons in Hnot as [Hne Hnot]. split; [|done].
           rewrite (BookSeat_flag_step st f n b st1 n') by done. rewrite Hfree.
           simpl. by rewrite bool_decide_eq_false_2.
Qed.

(** ** Any interleaving *)

Lemma set_seatH_id st : set_seatH (seatH st) st = st.
Proof. by destruct st. Qed.

Lemma BookSeat_step_seats g st g' st' :
  BookSeat_step g st = Some (g', st') →
  st' = set_seatH (seatH st') st
  ∧ seats_advance (seatH st) (seatH st')
  ∧ length (seatH st') = length (seatH st)
  ∧ ∀ b, g = Returned b → g' = Returned b.
Proof.
  intros H. destruct g as [f n|f n|f n|b]; simpl in H.
  - destruct (n <? 1)%Z;
      [injection H as <- <-; (split; [by rewrite set_seatH_id|]);
       (split; [apply seats_advance_refl|]); by split|].
    destruct (deref (flightH st) f) as [fl|]; simpl in H; [|done].
    destruct (_ <? _)%Z; injection H as <- <-;
      (split; [by rewrite set_seatH_id|]); (split; [apply seats_advance_refl|]);
      by split.
  - destruct (seat_loc st f n) as [l|]; simpl in H; [|done].
    destruct (seatH st !! l) as [s|]; simpl in H; [|done].
    destruct (IsBooked s); injection H as <- <-;
      (split; [by rewrite set_seatH_id|]); (split; [apply seats_advance_refl|]);
      by split.
  - destruct (seat_loc st f n) as [l|]; simpl in H; [|done].
    destruct (seatH st !! l) as [s|] eqn:Hs; simpl in H; [|done].
    injection H as <- <-. simpl. split; [done|].
    split; [by apply seats_advance_book|]. split; [by rewrite length_insert|done].
  - injection H as <- <-. split; [by rewrite set_seatH_id|].
    split; [apply seats_advance_refl|]. split; [done|]. by intros b' [= ->].
Qed.

(** X15: whatever the interleaving of goroutines calling BookSeat, only
    seat records are written, none is added or removed, every seat keeps
    its number, a booked seat stays booked, and a goroutine that has
    returned keeps its result. *)
Theorem any_schedule_only_sets_flags sched : ∀ gs st gs' st',
  run_schedule sched gs st = Some (gs', st') →
  st' = set_seatH (seatH st') st
  ∧ length (seatH st') = length (seatH st)
  ∧ (∀ l s, seatH st !! l = Some s →
       ∃ s', seatH st' !! l = Some s' ∧ SeatNumber s' = SeatNumber s
             ∧ (IsBooked s = true → IsBooked s' = true))
  ∧ length gs' = length gs
  ∧ ∀ i b, gs !! i = Some (Returned b) → gs' !! i = Some (Returned b).
Proof.
  induction sched as [|i sched IH]; intros gs st gs' st' H; simpl in H.
  - injection H as <- <-. split; [by rewrite set_seatH_id|]. split; [done|].
    split; [apply seats_advance_refl|]. by split.
  - destruct (gs !! i) as [g|] eqn:Hg; simpl in H; [|done].
    destruct (BookSeat_step g st) as [[g1 st1]|] eqn:Hstep; simpl in H; [|done].
    destruct (BookSeat_step_seats _ _ _ _ Hstep) as (Hst1 & Hadv1 & Hlen1 & Hret1).
    destruct (IH _ _ _ _ H) as (Hst' & Hlen' & Hadv' & Hgl & Hret').
    split; [rewrite Hst', Hst1; by destruct st|].
    split; [lia|].
    split; [by eapply seats_advance_trans|].
    split; [by rewrite Hgl, length_insert|].
    intros j b Hj. apply Hret'. destruct (decide (i = j)) as [->|Hne].
    + rewrite Hg in Hj. injection Hj as ->. rewrite (Hret1 b eq_refl).
      apply list_lookup_insert_eq. by eapply lookup_lt_Some.
    + by rewrite list_lookup_insert_ne.
Qed.

Section Compose.
Variable growth : nat → nat.
Variable maxLen : Z.

(** X9: a FlightSearch built over the facade's slice after the
    additions returns the flights added to the facade that are on the
    route and date, in the order they were added. *)
Theorem search_built_after_additions
  os0 vs0 st0 ams st os vs st' a fs st'' source destination date :
  run growth maxLen os0 init_store = Some (vs0, st0) →
  NewAirlineManagementSystem st0 = (ams, st) →
  run growth maxLen os st = Some (vs, st') →
  deref (amsH st') ams = Some a →
  NewFlightSearch (ams_flights a) st' = (fs, st'') →
  Forall (λ p, is_Some (deref (flightH st') p)) (flights_added ams os) →
  FlightSearch_SearchFlights fs source destination date st''
  = Some (filter (on_route_and_date (flightH st') source destination date)
            (flights_added ams os)).
Proof.
  intros Hrun0 Hnew Hrun Ha Hfs Hall.
  assert (∃ a', deref (amsH st') ams = Some a'
            ∧ slice_elems (flightArrH st') (ams_flights a')
              = Some (flights_added ams os)) as (a' & Ha' & Hel).
  { pose proof (run_facades_ok growth maxLen _ _ _ _ init_facades_ok Hrun0) as Hok0.
    assert (facades_ok st) as Hok.
    { apply (call_facades_ok growth maxLen CallNewAirlineManagementSystem st0 (VPtr ams));
        [done|]. simpl. by rewrite Hnew. }
    apply NewAirlineManagementSystem_inv in Hnew
      as (l & a0 & fsl & b & -> & Ha0 & _ & _ & _ & _ & _ & _ & Hxs & Hys).
    destruct (run_facade_collections growth maxLen _ _ _ _ _ _ _ _ Hok Hrun Ha0 Hxs Hys)
      as (a' & Ha' & Hxs' & _).
    exists a'. by split. }
  rewrite Ha in Ha'. injection Ha' as <-.
  unfold NewFlightSearch in Hfs. simpl in Hfs. injection Hfs as <- <-.
  unfold FlightSearch_SearchFlights. simpl. rewrite heap_snoc_new. simpl.
  rewrite Hel. simpl. by rewrite SearchFlights_loop_filter.
Qed.

End Compose.

(** ** The further properties at concrete runs *)

Lemma facade_search_finds_nothing_witness :
  NewAirlineManagementSystem init_store = (Some 0, facade_built)
  ∧ run spare maxLen64 facade_calls facade_built
    = Some (vals_from facade_built facade_calls, store_from facade_built facade_calls)
  ∧ AirlineManagementSystem_SearchFlights (Some 0) "SFO" "JFK" jan1
      (store_from facade_built facade_calls) = Some [].
Proof.
  assert (NewAirlineManagementSystem init_store = (Some 0, facade_built)) as H1
    by (vm_compute; reflexivity).
  assert (run spare maxLen64 facade_calls facade_built
          = Some (vals_from facade_built facade_calls,
                  store_from facade_built facade_calls)) as H2
    by (vm_compute; reflexivity).
  split; [exact H1|]. split; [exact H2|].
  exact (facade_search_finds_nothing spare maxLen64 init_store (Some 0) facade_built
           facade_calls _ _ "SFO" "JFK" jan1 H1 H2).
Defined.

Lemma serial_BookSeat_on_new_flight_witness :
  NewFlight maxLen64 "AA1" "SFO" "JFK" jan1_0800 jan1_1400 (Some 0) after_aircraft
    = Some (Some 0, flight_built)
  ∧ totalSeats flight_built (Some 0) = Some 2%Z
  ∧ (∀ n, (1 ≤ n ≤ 2)%Z → n ∈ seat_calls)
  ∧ ∃ bs st',
      run_serial (Some 0) seat_calls flight_built = Some (bs, st')
      ∧ length bs = length seat_calls
      ∧ successes bs = Z.to_nat 2
      ∧ ∀ i j n, seat_calls !! i = Some n → seat_calls !! j = Some n →
                 bs !! i = Some true → bs !! j = Some true → i = j.
Proof.
  assert (NewFlight maxLen64 "AA1" "SFO" "JFK" jan1_0800 jan1_1400 (Some 0) after_aircraft
          = Some (Some 0, flight_built)) as H1 by (vm_compute; reflexivity).
  assert (totalSeats flight_built (Some 0) = Some 2%Z) as H2
    by (vm_compute; reflexivity).
  assert (∀ n, (1 ≤ n ≤ 2)%Z → n ∈ seat_calls) as H3.
  { intros n Hn. assert (n = 1 ∨ n = 2)%Z as Hcase by lia. clear Hn.
    unfold seat_calls. destruct Hcase as [-> | ->]; set_solver. }
  split; [exact H1|]. split; [exact H2|]. split; [exact H3|].
  exact (serial_BookSeat_on_new_flight _ _ _ _ _ _ _ _ _ _ _ _ H1 H2 H3).
Defined.

Lemma serial_first_caller_wins_witness :
  wf_flight flight_built (Some 0) = true
  ∧ ∃ bs st',
      run_serial (Some 0) mixed_calls flight_built = Some (bs, st')
      ∧ length bs = length mixed_calls
      ∧ (∀ m, seat_booked st' (Some 0) m
              = (λ x, x || bool_decide (m ∈ mixed_calls))
                  <$> seat_booked flight_built (Some 0) m)
      ∧ (∀ i, bs !! i = Some true
              ↔ ∃ n, mixed_calls !! i = Some n
                     ∧ seat_booked flight_built (Some 0) n = Some false
                     ∧ n ∉ take i mixed_calls).
Proof.
  assert (wf_flight flight_built (Some 0) = true) as H1 by (vm_compute; reflexivity).
  split; [exact H1|].
  exact (serial_first_caller_wins flight_built (Some 0) mixed_calls H1).
Defined.

(** With seats 2, 1, 2, 5 asked for on the two-seat flight, the first
    two callers succeed. *)
Example serial_mixed_calls :
  fst <$> run_serial (Some 0) mixed_calls flight_built
  = Some [true; true; false; false].
Proof. vm_compute. reflexivity. Qed.

Lemma reachable_flights_well_formed_witness :
  run spare maxLen64 scenario init_store
    = Some (vals_from init_store scenario, store_after scenario)
  ∧ deref (flightH (store_after scenario)) (Some 0) = Some scenario_flight
  ∧ wf_flight (store_after scenario) (Some 0) = true
  ∧ ∀ n, ∃ b st', Flight_BookSeat (Some 0) n (store_after scenario) = Some (b, st').
Proof.
  assert (run spare maxLen64 scenario init_store
          = Some (vals_from init_store scenario, store_after scenario)) as H1
    by (vm_compute; reflexivity).
  assert (deref (flightH (store_after scenario)) (Some 0) = Some scenario_flight)
    as H2 by (vm_compute; reflexivity).
  split; [exact H1|]. split; [exact H2|].
  exact (reachable_flights_well_formed spare maxLen64 scenario _ _ (Some 0) scenario_flight
           H1 H2).
Defined.

Lemma BookSeat_leaves_other_flights_witness :
  run spare maxLen64 two_flights init_store
    = Some (vals_from init_store two_flights, store_after two_flights)
  ∧ Some 0 ≠ Some 1
  ∧ Flight_BookSeat (Some 0) 1 (store_after two_flights)
    = Some (true, store_from (store_after two_flights) [CallBookSeat (Some 0) 1])
  ∧ flight_seats (store_from (store_after two_flights) [CallBookSeat (Some 0) 1])
      (Some 1)
    = flight_seats (store_after two_flights) (Some 1)
  ∧ ∀ m, seat_of (store_from (store_after two_flights) [CallBookSeat (Some 0) 1])
           (Some 1) m
         = seat_of (store_after two_flights) (Some 1) m.
Proof.
  assert (run spare maxLen64 two_flights init_store
          = Some (vals_from init_store two_flights, store_after two_flights)) as H1
    by (vm_compute; reflexivity).
  assert (Some 0 ≠ Some 1) as H2 by (intros [=]).
  assert (Flight_BookSeat (Some 0) 1 (store_after two_flights)
          = Some (true, store_from (store_after two_flights)
                          [CallBookSeat (Some 0) 1])) as H3
    by (vm_compute; reflexivity).
  split; [exact H1|]. split; [exact H2|]. split; [exact H3|].
  exact (BookSeat_leaves_other_flights spare maxLen64 two_flights _ _ (Some 0) (Some 1) 1
           true _ H1 H2 H3).
Defined.

Lemma facades_share_the_singletons_witness :
  run spare maxLen64 scenario init_store
    = Some (vals_from init_store scenario, store_after scenario)
  ∧ amsH (store_after scenario) !! 0 = Some scenario_facade
  ∧ ∃ bm pp : nat,
      bookingManager scenario_facade = Some bm
      ∧ paymentProcessor scenario_facade = Some pp
      ∧ is_Some (bookingManagerH (store_after scenario) !! bm)
      ∧ is_Some (paymentProcessorH (store_after scenario) !! pp)
      ∧ GetBookingManager (store_after scenario) = (Some bm, store_after scenario)
      ∧ GetPaymentProcessor (store_after scenario) = (Some pp, store_after scenario)
      ∧ ∀ l' a', amsH (store_after scenario) !! l' = Some a' →
          bookingManager a' = Some bm ∧ paymentProcessor a' = Some pp.
Proof.
  assert (run spare maxLen64 scenario init_store
          = Some (vals_from init_store scenario, store_after scenario)) as H1
    by (vm_compute; reflexivity).
  assert (amsH (store_after scenario) !! 0 = Some scenario_facade) as H2
    by (vm_compute; reflexivity).
  split; [exact H1|]. split; [exact H2|].
  exact (facades_share_the_singletons spare maxLen64 scenario _ _ 0 scenario_facade H1 H2).
Defined.

Lemma AddFlight_AddAircraft_never_panic_witness :
  run spare maxLen64 scenario init_store
    = Some (vals_from init_store scenario, store_after scenario)
  ∧ amsH (store_after scenario) !! 0 = Some scenario_facade
  ∧ is_Some (AirlineManagementSystem_AddFlight spare (Some 0) None
               (store_after scenario))
  ∧ is_Some (AirlineManagementSystem_AddAircraft spare (Some 0) None
               (store_after scenario)).
Proof.
  assert (run spare maxLen64 scenario init_store
          = Some (vals_from init_store scenario, store_after scenario)) as H1
    by (vm_compute; reflexivity).
  assert (amsH (store_after scenario) !! 0 = Some scenario_facade) as H2
    by (vm_compute; reflexivity).
  split; [exact H1|]. split; [exact H2|].
  exact (AddFlight_AddAircraft_never_panic spare maxLen64 scenario _ _ 0 scenario_facade
           None H1 H2).
Defined.

Lemma facade_collections_accumulate_witness :
  run spare maxLen64 two_flights_one_facade init_store
    = Some (vals_from init_store two_flights_one_facade,
            store_after two_flights_one_facade)
  ∧ NewAirlineManagementSystem (store_after two_flights_one_facade)
    = (Some 1, second_facade_built)
  ∧ run spare maxLen64 second_facade_calls second_facade_built
    = Some (vals_from second_facade_built second_facade_calls,
            store_from second_facade_built second_facade_calls)
  ∧ ∃ a,
      deref (amsH (store_from second_facade_built second_facade_calls)) (Some 1)
        = Some a
      ∧ slice_elems (flightArrH (store_from second_facade_built second_facade_calls))
          (ams_flights a)
        = Some (flights_added (Some 1) second_facade_calls)
      ∧ slice_elems (aircraftArrH (store_from second_facade_built second_facade_calls))
          (ams_aircrafts a)
        = Some (aircraft_added (Some 1) second_facade_calls).
Proof.
  assert (run spare maxLen64 two_flights_one_facade init_store
          = Some (vals_from init_store two_flights_one_facade,
                  store_after two_flights_one_facade)) as H1
    by (vm_compute; reflexivity).
  assert (NewAirlineManagementSystem (store_after two_flights_one_facade)
          = (Some 1, second_facade_built)) as H2 by (vm_compute; reflexivity).
  assert (run spare maxLen64 second_facade_calls second_facade_built
          = Some (vals_from second_facade_built second_facade_calls,
                  store_from second_facade_built second_facade_calls)) as H3
    by (vm_compute; reflexivity).
  split; [exact H1|]. split; [exact H2|]. split; [exact H3|].
  exact (facade_collections_accumulate spare maxLen64 _ _ _ _ _ _ _ _ H1 H2 H3).
Defined.

(** The second facade was given AA2 then AA1; the flight added to the
    first facade in between does not show. *)
Example second_facade_flights :
  flights_added (Some 1) second_facade_calls = [Some 1; Some 0].
Proof. vm_compute. reflexivity. Qed.

Lemma search_built_after_additions_witness :
  run spare maxLen64 four_flights_only init_store
    = Some (vals_from init_store four_flights_only, store_after four_flights_only)
  ∧ NewAirlineManagementSystem (store_after four_flights_only)
    = (Some 0, facade_for_four)
  ∧ run spare maxLen64 four_additions facade_for_four
    = Some (vals_from facade_for_four four_additions, four_added)
  ∧ deref (amsH four_added) (Some 0) = Some facade_of_four
  ∧ NewFlightSearch (ams_flights facade_of_four) four_added
    = (Some 1, (NewFlightSearch (ams_flights facade_of_four) four_added).2)
  ∧ Forall (λ p, is_Some (deref (flightH four_added) p))
      (flights_added (Some 0) four_additions)
  ∧ FlightSearch_SearchFlights (Some 1) "SFO" "JFK" jan1
      (NewFlightSearch (ams_flights facade_of_four) four_added).2
    = Some (filter (on_route_and_date (flightH four_added) "SFO" "JFK" jan1)
              (flights_added (Some 0) four_additions)).
Proof.
  assert (run spare maxLen64 four_flights_only init_store
          = Some (vals_from init_store four_flights_only,
                  store_after four_flights_only)) as H1
    by (vm_compute; reflexivity).
  assert (NewAirlineManagementSystem (store_after four_flights_only)
          = (Some 0, facade_for_four)) as H2 by (vm_compute; reflexivity).
  assert (run spare maxLen64 four_additions facade_for_four
          = Some (vals_from facade_for_four four_additions, four_added)) as H3
    by (vm_compute; reflexivity).
  assert (deref (amsH four_added) (Some 0) = Some facade_of_four) as H4
    by (vm_compute; reflexivity).
  assert (NewFlightSearch (ams_flights facade_of_four) four_added
          = (Some 1, (NewFlightSearch (ams_flights facade_of_four) four_added).2))
    as H5 by (vm_compute; reflexivity).
  assert (Forall (λ p, is_Some (deref (flightH four_added) p))
            (flights_added (Some 0) four_additions)) as H6
    by (apply (bool_decide_eq_true_1 _); vm_compute; reflexivity).
  split; [exact H1|]. split; [exact H2|]. split; [exact H3|]. split; [exact H4|].
  split; [exact H5|]. split; [exact H6|].
  exact (search_built_after_additions spare maxLen64 _ _ _ _ _ _ _ _ _ _ _ "SFO" "JFK" jan1
           H1 H2 H3 H4 H5 H6).
Defined.

Lemma SearchFlights_returns_iff_no_nil_witness :
  deref (flightSearchH (store_after nil_flight_added)) (Some 1)
    = Some (mkFlightSearch (mkSlice 1 1 1))
  ∧ slice_elems (flightArrH (store_after nil_flight_added)) (mkSlice 1 1 1)
    = Some [None]
  ∧ (is_Some (FlightSearch_SearchFlights (Some 1) "SFO" "JFK" jan1
                (store_after nil_flight_added))
     ↔ Forall (λ p, is_Some (deref (flightH (store_after nil_flight_added)) p))
         [None]).
Proof.
  assert (deref (flightSearchH (store_after nil_flight_added)) (Some 1)
          = Some (mkFlightSearch (mkSlice 1 1 1))) as H1
    by (vm_compute; reflexivity).
  assert (slice_elems (flightArrH (store_after nil_flight_added)) (mkSlice 1 1 1)
          = Some [None]) as H2 by (vm_compute; reflexivity).
  split; [exact H1|]. split; [exact H2|].
  exact (SearchFlights_returns_iff_no_nil (Some 1) "SFO" "JFK" jan1
           (store_after nil_flight_added) _ _ H1 H2).
Defined.

(** After AddFlight(nil) a search over the collection panics. *)
Example search_over_nil_panics :
  FlightSearch_SearchFlights (Some 1) "SFO" "JFK" jan1 (store_after nil_flight_added)
  = None.
Proof. vm_compute. reflexivity. Qed.

Lemma SearchFlights_ignores_time_of_day_witness :
  Year jan1 = Year jan1_1400 ∧ Month jan1 = Month jan1_1400
  ∧ Day jan1 = Day jan1_1400
  ∧ FlightSearch_SearchFlights (Some 1) "SFO" "JFK" jan1 (store_after four_flights)
    = FlightSearch_SearchFlights (Some 1) "SFO" "JFK" jan1_1400
        (store_after four_flights)
  ∧ AirlineManagementSystem_SearchFlights (Some 0) "SFO" "JFK" jan1
      (store_after four_flights)
    = AirlineManagementSystem_SearchFlights (Some 0) "SFO" "JFK" jan1_1400
        (store_after four_flights).
Proof.
  split; [reflexivity|]. split; [reflexivity|]. split; [reflexivity|].
  exact (SearchFlights_ignores_time_of_day (Some 1) (Some 0) "SFO" "JFK" jan1
           jan1_1400 (store_after four_flights) eq_refl eq_refl eq_refl).
Defined.


Lemma booking_round_trip_witness :
  deref (bookingManagerH manager_created) (Some 0) = Some (mkBookingManager ∅)
  ∧ ∃ b st1 st2,
      NewBooking "B7" None None 99 jan1_0800 manager_created = (b, st1)
      ∧ BookingManager_AddBooking (Some 0) b st1 = Some st2
      ∧ BookingManager_GetBooking (Some 0) "B7" st2 = Some b
      ∧ deref (bookingH st2) b = Some (mkBooking "B7" None None 99 jan1_0800)
      ∧ b ≠ None
      ∧ seatH st2 = seatH manager_created
      ∧ (∀ id, id ≠ "B7" →
           BookingManager_GetBooking (Some 0) id st2
           = BookingManager_GetBooking (Some 0) id manager_created).
Proof.
  assert (deref (bookingManagerH manager_created) (Some 0)
          = Some (mkBookingManager ∅)) as H1 by (vm_compute; reflexivity).
  split; [exact H1|].
  exact (booking_round_trip (Some 0) (mkBookingManager ∅) manager_created "B7"
           None None 99 jan1_0800 H1).
Defined.

Lemma ProcessPayment_last_write_wins_witness :
  deref (paymentProcessorH processor_created) (Some 0) = Some (mkPaymentProcessor ∅)
  ∧ run spare maxLen64 two_payments processor_created
    = Some (vals_from processor_created two_payments,
            store_from processor_created two_payments)
  ∧ ∃ m',
      deref (paymentProcessorH (store_from processor_created two_payments)) (Some 0)
        = Some m'
      ∧ match last_processed (paymentH (store_from processor_created two_payments))
                (Some 0) "P1" two_payments with
        | Some payment => payments m' !! "P1" = Some payment ∧ payment ≠ None
        | None => payments m' !! "P1" = payments (mkPaymentProcessor ∅) !! "P1"
        end.
Proof.
  assert (deref (paymentProcessorH processor_created) (Some 0)
          = Some (mkPaymentProcessor ∅)) as H1 by (vm_compute; reflexivity).
  assert (run spare maxLen64 two_payments processor_created
          = Some (vals_from processor_created two_payments,
                  store_from processor_created two_payments)) as H2
    by (vm_compute; reflexivity).
  split; [exact H1|]. split; [exact H2|].
  exact (ProcessPayment_last_write_wins spare maxLen64 (Some 0) (mkPaymentProcessor ∅)
           processor_created two_payments _ _ "P1" H1 H2).
Defined.

(** P1 reads the second payment recorded under it. *)
Example last_processed_P1 :
  last_processed (paymentH (store_from processor_created two_payments))
    (Some 0) "P1" two_payments = Some (Some 1).
Proof. vm_compute. reflexivity. Qed.

Lemma any_schedule_only_sets_flags_witness :
  run_schedule [0; 1; 0; 1; 0; 1] [AtBounds (Some 0) 1; AtBounds (Some 0) 1]
    (store_after one_seat_flight)
    = Some ([Returned true; Returned true], raced)
  ∧ raced = set_seatH (seatH raced) (store_after one_seat_flight)
  ∧ length (seatH raced) = length (seatH (store_after one_seat_flight))
  ∧ (∀ l s, seatH (store_after one_seat_flight) !! l = Some s →
       ∃ s', seatH raced !! l = Some s' ∧ SeatNumber s' = SeatNumber s
             ∧ (IsBooked s = true → IsBooked s' = true))
  ∧ length [Returned true; Returned true]
    = length [AtBounds (Some 0) 1; AtBounds (Some 0) 1]
  ∧ ∀ i b, [AtBounds (Some 0) 1; AtBounds (Some 0) 1] !! i = Some (Returned b) →
           [Returned true; Returned true] !! i = Some (Returned b).
Proof.
  assert (run_schedule [0; 1; 0; 1; 0; 1] [AtBounds (Some 0) 1; AtBounds (Some 0) 1]
            (store_after one_seat_flight)
          = Some ([Returned true; Returned true], raced)) as H1
    by (vm_compute; reflexivity).
  split; [exact H1|].
  exact (any_schedule_only_sets_flags _ _ _ _ _ H1).
Defined.
